(** * Inventory of the WMS module: the reservation engine and its routes

    A shallow embedding of
    - [InventoryService] (server/lib/services: [getTotalStockForProduct],
      [isProductLowStock], [getItemsExpiringSoon], [reserveInventory],
      [releaseReservedInventory]),
    - the handlers [POST /], [GET /:id], [PUT /:id], [DELETE /:id] and
      [POST /:id/adjust] of server/routes/wms/inventoryItem.ts, with the
      schemas they validate against and the quantity the adjustment form
      announces,
    - the [wms_inventory_items] table of server/lib/db/schema/wms/inventory.ts,
    and the properties of the specification that concern them.

    Modelling conventions.
    - The table is the list of its rows.  [SELECT ... WHERE] is [filter],
      [UPDATE ... SET ... WHERE] rewrites every matching row,
      [ORDER BY expiry_date ASC NULLS LAST] is a stable sort (ties keep the
      order of the list, one of the orders the database may choose); a
      query without ORDER BY answers in an order the model leaves open.
    - [available_quantity] and [reserved_quantity] are [integer] columns:
      a table holds 32-bit values only ([columns] of a [World]), and the
      database refuses a write that would store anything else; the caller
      then gets an error and the table is as before.
    - Quantities passed in are JavaScript numbers holding integers; they are
      modelled as [Z], which agrees with JavaScript's arithmetic and
      printing on the safe integers ([safeInteger]).
    - Ids are texts.  The primary key on [id] is the hypothesis
      [primaryKey].  The id columns have the type [uuid]: the service
      functions are modelled for the well-formed ids their callers hand
      them, and what is stated of the handlers that pass the id of the
      path on as it is ([GET], [PUT], [DELETE]) is stated for ids that rows
      of the table carry.
    - [async] functions run to completion one after the other; a function is
      a state transformer over [World] that either returns or throws, and a
      throw keeps every update already sent to the database.
    - [new Date()] reads an arbitrary clock: the n-th reading is [dates w n]. *)

From Stdlib Require Import ZArith List String Ascii Bool Lia.
From Stdlib Require Import Sorting.Sorted Sorting.Permutation DecimalString.
Import ListNotations.
Open Scope string_scope.
Open Scope list_scope.
Open Scope Z_scope.

(** ** Data model *)

(** A calendar date (the [date] column type), compared field by field. *)
Record Date := mkDate { year : Z; month : Z; day : Z }.

Definition Date_compare (a b : Date) : comparison :=
  match year a ?= year b with
  | Eq => match month a ?= month b with
          | Eq => day a ?= day b
          | c => c
          end
  | c => c
  end.

(** A row of [wms_inventory_items]. *)
Record InventoryItem := mkInventoryItem {
  id : string;
  tenantId : string;
  productId : string;
  binId : string;
  availableQuantity : Z;
  reservedQuantity : Z;
  expiryDate : option Date;
  batchNumber : option string;
  lotNumber : option string;
  receivedDate : option Date;
  costPerUnit : option string;
  createdAt : Z;
  updatedAt : Z
}.

(** The column type [integer]: 32 bits, signed. *)
Definition int4 (n : Z) : bool := (-2147483648 <=? n) && (n <=? 2147483647).

(** The two [integer] columns of a row hold values of that type. *)
Definition fitsColumns (r : InventoryItem) : bool :=
  int4 (availableQuantity r) && int4 (reservedQuantity r).

Definition integerColumns (rows : list InventoryItem) : bool :=
  forallb fitsColumns rows.

(** [Number.isSafeInteger], for an integer. *)
Definition safeInteger (n : Z) : bool :=
  (-9007199254740991 <=? n) && (n <=? 9007199254740991).

(** The database and the clock. *)
Record World := mkWorld {
  wms_inventory_items : list InventoryItem;
  dates : nat -> Z;
  ticks : nat;
  columns : integerColumns wms_inventory_items = true
}.

(** A thrown [Error(message)]. *)
Record JsError := Error { message : string }.

Inductive Completion (A : Type) : Type :=
| Return (a : A)
| Throw (e : JsError).
Arguments Return {A} a.
Arguments Throw {A} e.

Definition Async (A : Type) : Type := World -> Completion A * World.

Definition ret {A} (a : A) : Async A := fun w => (Return a, w).

Definition throw {A} (e : JsError) : Async A := fun w => (Throw e, w).

Definition bind {A B} (c : Async A) (k : A -> Async B) : Async B :=
  fun w =>
    match c w with
    | (Return a, w') => k a w'
    | (Throw e, w') => (Throw e, w')
    end.

Definition try_catch {A} (body : Async A) (handler : JsError -> Async A) : Async A :=
  fun w =>
    match body w with
    | (Return a, w') => (Return a, w')
    | (Throw e, w') => handler e w'
    end.

Declare Scope async_scope.
Delimit Scope async_scope with async.
Notation "x <- c ;; k" := (bind c (fun x => k))
  (at level 100, c at next level, right associativity) : async_scope.
Notation "' p <- c ;; k" := (bind c (fun x => match x with p => k end))
  (at level 100, p pattern, c at next level, right associativity) : async_scope.
Open Scope async_scope.

(** ** The persistence layer *)

(** The error raised when the database refuses a value for an [integer]
    column; nothing depends on its text. *)
Definition integerOutOfRange : JsError := Error "value out of range for type integer".

(** The world after one reading of the clock. *)
Definition tick (w : World) : World :=
  mkWorld (wms_inventory_items w) (dates w) (S (ticks w)) (columns w).

(** [new Date()] *)
Definition new_Date : Async Z :=
  fun w => (Return (dates w (ticks w)), tick w).

(** The world holding [rows], when the database accepts them: [None] when
    some value does not fit its [integer] column. *)
Definition accept (fit : bool) (rows : list InventoryItem) (clock : nat -> Z) (n : nat)
    : integerColumns rows = fit -> option World :=
  match fit with
  | true => fun fits => Some (mkWorld rows clock n fits)
  | false => fun _ => None
  end.

Definition store (rows : list InventoryItem) (clock : nat -> Z) (n : nat) : option World :=
  accept (integerColumns rows) rows clock n eq_refl.

(** [db.select().from(inventoryItems).where(cond)] *)
Definition select_where (cond : InventoryItem -> bool) : Async (list InventoryItem) :=
  fun w => (Return (filter cond (wms_inventory_items w)), w).

(** [.limit(n)] on a result *)
Definition limit {A} (n : nat) (rows : list A) : list A := firstn n rows.

(** [db.update(inventoryItems).set(...).where(cond).returning()]: every
    matching row is rewritten and the rewritten rows are returned, unless a
    new value does not fit its column: the statement then fails as a whole. *)
Definition update_where (set : InventoryItem -> InventoryItem)
    (cond : InventoryItem -> bool) : Async (list InventoryItem) :=
  fun w =>
    match store (map (fun r => if cond r then set r else r) (wms_inventory_items w))
                (dates w) (ticks w) with
    | Some w' => (Return (map set (filter cond (wms_inventory_items w))), w')
    | None => (Throw integerOutOfRange, w)
    end.

(** [expiry_date ASC NULLS LAST]: [a] may come before [b]. *)
Definition expiry_leb (a b : option Date) : bool :=
  match a, b with
  | _, None => true
  | None, Some _ => false
  | Some x, Some y => match Date_compare x y with Gt => false | _ => true end
  end.

Fixpoint insert_by {A} (leb : A -> A -> bool) (x : A) (l : list A) : list A :=
  match l with
  | [] => [x]
  | y :: l' => if leb x y then x :: y :: l' else y :: insert_by leb x l'
  end.

(** [.orderBy(...)], stable. *)
Fixpoint orderBy {A} (leb : A -> A -> bool) (l : list A) : list A :=
  match l with
  | [] => []
  | x :: l' => insert_by leb x (orderBy leb l')
  end.

(** SQL [sum(column)] over the selected rows: NULL when there is none. *)
Definition sql_sum (values : list Z) : option Z :=
  match values with
  | [] => None
  | _ => Some (fold_right Z.add 0 values)
  end.

(** A template literal's [${n}] for a safe integer [n]: its decimal
    digits.  (Beyond the safe integers JavaScript rounds, and from 1e21 on
    prints an exponent; no statement below uses [show] there.) *)
Definition show (n : Z) : string := NilZero.string_of_int (Z.to_int n).

(** SET clauses used by the code. *)
Definition set_quantities (available reserved now : Z) (r : InventoryItem) : InventoryItem :=
  mkInventoryItem (id r) (tenantId r) (productId r) (binId r)
    available reserved
    (expiryDate r) (batchNumber r) (lotNumber r) (receivedDate r)
    (costPerUnit r) (createdAt r) now.

Definition set_available (available now : Z) (r : InventoryItem) : InventoryItem :=
  mkInventoryItem (id r) (tenantId r) (productId r) (binId r)
    available (reservedQuantity r)
    (expiryDate r) (batchNumber r) (lotNumber r) (receivedDate r)
    (costPerUnit r) (createdAt r) now.

(** ** InventoryService *)

(** The row of the aggregate query; [None] is SQL NULL. *)
Record TotalStock := mkTotalStock {
  totalAvailable : option Z;
  totalReserved : option Z
}.

(** An element of the list [reserveInventory] returns. *)
Record Reservation := mkReservation {
  inventoryItemId : string;
  quantity : Z
}.

(** The WHERE clause of [reserveInventory]'s query. *)
Definition candidate (productId_ tenantId_ : string) (r : InventoryItem) : bool :=
  (productId r =? productId_)%string
  && (tenantId r =? tenantId_)%string
  && (availableQuantity r >? 0).

(** Its ORDER BY clause. *)
Definition fefo (a b : InventoryItem) : bool :=
  expiry_leb (expiryDate a) (expiryDate b).

Module InventoryService.

(** An aggregate query without GROUP BY answers with exactly one row. *)
Definition getTotalStockForProduct (productId_ tenantId_ : string) : Async TotalStock :=
  result <- (rows <- select_where (fun r => (productId r =? productId_)%string
                                            && (tenantId r =? tenantId_)%string) ;;
             ret [mkTotalStock (sql_sum (map availableQuantity rows))
                               (sql_sum (map reservedQuantity rows))]) ;;
  ret match nth_error result 0 with
      | Some row => row
      | None => mkTotalStock (Some 0) (Some 0)
      end.

(** The body of [for (const item of availableItems)], with the two
    variables the loop assigns. *)
Fixpoint reserveLoop (availableItems : list InventoryItem) (remainingQuantity : Z)
    (reservations : list Reservation) : Async (Z * list Reservation) :=
  match availableItems with
  | [] => ret (remainingQuantity, reservations)
  | item :: rest =>
    if remainingQuantity <=? 0 then ret (remainingQuantity, reservations)
    else
      let availableToReserve := availableQuantity item in
      let toReserve := Z.min remainingQuantity availableToReserve in
      now <- new_Date ;;
      _ <- update_where
             (set_quantities (availableQuantity item - toReserve)
                             (reservedQuantity item + toReserve) now)
             (fun r => (id r =? id item)%string) ;;
      reserveLoop rest (remainingQuantity - toReserve)
        (reservations ++ [mkReservation (id item) toReserve])
  end.

Definition reserveInventory (productId_ : string) (quantity_ : Z) (tenantId_ : string)
    : Async (list Reservation) :=
  availableItems <-
    (rows <- select_where (candidate productId_ tenantId_) ;;
     ret (orderBy fefo rows)) ;;
  '(remainingQuantity, reservations) <- reserveLoop availableItems quantity_ [] ;;
  if remainingQuantity >? 0 then
    throw (Error ("Insufficient stock. Could not reserve "
                  ++ show remainingQuantity ++ " units")%string)
  else ret reservations.

Definition releaseReservedInventory (inventoryItemId_ : string) (quantity_ : Z)
    : Async unit :=
  item <- (rows <- select_where (fun r => (id r =? inventoryItemId_)%string) ;;
           ret (limit 1 rows)) ;;
  match item with
  | [] => throw (Error "Inventory item not found")
  | item0 :: _ =>
    if reservedQuantity item0 <? quantity_ then
      throw (Error "Cannot release more than reserved quantity")
    else
      now <- new_Date ;;
      _ <- update_where
             (set_quantities (availableQuantity item0 + quantity_)
                             (reservedQuantity item0 - quantity_) now)
             (fun r => (id r =? inventoryItemId_)%string) ;;
      ret tt
  end.

End InventoryService.

(** ** The handler of [POST /:id/adjust] *)

(** What the handler reads from the request. *)
Record AdjustRequest := mkAdjustRequest {
  params_id : string;
  body_adjustmentType : string;
  body_quantity : Z;
  body_reason : string;
  user_activeTenantId : string
}.

(** [fullData = { ...data, id }] *)
Record AdjustmentData := mkAdjustmentData {
  data_id : string;
  adjustmentType : string;
  data_quantity : Z;
  reason : string
}.

(** [res.status(s).json({ success, message, data })]; the [details] of a
    validation failure are left out. *)
Record Response := mkResponse {
  status : Z;
  success : bool;
  res_message : string;
  data : option InventoryItem
}.

(** The calls a client of the engine can make. *)
Inductive Call :=
| Reserve (productId_ : string) (quantity_ : Z) (tenantId_ : string)
| Release (inventoryItemId_ : string) (quantity_ : Z)
| Adjust (req : AdjustRequest).

Section Routes.

(** zod's [.uuid()] check, which the repository does not define. *)
Variable isUuid : string -> bool.

(** [inventoryAdjustmentSchema.parseAsync]; a quantity is an integer here,
    so [.int()] holds of every modelled request. *)
Definition inventoryAdjustmentSchema_parseAsync (fullData : AdjustmentData)
    : Async AdjustmentData :=
  if isUuid (data_id fullData)
     && ((adjustmentType fullData =? "increase")%string
         || (adjustmentType fullData =? "decrease")%string)
     && (1 <=? data_quantity fullData)
     && (1 <=? String.length (reason fullData))%nat
     && (String.length (reason fullData) <=? 500)%nat
  then ret fullData
  else throw (Error "ZodError").

Definition post_id_adjust (req : AdjustRequest) : Async Response :=
  let id_ := params_id req in
  if (id_ =? "")%string then
    ret (mkResponse 400 false "Inventory item ID is required" None)
  else
    let fullData :=
      mkAdjustmentData id_ (body_adjustmentType req) (body_quantity req)
                       (body_reason req) in
    try_catch
      (validatedData <- inventoryAdjustmentSchema_parseAsync fullData ;;
       let adjustmentType_ := adjustmentType validatedData in
       let quantity_ := data_quantity validatedData in
       existingItem <-
         (rows <- select_where
                    (fun r => (id r =? id_)%string
                              && (tenantId r =? user_activeTenantId req)%string) ;;
          ret (limit 1 rows)) ;;
       match existingItem with
       | [] => ret (mkResponse 404 false "Inventory item not found" None)
       | existing0 :: _ =>
         let currentQuantity := availableQuantity existing0 in
         let update := fun newQuantity : Z =>
           now <- new_Date ;;
           updatedInventoryItem <-
             update_where (set_available newQuantity now)
                          (fun r => (id r =? id_)%string) ;;
           ret (mkResponse 200 true
                  ("Inventory " ++ adjustmentType_ ++ "d by " ++ show quantity_
                   ++ " units. New quantity: " ++ show newQuantity)%string
                  (nth_error updatedInventoryItem 0)) in
         if (adjustmentType_ =? "increase")%string then
           update (currentQuantity + quantity_)
         else
           let newQuantity := currentQuantity - quantity_ in
           if newQuantity <? 0 then
             ret (mkResponse 400 false "Insufficient stock for this adjustment" None)
           else update newQuantity
       end)
      (fun validationError => ret (mkResponse 400 false "Validation failed" None)).

(** One call, its outcome forgotten; and a sequence of calls. *)
Definition perform (c : Call) (w : World) : World :=
  match c with
  | Reserve productId_ quantity_ tenantId_ =>
      snd (InventoryService.reserveInventory productId_ quantity_ tenantId_ w)
  | Release inventoryItemId_ quantity_ =>
      snd (InventoryService.releaseReservedInventory inventoryItemId_ quantity_ w)
  | Adjust req => snd (post_id_adjust req w)
  end.

Fixpoint run (calls : list Call) (w : World) : World :=
  match calls with
  | [] => w
  | c :: rest => run rest (perform c w)
  end.

(** The amount by which call [c], made in [w], adjusts the stock of
    product [productId_]: the request's quantity, signed by its direction,
    when [c] is an adjustment answered with success for a row of that
    product, and zero otherwise. *)
Definition adjusted (productId_ : string) (c : Call) (w : World) : Z :=
  match c with
  | Adjust req =>
      match post_id_adjust req w with
      | (Return res, _) =>
          if success res
             && existsb (fun r => (id r =? params_id req)%string
                                  && (productId r =? productId_)%string)
                        (wms_inventory_items w)
          then if (body_adjustmentType req =? "increase")%string
               then body_quantity req
               else - body_quantity req
          else 0
      | (Throw _, _) => 0
      end
  | _ => 0
  end.

Fixpoint netAdjusted (productId_ : string) (calls : list Call) (w : World) : Z :=
  match calls with
  | [] => 0
  | c :: rest => adjusted productId_ c w + netAdjusted productId_ rest (perform c w)
  end.

End Routes.

(** ** Observations on a world *)

(** The primary key of the table. *)
Definition primaryKey (w : World) : Prop := NoDup (map id (wms_inventory_items w)).

Definition findRow (i : string) (w : World) : option InventoryItem :=
  find (fun r => (id r =? i)%string) (wms_inventory_items w).

Definition sumZ (l : list Z) : Z := fold_right Z.add 0 l.

(** Stock of a product: available plus reserved over all its rows. *)
Definition totalStock (productId_ : string) (w : World) : Z :=
  sumZ (map (fun r => availableQuantity r + reservedQuantity r)
            (filter (fun r => (productId r =? productId_)%string)
                    (wms_inventory_items w))).

(** What [reserveInventory]'s query answers in [w]. *)
Definition availableItems (productId_ tenantId_ : string) (w : World)
    : list InventoryItem :=
  orderBy fefo (filter (candidate productId_ tenantId_) (wms_inventory_items w)).

(** Units a reservation list takes from row [i]. *)
Definition amountReserved (reservations : list Reservation) (i : string) : Z :=
  sumZ (map quantity
            (filter (fun x => (inventoryItemId x =? i)%string) reservations)).

(** The two quantities of a row. *)
Definition quantities (r : InventoryItem) : Z * Z :=
  (availableQuantity r, reservedQuantity r).

(** [a] sorts strictly before [b] under [expiry_date ASC NULLS LAST]. *)
Definition expiresBefore (a b : InventoryItem) : Prop :=
  fefo a b = true /\ fefo b a = false.

(** The order of the calendar: [a] is the day [b] or an earlier one. *)
Definition notAfter (a b : Date) : Prop :=
  year a < year b
  \/ (year a = year b
      /\ (month a < month b \/ (month a = month b /\ day a <= day b))).

(** Ascending expiry dates, a row without expiry date after every other:
    [a] may be consumed before [b]; and [a] must be, being strictly
    earlier. *)
Definition expiresNoLater (a b : option Date) : Prop :=
  match a, b with
  | Some x, Some y => notAfter x y
  | _, None => True
  | None, Some _ => False
  end.

Definition expiresEarlier (a b : option Date) : Prop :=
  expiresNoLater a b /\ ~ expiresNoLater b a.

(** ** Proof devices *)

(** The reservations the loop of [reserveInventory] appends, as a function
    of the demand and of the rows it walks over. *)
Fixpoint greedy (remaining : Z) (items : list InventoryItem) : list Reservation :=
  match items with
  | [] => []
  | item :: rest =>
    if remaining <=? 0 then []
    else
      let toReserve := Z.min remaining (availableQuantity item) in
      mkReservation (id item) toReserve :: greedy (remaining - toReserve) rest
  end.

(** The reservations the loop has made when it ends or when the database
    refuses an update of it: [greedy], cut before the first reservation
    whose new quantities do not fit their columns. *)
Fixpoint booked (remaining : Z) (items : list InventoryItem) : list Reservation :=
  match items with
  | [] => []
  | item :: rest =>
    if remaining <=? 0 then []
    else
      let toReserve := Z.min remaining (availableQuantity item) in
      if int4 (availableQuantity item - toReserve)
         && int4 (reservedQuantity item + toReserve)
      then mkReservation (id item) toReserve :: booked (remaining - toReserve) rest
      else []
  end.

(** Whether the database refuses one of the loop's updates. *)
Fixpoint refused (remaining : Z) (items : list InventoryItem) : bool :=
  match items with
  | [] => false
  | item :: rest =>
    if remaining <=? 0 then false
    else
      let toReserve := Z.min remaining (availableQuantity item) in
      if int4 (availableQuantity item - toReserve)
         && int4 (reservedQuantity item + toReserve)
      then refused (remaining - toReserve) rest
      else true
  end.

(** How a row stands after the reservations [plan], given how it stood. *)
Definition touched (plan : list Reservation) (r r' : InventoryItem) : Prop :=
  match find (fun x => (inventoryItemId x =? id r)%string) plan with
  | None => r' = r
  | Some x =>
      exists now, r' = set_quantities (availableQuantity r - quantity x)
                                      (reservedQuantity r + quantity x) now r
  end.

(** The text of the error [reserveInventory] throws. *)
Definition insufficientStock (remainingQuantity : Z) : JsError :=
  Error ("Insufficient stock. Could not reserve "
         ++ show remainingQuantity ++ " units")%string.

(** [w'] is [w] after one reading of the clock, with [rows] for table. *)
Definition wrote (rows : list InventoryItem) (w w' : World) : Prop :=
  wms_inventory_items w' = rows /\ dates w' = dates w /\ ticks w' = S (ticks w).

(** The table after [releaseReservedInventory]'s UPDATE, [r] being the row
    it read. *)
Definition released (i : string) (r : InventoryItem) (q : Z) (w : World)
    : list InventoryItem :=
  map (fun x => if (id x =? i)%string
                then set_quantities (availableQuantity r + q) (reservedQuantity r - q)
                                    (dates w (ticks w)) x
                else x)
      (wms_inventory_items w).

(** The end of [releaseReservedInventory]: its UPDATE, accepted or not. *)
Definition afterRelease (i : string) (r : InventoryItem) (q : Z) (w : World)
    : Completion unit * World :=
  match store (released i r q w) (dates w) (S (ticks w)) with
  | Some w' => (Return tt, w')
  | None => (Throw integerOutOfRange, tick w)
  end.

(** The request passes [inventoryAdjustmentSchema]. *)
Definition validRequest (isUuid : string -> bool) (req : AdjustRequest) : bool :=
  isUuid (params_id req)
  && ((body_adjustmentType req =? "increase")%string
      || (body_adjustmentType req =? "decrease")%string)
  && (1 <=? body_quantity req)
  && (1 <=? String.length (body_reason req))%nat
  && (String.length (body_reason req) <=? 500)%nat.

(** The table after the handler's UPDATE. *)
Definition adjustedRows (i : string) (newQuantity : Z) (w : World) : list InventoryItem :=
  map (fun x => if (id x =? i)%string
                then set_available newQuantity (dates w (ticks w)) x
                else x)
      (wms_inventory_items w).

(** The answer when the database refuses the handler's UPDATE. *)
Definition validationFailed : Response := mkResponse 400 false "Validation failed" None.

(** The answer after the handler's UPDATE. *)
Definition adjustedResponse (req : AdjustRequest) (newQuantity : Z) (w : World) : Response :=
  mkResponse 200 true
    ("Inventory " ++ body_adjustmentType req ++ "d by " ++ show (body_quantity req)
     ++ " units. New quantity: " ++ show newQuantity)%string
    (nth_error (map (set_available newQuantity (dates w (ticks w)))
                    (filter (fun x => (id x =? params_id req)%string)
                            (wms_inventory_items w))) 0).

Definition insufficientForAdjustment : Response :=
  mkResponse 400 false "Insufficient stock for this adjustment" None.

(** The end of the handler: its UPDATE, accepted or not, and its answer. *)
Definition afterAdjust (req : AdjustRequest) (newQuantity : Z) (w : World)
    : Completion Response * World :=
  match store (adjustedRows (params_id req) newQuantity w) (dates w) (S (ticks w)) with
  | Some w' => (Return (adjustedResponse req newQuantity w), w')
  | None => (Return validationFailed, tick w)
  end.

(** Identity, product and the sum of the two quantities are kept. *)
Definition conserved (r r' : InventoryItem) : Prop :=
  id r' = id r /\ productId r' = productId r /\
  availableQuantity r' + reservedQuantity r' = availableQuantity r + reservedQuantity r.

(** ** Sample data *)

Definition sampleRow (i tenantId_ : string) (expiry : option Date)
    (available reserved : Z) : InventoryItem :=
  mkInventoryItem i tenantId_ "product-1" "bin-1" available reserved expiry
                  None None None None 0 0.

Definition sampleClock : nat -> Z := fun n => 1700000000000 + Z.of_nat n.

(** Rows expiring 2024-01-01 (5 units), 2024-06-01 (10 units) and never
    (20 units). *)
Definition fefoWorld : World :=
  mkWorld [sampleRow "row-1" "tenant-1" (Some (mkDate 2024 1 1)) 5 0;
           sampleRow "row-2" "tenant-1" (Some (mkDate 2024 6 1)) 10 0;
           sampleRow "row-3" "tenant-1" None 20 0]
          sampleClock 0 eq_refl.

(** The same rows, stored in another order. *)
Definition shuffledWorld : World :=
  mkWorld [sampleRow "row-3" "tenant-1" None 20 0;
           sampleRow "row-2" "tenant-1" (Some (mkDate 2024 6 1)) 10 0;
           sampleRow "row-1" "tenant-1" (Some (mkDate 2024 1 1)) 5 0]
          sampleClock 0 eq_refl.

(** Eight units in two rows. *)
Definition shortWorld : World :=
  mkWorld [sampleRow "row-1" "tenant-1" (Some (mkDate 2024 1 1)) 5 0;
           sampleRow "row-2" "tenant-1" None 3 0]
          sampleClock 0 eq_refl.

(** One row of another tenant, five of its units reserved. *)
Definition otherTenantWorld : World :=
  mkWorld [sampleRow "row-9" "tenant-2" None 0 5] sampleClock 0 eq_refl.

(** A row whose availableQuantity is the largest value of its column, one
    unit of it reserved; and a row whose reservedQuantity is. *)
Definition brimWorld : World :=
  mkWorld [sampleRow "row-1" "tenant-1" None 2147483647 1;
           sampleRow "row-2" "tenant-1" None 5 2147483647]
          sampleClock 0 eq_refl.

(** A check of the primary key that computes. *)
Fixpoint distinct (l : list string) : bool :=
  match l with
  | [] => true
  | x :: l' => negb (existsb (String.eqb x) l') && distinct l'
  end.

(** ** Further observations *)

(** No row has a negative quantity. *)
Definition nonNegative (w : World) : Prop :=
  Forall (fun r => 0 <= availableQuantity r /\ 0 <= reservedQuantity r)
         (wms_inventory_items w).

(** No release in the sequence asks for a negative quantity. *)
Definition releasesNonNegative (calls : list Call) : Prop :=
  Forall (fun c => match c with
                   | Release _ quantity_ => 0 <= quantity_
                   | _ => True
                   end) calls.

(** The rows [getTotalStockForProduct] sums over. *)
Definition stockRows (productId_ tenantId_ : string) (w : World) : list InventoryItem :=
  filter (fun r => (productId r =? productId_)%string && (tenantId r =? tenantId_)%string)
         (wms_inventory_items w).



(** ** The other tables

    The tables the code below reads but never writes, with the columns it
    uses; [sys_tenant] by its ids, [wms_movement_history] by its rows'
    [item_id], the column that references [wms_inventory_items]. *)

Module products.
Record row := mk {
  id : string;
  tenantId : string;
  sku : string;
  name : string;
  description : option string;
  minimumStockLevel : option Z;
  reorderPoint : option Z
}.
End products.

Module bins.
Record row := mk {
  id : string;
  shelfId : string;
  tenantId : string;
  name : string;
  barcode : option string
}.
End bins.

Module shelves.
Record row := mk { id : string; aisleId : string }.
End shelves.

Module aisles.
Record row := mk { id : string; zoneId : string }.
End aisles.

Module zones.
Record row := mk { id : string; warehouseId : string }.
End zones.

Module warehouses.
Record row := mk { id : string; name : string }.
End warehouses.

Module movementHistory.
Record row := mk { id : string; itemId : string }.
End movementHistory.

Record Catalog := mkCatalog {
  sys_tenant : list string;
  wms_products : list products.row;
  wms_bins : list bins.row;
  wms_shelves : list shelves.row;
  wms_aisles : list aisles.row;
  wms_zones : list zones.row;
  wms_warehouses : list warehouses.row;
  wms_movement_history : list movementHistory.row
}.

(** [a LEFT JOIN b ON on]: every row of [a] with each row of [b] that
    matches it, or once with NULLs when none does. *)
Definition leftJoin {A B} (on : A -> B -> bool) (a : list A) (b : list B)
    : list (A * option B) :=
  flat_map (fun x => match filter (on x) b with
                     | [] => [(x, None)]
                     | matches => map (fun y => (x, Some y)) matches
                     end) a.

(** An ON clause whose left column comes from a table that was itself
    joined in: NULL matches nothing. *)
Definition onColumn {B C} (column : B -> string) (key : C -> string)
    (x : option B) (c : C) : bool :=
  match x with
  | Some b => (column b =? key c)%string
  | None => false
  end.

(** [x || 0] for a number or null, which is also [Number(x) || 0]. *)
Definition or_zero (x : option Z) : Z :=
  match x with
  | Some z => z
  | None => 0
  end.

(** [x || null] for a string, null or undefined. *)
Definition or_null (x : option string) : option string :=
  match x with
  | Some "" => None
  | _ => x
  end.


(** What [DELETE /:id], [GET /:id] and [PUT /:id] read from the request. *)
Record ItemRequest := mkItemRequest {
  item_params_id : string;
  item_activeTenantId : string
}.

(** The nested [product] and [bin] objects of [GET /:id]. *)
Record ProductView := mkProductView {
  pv_id : string;
  pv_sku : string;
  pv_name : string;
  pv_description : option string;
  pv_minimumStockLevel : option Z;
  pv_reorderPoint : option Z
}.

Record BinView := mkBinView {
  bv_id : string;
  bv_name : string;
  bv_barcode : option string
}.

(** The [data] of [GET /:id]: the row's own columns, then the joined ones. *)
Record ItemView := mkItemView {
  view_item : InventoryItem;
  view_productSku : option string;
  view_productName : option string;
  view_productDescription : option string;
  view_binName : option string;
  view_binLocation : option string;
  view_warehouseName : option string;
  view_product : option ProductView;
  view_bin : option BinView
}.

(** [res.status(s).json({ success, message?, data? })] of [GET /:id]. *)
Record ViewResponse := mkViewResponse {
  view_status : Z;
  view_success : bool;
  view_message : option string;
  view_data : option ItemView
}.

(** [db.delete(inventoryItems).where(cond)]: the database refuses to
    delete a row that [wms_movement_history] references.  (The rows left
    fit their columns, being rows of a table; [store] finds that again.) *)
Definition delete_where (cat : Catalog) (cond : InventoryItem -> bool) : Async unit :=
  fun w =>
    if existsb (fun r => cond r
                         && existsb (fun m => (movementHistory.itemId m =? id r)%string)
                                    (wms_movement_history cat))
               (wms_inventory_items w)
    then (Throw (Error "update or delete on table violates foreign key constraint"), w)
    else match store (filter (fun r => negb (cond r)) (wms_inventory_items w))
                     (dates w) (ticks w) with
         | Some w' => (Return tt, w')
         | None => (Throw integerOutOfRange, w)
         end.

Section Service.

Variable cat : Catalog.

(** JavaScript's date arithmetic in [getItemsExpiringSoon]: the date part
    of [toISOString()] of the instant [now] moved by [days] days with
    [setDate(getDate() + days)]. *)
Variable isoDateAfter : Z -> Z -> Date.

(** The order in which the database hands out the rows of a query that
    has no ORDER BY: some rearrangement of them. *)
Variable unordered : forall A : Type, list A -> list A.

(** [InventoryService.isProductLowStock]; the two queries of
    [Promise.all] only read. *)
Definition isProductLowStock (productId_ tenantId_ : string) : Async bool :=
  stockResult <- InventoryService.getTotalStockForProduct productId_ tenantId_ ;;
  productResult <-
    ret (limit 1 (filter (fun p => (products.id p =? productId_)%string
                                   && (products.tenantId p =? tenantId_)%string)
                         (wms_products cat))) ;;
  match productResult with
  | [] => ret false
  | product0 :: _ =>
    let minimumLevel := or_zero (products.minimumStockLevel product0) in
    let available := or_zero (totalAvailable stockResult) in
    ret (available <=? minimumLevel)
  end.


(** The handler of [DELETE /:id]. *)
Definition delete_id (req : ItemRequest) : Async Response :=
  let id_ := item_params_id req in
  try_catch
    (existingItem <-
       (rows <- select_where
                  (fun r => (id r =? id_)%string
                            && (tenantId r =? item_activeTenantId req)%string) ;;
        ret (limit 1 rows)) ;;
     match existingItem with
     | [] => ret (mkResponse 404 false "Inventory item not found" None)
     | existing0 :: _ =>
       if (availableQuantity existing0 >? 0) || (reservedQuantity existing0 >? 0) then
         ret (mkResponse 400 false
                "Cannot delete inventory item with remaining stock. Adjust quantities to zero first."
                None)
       else
         _ <- delete_where cat (fun r => (id r =? id_)%string) ;;
         ret (mkResponse 200 true "Inventory item deleted successfully" None)
     end)
    (fun error => ret (mkResponse 500 false "Internal server error" None)).

(** The joins of [GET /:id], from [wms_inventory_items] to [wms_warehouses]. *)
Definition joinedItems (items : list InventoryItem) :=
  leftJoin (fun x wh => onColumn zones.warehouseId warehouses.id (snd x) wh)
    (leftJoin (fun x z => onColumn aisles.zoneId zones.id (snd x) z)
       (leftJoin (fun x a => onColumn shelves.aisleId aisles.id (snd x) a)
          (leftJoin (fun x s => onColumn bins.shelfId shelves.id (snd x) s)
             (leftJoin (fun x b => (binId (fst x) =? bins.id b)%string)
                (leftJoin (fun i p => (productId i =? products.id p)%string)
                   items (wms_products cat))
                (wms_bins cat))
             (wms_shelves cat))
          (wms_aisles cat))
       (wms_zones cat))
    (wms_warehouses cat).

(** The columns of a joined row, as [GET /:id] selects them. *)
Definition itemOf
    (x : InventoryItem * option products.row * option bins.row * option shelves.row
         * option aisles.row * option zones.row * option warehouses.row)
    : InventoryItem :=
  fst (fst (fst (fst (fst (fst x))))).

Definition viewOf
    (x : InventoryItem * option products.row * option bins.row * option shelves.row
         * option aisles.row * option zones.row * option warehouses.row)
    : ItemView :=
  let product := snd (fst (fst (fst (fst (fst x))))) in
  let bin := snd (fst (fst (fst (fst x)))) in
  let warehouse := snd x in
  mkItemView (itemOf x)
    (option_map products.sku product)
    (option_map products.name product)
    (match product with Some p => products.description p | None => None end)
    (option_map bins.name bin)
    (option_map bins.name bin)
    (option_map warehouses.name warehouse)
    (option_map (fun p => mkProductView (products.id p) (products.sku p) (products.name p)
                            (products.description p) (products.minimumStockLevel p)
                            (products.reorderPoint p)) product)
    (option_map (fun b => mkBinView (bins.id b) (bins.name b) (bins.barcode b)) bin).

(** The handler of [GET /:id]. *)
Definition get_id (req : ItemRequest) : Async ViewResponse :=
  try_catch
    (inventoryData <-
       (fun w =>
          (Return
             (map viewOf
                  (filter (fun x => (id (itemOf x) =? item_params_id req)%string
                                    && (tenantId (itemOf x) =? item_activeTenantId req)%string)
                          (joinedItems (wms_inventory_items w)))),
           w)) ;;
     match inventoryData with
     | [] => ret (mkViewResponse 404 false (Some "Inventory item not found") None)
     | data0 :: _ => ret (mkViewResponse 200 true None (Some data0))
     end)
    (fun error => ret (mkViewResponse 500 false (Some "Internal server error") None)).

End Service.

(** ** The adjustment form *)

(** [newQuantity] of [InventoryAdjustmentForm]: the quantity the form
    shows as the result of the adjustment; [adjustmentQuantity] is the
    form's field, empty or a number. *)
Definition newQuantity (adjustmentType_ : string) (currentQuantity : Z)
    (adjustmentQuantity : option Z) : Z :=
  if (adjustmentType_ =? "increase")%string
  then currentQuantity + or_zero adjustmentQuantity
  else currentQuantity - or_zero adjustmentQuantity.


(** Whether [wms_movement_history] references row [i]. *)
Definition referenced (cat : Catalog) (i : string) : bool :=
  existsb (fun m => (movementHistory.itemId m =? i)%string) (wms_movement_history cat).

(** Sample contents of the other tables. *)
Definition sampleCatalog : Catalog :=
  mkCatalog ["tenant-1"; "tenant-2"]
    [products.mk "product-1" "tenant-1" "SKU-1" "Flour" None (Some 40) None;
     products.mk "product-2" "tenant-1" "SKU-2" "Salt" None None None]
    [bins.mk "bin-1" "shelf-1" "tenant-1" "A-01" None]
    [shelves.mk "shelf-1" "aisle-1"]
    [aisles.mk "aisle-1" "zone-1"]
    [zones.mk "zone-1" "warehouse-1"]
    [warehouses.mk "warehouse-1" "Main"]
    [movementHistory.mk "move-1" "row-2"].

(** Two emptied rows, the second one referenced by the sample movement
    history, and a row with stock. *)
Definition drainedWorld : World :=
  mkWorld [sampleRow "row-1" "tenant-1" (Some (mkDate 2024 1 1)) 0 0;
           sampleRow "row-2" "tenant-1" (Some (mkDate 2024 6 1)) 0 0;
           sampleRow "row-3" "tenant-1" None 20 0]
          sampleClock 0 eq_refl.

(** ** Creating and editing a row *)

(** [\d] *)
Definition isDigit (c : ascii) : bool :=
  (48 <=? nat_of_ascii c)%nat && (nat_of_ascii c <=? 57)%nat.

(** [/^\d{4}-\d{2}-\d{2}$/] *)
Definition isDateShaped (s : string) : bool :=
  match list_ascii_of_string s with
  | [y1; y2; y3; y4; h1; m1; m2; h2; d1; d2] =>
      isDigit y1 && isDigit y2 && isDigit y3 && isDigit y4
      && Ascii.eqb h1 "-" && isDigit m1 && isDigit m2
      && Ascii.eqb h2 "-" && isDigit d1 && isDigit d2
  | _ => false
  end.

(** A check on a field that may be absent or null. *)
Definition whenPresent {A} (check : A -> bool) (x : option A) : bool :=
  match x with
  | Some a => check a
  | None => true
  end.

(** [wanted ? eq(column, wanted) : sql`column IS NULL`] *)
Definition matchesLabel (wanted column : option string) : bool :=
  match or_null wanted, column with
  | Some s, Some c => (c =? s)%string
  | None, None => true
  | _, _ => false
  end.

(** The input function of a column type applied to a value that may be
    NULL; the outer [None] is the database's refusal. *)
Definition pgInput {A} (input : string -> option A) (x : option string)
    : option (option A) :=
  match x with
  | Some s => option_map Some (input s)
  | None => Some None
  end.

(** [varchar(100)] *)
Definition fitsVarchar100 (x : option string) : bool :=
  whenPresent (fun s => (String.length s <=? 100)%nat) x.

(** [res.status(s).json({ success, message?, data? })] of [POST /] and
    [PUT /:id]; the [details] of a validation failure are left out. *)
Record ItemResponse := mkItemResponse {
  item_status : Z;
  item_success : bool;
  item_message : option string;
  item_data : option InventoryItem
}.

(** The combination [inventoryItemAddSchema] keeps unique. *)
Definition combination (r : InventoryItem)
    : string * string * string * option string * option string :=
  (tenantId r, productId r, binId r, batchNumber r, lotNumber r).

Definition uniqueCombinations (w : World) : Prop :=
  NoDup (map combination (wms_inventory_items w)).

Section Writes.

Variable cat : Catalog.

(** zod's [.uuid()] check. *)
Variable isUuid : string -> bool.

(** The database's input functions for [date] and [numeric(10, 2)]:
    [None] when the text is refused, else the value stored. *)
Variable pgDate : string -> option Date.
Variable pgNumeric : string -> option string.

(** JavaScript numbers, as far as the handlers look at [costPerUnit]:
    [n >= 0], [n ? ... : ...] and [n.toString()]. *)
Variable JsNumber : Type.
Variable atLeastZero : JsNumber -> bool.
Variable truthy : JsNumber -> bool.
Variable numberToString : JsNumber -> string.

(** What [POST /] reads from the request: the body, whose optional fields
    are absent or null when [None], and the user's tenant. *)
Record AddRequest := mkAddRequest {
  add_productId : string;
  add_binId : string;
  add_availableQuantity : Z;
  add_reservedQuantity : option Z;
  add_expiryDate : option string;
  add_batchNumber : option string;
  add_lotNumber : option string;
  add_receivedDate : option string;
  add_costPerUnit : option JsNumber;
  add_activeTenantId : string
}.

(** The fields of [inventoryItemAddSchema], without its three [refine]s. *)
Definition addFieldsValid (fullData : AddRequest) : bool :=
  isUuid (add_activeTenantId fullData)
  && isUuid (add_productId fullData)
  && isUuid (add_binId fullData)
  && (0 <=? add_availableQuantity fullData)
  && whenPresent (fun q => 0 <=? q) (add_reservedQuantity fullData)
  && whenPresent isDateShaped (add_expiryDate fullData)
  && fitsVarchar100 (add_batchNumber fullData)
  && fitsVarchar100 (add_lotNumber fullData)
  && whenPresent isDateShaped (add_receivedDate fullData)
  && whenPresent atLeastZero (add_costPerUnit fullData).

(** The WHERE clause of the third [refine]. *)
Definition sameCombination (fullData : AddRequest) (r : InventoryItem) : bool :=
  (productId r =? add_productId fullData)%string
  && (binId r =? add_binId fullData)%string
  && (tenantId r =? add_activeTenantId fullData)%string
  && matchesLabel (add_batchNumber fullData) (batchNumber r)
  && matchesLabel (add_lotNumber fullData) (lotNumber r).

(** [inventoryItemAddSchema.parseAsync]: the fields, then the product and
    the bin of the tenant, then no row with the same combination. *)
Definition inventoryItemAddSchema_parseAsync (fullData : AddRequest) : Async AddRequest :=
  productExists <-
    ret (filter (fun p => (products.id p =? add_productId fullData)%string
                          && (products.tenantId p =? add_activeTenantId fullData)%string)
                (wms_products cat)) ;;
  binExists <-
    ret (filter (fun b => (bins.id b =? add_binId fullData)%string
                          && (bins.tenantId b =? add_activeTenantId fullData)%string)
                (wms_bins cat)) ;;
  existingItem <- select_where (sameCombination fullData) ;;
  if addFieldsValid fullData
     && (0 <? Z.of_nat (List.length productExists))
     && (0 <? Z.of_nat (List.length binExists))
     && (Z.of_nat (List.length existingItem) =? 0)
  then ret (mkAddRequest (add_productId fullData) (add_binId fullData)
              (add_availableQuantity fullData)
              (Some (or_zero (add_reservedQuantity fullData)))
              (add_expiryDate fullData) (add_batchNumber fullData)
              (add_lotNumber fullData) (add_receivedDate fullData)
              (add_costPerUnit fullData) (add_activeTenantId fullData))
  else throw (Error "ZodError").

(** [db.insert(inventoryItems).values(...).returning()], [uuid] being the
    id the database draws: the database checks the primary key, the
    foreign keys and the column types (the [integer] columns in [store]),
    and stamps the row with its clock. *)
Definition insert_values (uuid tenantId_ productId_ binId_ : string)
    (available reserved : Z) (expiry batch lot received cost : option string)
    : Async (list InventoryItem) :=
  fun w =>
    match pgInput pgDate expiry, pgInput pgDate received, pgInput pgNumeric cost with
    | Some expiry', Some received', Some cost' =>
        if negb (existsb (fun r => (id r =? uuid)%string) (wms_inventory_items w))
           && existsb (String.eqb tenantId_) (sys_tenant cat)
           && existsb (fun p => (products.id p =? productId_)%string) (wms_products cat)
           && existsb (fun b => (bins.id b =? binId_)%string) (wms_bins cat)
           && fitsVarchar100 batch && fitsVarchar100 lot
        then
          let now := dates w (ticks w) in
          let r := mkInventoryItem uuid tenantId_ productId_ binId_ available reserved
                     expiry' batch lot received' cost' now now in
          match store (wms_inventory_items w ++ [r]) (dates w) (S (ticks w)) with
          | Some w' => (Return [r], w')
          | None => (Throw integerOutOfRange, w)
          end
        else (Throw (Error "the database refuses the row"), w)
    | _, _, _ => (Throw (Error "the database refuses the row"), w)
    end.

(** The handler of [POST /]. *)
Definition post_root (uuid : string) (req : AddRequest) : Async ItemResponse :=
  try_catch
    (let tenantId_ := add_activeTenantId req in
     if (tenantId_ =? "")%string then
       ret (mkItemResponse 400 false (Some "Tenant ID is required") None)
     else
       try_catch
         (validatedData <- inventoryItemAddSchema_parseAsync req ;;
          newInventoryItem <-
            insert_values uuid
              (add_activeTenantId validatedData) (add_productId validatedData)
              (add_binId validatedData) (add_availableQuantity validatedData)
              (or_zero (add_reservedQuantity validatedData))
              (or_null (add_expiryDate validatedData))
              (or_null (add_batchNumber validatedData))
              (or_null (add_lotNumber validatedData))
              (or_null (add_receivedDate validatedData))
              (match add_costPerUnit validatedData with
               | Some n => if truthy n then Some (numberToString n) else None
               | None => None
               end) ;;
          ret (mkItemResponse 201 true None (nth_error newInventoryItem 0)))
         (fun validationError =>
            ret (mkItemResponse 400 false (Some "Validation failed") None)))
    (fun error => ret (mkItemResponse 500 false (Some "Internal server error") None)).

End Writes.

(** Whether [inventoryItemAddSchema] accepts the request in [w]. *)
Definition addAccepted (cat : Catalog) (isUuid : string -> bool) (JsNumber : Type)
    (atLeastZero : JsNumber -> bool) (req : AddRequest JsNumber) (w : World) : bool :=
  addFieldsValid isUuid JsNumber atLeastZero req
  && (0 <? Z.of_nat
             (List.length
                (filter (fun p => (products.id p =? add_productId JsNumber req)%string
                                  && (products.tenantId p
                                      =? add_activeTenantId JsNumber req)%string)
                        (wms_products cat))))
  && (0 <? Z.of_nat
             (List.length
                (filter (fun b => (bins.id b =? add_binId JsNumber req)%string
                                  && (bins.tenantId b =? add_activeTenantId JsNumber req)%string)
                        (wms_bins cat))))
  && (Z.of_nat (List.length (filter (sameCombination JsNumber req) (wms_inventory_items w)))
      =? 0).

(** The INSERT of [POST /] for an accepted request. *)
Definition addInsert (cat : Catalog) (pgDate : string -> option Date)
    (pgNumeric : string -> option string) (JsNumber : Type)
    (truthy : JsNumber -> bool) (numberToString : JsNumber -> string)
    (uuid : string) (req : AddRequest JsNumber) : Async (list InventoryItem) :=
  insert_values cat pgDate pgNumeric uuid
    (add_activeTenantId JsNumber req) (add_productId JsNumber req)
    (add_binId JsNumber req) (add_availableQuantity JsNumber req)
    (or_zero (add_reservedQuantity JsNumber req))
    (or_null (add_expiryDate JsNumber req))
    (or_null (add_batchNumber JsNumber req))
    (or_null (add_lotNumber JsNumber req))
    (or_null (add_receivedDate JsNumber req))
    (match add_costPerUnit JsNumber req with
     | Some n => if truthy n then Some (numberToString n) else None
     | None => None
     end).

(** Sample stand-ins for the validators and input functions. *)
Definition sampleIsUuid : string -> bool := fun _ => true.
Definition samplePgDate : string -> option Date :=
  fun s => if isDateShaped s then Some (mkDate 2025 1 1) else None.
Definition samplePgNumeric : string -> option string := fun s => Some s.

Definition sampleAdd (batch : option string) (available : Z) : AddRequest Z :=
  mkAddRequest Z "product-2" "bin-1" available None None batch None None (Some 3)
               "tenant-1".

(** A body field for a column that is NOT NULL: absent (the column is
    left alone), null, or a value. *)
Inductive Field (A : Type) : Type :=
| Absent
| Null
| Value (a : A).
Arguments Absent {A}.
Arguments Null {A}.
Arguments Value {A} a.

(** What the database makes of such a field in a SET clause: [None] when
    it refuses it, else how the column changes. *)
Definition setColumn {A} (accepts : A -> bool) (x : Field A) : option (A -> A) :=
  match x with
  | Absent => Some (fun old => old)
  | Null => None
  | Value a => if accepts a then Some (fun _ => a) else None
  end.

Section Edits.

Variable cat : Catalog.
Variable pgDate : string -> option Date.
Variable pgNumeric : string -> option string.
Variable JsNumber : Type.
Variable truthy : JsNumber -> bool.
Variable numberToString : JsNumber -> string.

(** What [PUT /:id] reads from the request. *)
Record EditRequest := mkEditRequest {
  edit_params_id : string;
  edit_activeTenantId : string;
  edit_productId : Field string;
  edit_binId : Field string;
  edit_availableQuantity : Field Z;
  edit_reservedQuantity : Field Z;
  edit_expiryDate : option string;
  edit_batchNumber : option string;
  edit_lotNumber : option string;
  edit_receivedDate : option string;
  edit_costPerUnit : option JsNumber
}.

(** The SET clause of [PUT /:id] as the database applies it to a row, or
    [None] when it refuses it (foreign keys, NOT NULL, column types). *)
Definition editSet (req : EditRequest) (now : Z) : option (InventoryItem -> InventoryItem) :=
  match setColumn (fun p => existsb (fun x => (products.id x =? p)%string) (wms_products cat))
                  (edit_productId req),
        setColumn (fun b => existsb (fun x => (bins.id x =? b)%string) (wms_bins cat))
                  (edit_binId req),
        setColumn int4 (edit_availableQuantity req),
        setColumn int4 (edit_reservedQuantity req),
        pgInput pgDate (or_null (edit_expiryDate req)),
        pgInput pgDate (or_null (edit_receivedDate req)),
        pgInput pgNumeric (match edit_costPerUnit req with
                           | Some n => if truthy n then Some (numberToString n) else None
                           | None => None
                           end)
  with
  | Some product, Some bin, Some available, Some reserved,
    Some expiry, Some received, Some cost =>
      if fitsVarchar100 (or_null (edit_batchNumber req))
         && fitsVarchar100 (or_null (edit_lotNumber req))
      then Some (fun r =>
                   mkInventoryItem (id r) (tenantId r) (product (productId r))
                     (bin (binId r)) (available (availableQuantity r))
                     (reserved (reservedQuantity r)) expiry
                     (or_null (edit_batchNumber req)) (or_null (edit_lotNumber req))
                     received cost (createdAt r) now)
      else None
  | _, _, _, _, _, _, _ => None
  end.

(** The handler of [PUT /:id]. *)
Definition put_id (req : EditRequest) : Async ItemResponse :=
  let id_ := edit_params_id req in
  try_catch
    (existingItem <-
       (rows <- select_where
                  (fun r => (id r =? id_)%string
                            && (tenantId r =? edit_activeTenantId req)%string) ;;
        ret (limit 1 rows)) ;;
     match existingItem with
     | [] => ret (mkItemResponse 404 false (Some "Inventory item not found") None)
     | _ :: _ =>
       now <- new_Date ;;
       updatedInventoryItem <-
         match editSet req now with
         | Some set => update_where set (fun r => (id r =? id_)%string)
         | None => throw (Error "the database refuses the update")
         end ;;
       ret (mkItemResponse 200 true None (nth_error updatedInventoryItem 0))
     end)
    (fun error => ret (mkItemResponse 500 false (Some "Internal server error") None)).

End Edits.

(** * Lemmas on lists and on the ordering *)

Lemma Forall2_In_impl {A B} (P Q : A -> B -> Prop) (l : list A) (l' : list B) :
  (forall a b, In a l -> P a b -> Q a b) -> Forall2 P l l' -> Forall2 Q l l'.
Proof.
  intros H F. induction F as [|a b l l' Hab F IH]; constructor.
  - apply H; [left; reflexivity | exact Hab].
  - apply IH. intros a0 b0 Hin. apply H. right; exact Hin.
Qed.

Lemma Forall2_of_map {A} (P : A -> A -> Prop) (f : A -> A) (l : list A) :
  (forall a, In a l -> P a (f a)) -> Forall2 P l (map f l).
Proof.
  induction l as [|a l IH]; intros H; simpl; constructor.
  - apply H; left; reflexivity.
  - apply IH. intros a0 Hin. apply H; right; exact Hin.
Qed.

Lemma Forall2_through_map {A B} (P : A -> B -> Prop) (f : A -> A) (l : list A) (l' : list B) :
  Forall2 P (map f l) l' -> Forall2 (fun a b => P (f a) b) l l'.
Proof.
  revert l'. induction l as [|a l IH]; intros l' F; inversion F; subst; constructor; auto.
Qed.

Lemma Forall2_refl_rows {A} (P : A -> A -> Prop) (l : list A) :
  (forall a, P a a) -> Forall2 P l l.
Proof. intros H. induction l; constructor; auto. Qed.

Lemma Forall2_same_ids (P : InventoryItem -> InventoryItem -> Prop) l l' :
  (forall a b, P a b -> id b = id a) -> Forall2 P l l' -> map id l' = map id l.
Proof.
  intros H F. induction F as [|a b l l' Hab F IH]; simpl; [reflexivity|].
  rewrite (H _ _ Hab), IH. reflexivity.
Qed.

(** The key of a row further down the table differs from the key of its
    head: [Hnot] says the head's key is not among the others, [Hin] that
    the row is one of the others. *)
Ltac other_key Hnot Hin :=
  let Eq := fresh "Eq" in
  apply String.eqb_neq; intros Eq; apply Hnot; rewrite Eq; apply in_map; exact Hin.

Lemma primaryKey_unique (l : list InventoryItem) (a b : InventoryItem) :
  NoDup (map id l) -> In a l -> In b l -> id a = id b -> a = b.
Proof.
  induction l as [|x l IH]; simpl; intros ND Ha Hb E; [contradiction|].
  inversion ND as [|? ? Hnot ND']; subst.
  destruct Ha as [Ha|Ha], Hb as [Hb|Hb]; subst.
  - reflexivity.
  - exfalso. apply Hnot. rewrite E. apply in_map. exact Hb.
  - exfalso. apply Hnot. rewrite <- E. apply in_map. exact Ha.
  - apply IH; assumption.
Qed.

Lemma NoDup_ids_filter (f : InventoryItem -> bool) (l : list InventoryItem) :
  NoDup (map id l) -> NoDup (map id (filter f l)).
Proof.
  induction l as [|x l IH]; simpl; intros ND; [constructor|].
  inversion ND as [|? ? Hnot ND']; subst.
  destruct (f x); simpl; [constructor|]; auto.
  intros Hin. apply Hnot. apply in_map_iff in Hin. destruct Hin as [y [E Hy]].
  apply filter_In in Hy. rewrite <- E. apply in_map. tauto.
Qed.

Lemma insert_by_perm {A} (leb : A -> A -> bool) (x : A) (l : list A) :
  Permutation (x :: l) (insert_by leb x l).
Proof.
  induction l as [|y l IH]; simpl; [reflexivity|].
  destruct (leb x y); [reflexivity|].
  etransitivity; [apply perm_swap|]. apply perm_skip. exact IH.
Qed.

Lemma orderBy_perm {A} (leb : A -> A -> bool) (l : list A) :
  Permutation l (orderBy leb l).
Proof.
  induction l as [|x l IH]; simpl; [reflexivity|].
  etransitivity; [apply perm_skip; exact IH|]. apply insert_by_perm.
Qed.

(** [Date_compare] is the lexicographic order on (year, month, day). *)
Lemma Date_compare_not_Gt (a b : Date) :
  Date_compare a b <> Gt <->
  year a < year b \/
  (year a = year b /\ (month a < month b \/ (month a = month b /\ day a <= day b))).
Proof.
  unfold Date_compare.
  destruct (Z.compare_spec (year a) (year b));
    destruct (Z.compare_spec (month a) (month b));
    destruct (Z.compare_spec (day a) (day b));
    split; intros; try congruence; try lia.
Qed.

Lemma expiry_leb_Some (x y : Date) :
  expiry_leb (Some x) (Some y) = true <-> Date_compare x y <> Gt.
Proof.
  simpl. destruct (Date_compare x y); split; intros; congruence.
Qed.

Lemma expiry_leb_total (a b : option Date) :
  expiry_leb a b = false -> expiry_leb b a = true.
Proof.
  destruct a as [x|], b as [y|]; simpl; try congruence.
  intros H. apply expiry_leb_Some. apply Date_compare_not_Gt.
  assert (G : ~ Date_compare x y <> Gt) by (destruct (Date_compare x y); congruence).
  rewrite Date_compare_not_Gt in G. lia.
Qed.

Lemma expiry_leb_trans (a b c : option Date) :
  expiry_leb a b = true -> expiry_leb b c = true -> expiry_leb a c = true.
Proof.
  destruct a as [x|], b as [y|], c as [z|]; simpl; try congruence.
  change (expiry_leb (Some x) (Some y) = true -> expiry_leb (Some y) (Some z) = true ->
          expiry_leb (Some x) (Some z) = true).
  rewrite !expiry_leb_Some, !Date_compare_not_Gt. lia.
Qed.

Lemma expiry_leb_refl (a : option Date) : expiry_leb a a = true.
Proof.
  destruct a as [x|]; [|reflexivity].
  apply expiry_leb_Some. apply Date_compare_not_Gt. lia.
Qed.

Lemma insert_by_sorted (x : InventoryItem) (l : list InventoryItem) :
  StronglySorted (fun a b => fefo a b = true) l ->
  StronglySorted (fun a b => fefo a b = true) (insert_by fefo x l).
Proof.
  induction l as [|y l IH]; simpl; intros S.
  - constructor; [constructor | constructor].
  - inversion S as [|? ? S' F]; subst.
    destruct (fefo x y) eqn:E.
    + constructor; [exact S|]. constructor; [exact E|].
      eapply Forall_impl; [|exact F]. intros z Hz.
      unfold fefo in *. eapply expiry_leb_trans; eassumption.
    + constructor; [apply IH; exact S'|].
      assert (Hyx : fefo y x = true) by (apply expiry_leb_total; exact E).
      eapply Permutation_Forall; [apply insert_by_perm|].
      constructor; assumption.
Qed.

Lemma orderBy_sorted (l : list InventoryItem) :
  StronglySorted (fun a b => fefo a b = true) (orderBy fefo l).
Proof.
  induction l as [|x l IH]; simpl; [constructor|]. apply insert_by_sorted; exact IH.
Qed.

(** * The candidate rows *)

Lemma availableItems_In p t w r :
  In r (availableItems p t w) <->
  In r (wms_inventory_items w) /\ candidate p t r = true.
Proof.
  unfold availableItems. rewrite <- filter_In. split; intros H.
  - eapply Permutation_in; [symmetry; apply orderBy_perm | exact H].
  - eapply Permutation_in; [apply orderBy_perm | exact H].
Qed.

Lemma availableItems_NoDup p t w :
  primaryKey w -> NoDup (map id (availableItems p t w)).
Proof.
  intros PK. unfold availableItems.
  eapply Permutation_NoDup; [apply Permutation_map; apply orderBy_perm|].
  apply NoDup_ids_filter. exact PK.
Qed.

Lemma availableItems_positive p t w :
  Forall (fun r => 0 < availableQuantity r) (availableItems p t w).
Proof.
  apply Forall_forall. intros r H. apply availableItems_In in H.
  destruct H as [_ H]. unfold candidate in H.
  apply andb_true_iff in H. destruct H as [_ H]. apply Z.gtb_lt in H. exact H.
Qed.

Lemma candidate_spec p t r :
  candidate p t r = true <->
  productId r = p /\ tenantId r = t /\ 0 < availableQuantity r.
Proof.
  unfold candidate. rewrite !andb_true_iff, !String.eqb_eq, Z.gtb_lt. tauto.
Qed.

(** * The greedy plan *)

Lemma firstn_In_rows {A} (n : nat) (l : list A) (a : A) :
  In a (firstn n l) -> In a l.
Proof.
  intros H. rewrite <- (firstn_skipn n l). apply in_or_app. left; exact H.
Qed.

Lemma greedy_ids rem items :
  map inventoryItemId (greedy rem items)
  = map id (firstn (List.length (greedy rem items)) items).
Proof.
  revert rem. induction items as [|it rest IH]; intros rem; simpl; [reflexivity|].
  destruct (rem <=? 0); simpl; [reflexivity|]. f_equal. apply IH.
Qed.

Lemma greedy_id_in rem items x :
  In x (greedy rem items) -> In (inventoryItemId x) (map id items).
Proof.
  intros H. apply (in_map inventoryItemId) in H. rewrite greedy_ids in H.
  apply in_map_iff in H. destruct H as [r [E Hr]]. rewrite <- E.
  apply in_map. eapply firstn_In_rows; exact Hr.
Qed.

Lemma find_reservation_none (plan : list Reservation) (i : string) :
  ~ In i (map inventoryItemId plan) ->
  find (fun x => (inventoryItemId x =? i)%string) plan = None.
Proof.
  intros H. destruct (find _ plan) as [x|] eqn:E; [|reflexivity].
  apply find_some in E. destruct E as [Hin E]. apply String.eqb_eq in E.
  exfalso. apply H. rewrite <- E. apply in_map. exact Hin.
Qed.

Lemma greedy_NoDup rem items :
  NoDup (map id items) -> NoDup (map inventoryItemId (greedy rem items)).
Proof.
  revert rem. induction items as [|it rest IH]; intros rem ND; simpl; [constructor|].
  inversion ND as [|? ? Hnot ND']; subst.
  destruct (rem <=? 0); simpl; constructor; [|apply IH; exact ND'].
  intros Hin. apply Hnot. apply in_map_iff in Hin. destruct Hin as [x [E Hx]].
  rewrite <- E. eapply greedy_id_in; exact Hx.
Qed.

Lemma greedy_nth rem items k x :
  nth_error (greedy rem items) k = Some x ->
  exists item,
    nth_error items k = Some item /\
    inventoryItemId x = id item /\
    quantity x = Z.min (rem - sumZ (map quantity (firstn k (greedy rem items))))
                       (availableQuantity item).
Proof.
  revert rem k. induction items as [|it rest IH]; intros rem k; simpl.
  - destruct k; discriminate.
  - destruct (rem <=? 0); [destruct k; discriminate|].
    destruct k as [|k]; simpl.
    + intros E; inversion E; subst; clear E. exists it. simpl.
      rewrite Z.sub_0_r. auto.
    + intros E. apply IH in E. destruct E as [item [E1 [E2 E3]]].
      exists item. repeat split; auto. rewrite E3. f_equal. lia.
Qed.

Lemma greedy_positive rem items :
  greedy rem items <> [] -> 0 < rem.
Proof.
  destruct items as [|it rest]; simpl; [congruence|].
  destruct (rem <=? 0) eqn:E; [congruence|]. intros _. apply Z.leb_gt. exact E.
Qed.

Lemma greedy_quantities_positive rem items :
  Forall (fun r => 0 < availableQuantity r) items ->
  Forall (fun x => 0 < quantity x) (greedy rem items).
Proof.
  revert rem. induction items as [|it rest IH]; intros rem F; simpl; [constructor|].
  inversion F; subst.
  destruct (rem <=? 0) eqn:E; [constructor|]. apply Z.leb_gt in E.
  constructor; [simpl; lia | apply IH; assumption].
Qed.

Lemma greedy_remaining_nonneg rem items :
  0 <= rem -> 0 <= rem - sumZ (map quantity (greedy rem items)).
Proof.
  revert rem. induction items as [|it rest IH]; intros rem H; simpl; [lia|].
  destruct (rem <=? 0) eqn:E; simpl; [lia|].
  specialize (IH (rem - Z.min rem (availableQuantity it))). lia.
Qed.

Lemma sum_available_nonneg items :
  Forall (fun r => 0 < availableQuantity r) items ->
  0 <= sumZ (map availableQuantity items).
Proof.
  induction 1; simpl; [lia|]. unfold sumZ in *. simpl. lia.
Qed.

Lemma greedy_enough rem items :
  Forall (fun r => 0 < availableQuantity r) items ->
  rem <= sumZ (map availableQuantity items) ->
  rem - sumZ (map quantity (greedy rem items)) <= 0.
Proof.
  revert rem. induction items as [|it rest IH]; intros rem F H; simpl in *.
  - unfold sumZ in H; simpl in H. lia.
  - inversion F as [|? ? Hit F']; subst.
    destruct (rem <=? 0) eqn:E; simpl.
    + apply Z.leb_le in E. lia.
    + apply Z.leb_gt in E.
      pose proof (sum_available_nonneg rest F') as Hn.
      specialize (IH (rem - Z.min rem (availableQuantity it)) F').
      unfold sumZ in *. simpl in *. lia.
Qed.

(** With too little stock every row is taken whole. *)
Lemma greedy_shortfall rem items :
  Forall (fun r => 0 < availableQuantity r) items ->
  sumZ (map availableQuantity items) < rem ->
  greedy rem items = map (fun r => mkReservation (id r) (availableQuantity r)) items.
Proof.
  revert rem. induction items as [|it rest IH]; intros rem F H; simpl in *; [reflexivity|].
  inversion F as [|? ? Hit F']; subst.
  pose proof (sum_available_nonneg rest F') as Hn.
  unfold sumZ in H, Hn; simpl in H.
  destruct (rem <=? 0) eqn:E; [apply Z.leb_le in E; lia|].
  rewrite Z.min_r by lia. f_equal. apply IH; [exact F'|]. unfold sumZ. lia.
Qed.

Lemma sum_full_plan items :
  sumZ (map quantity (map (fun r => mkReservation (id r) (availableQuantity r)) items))
  = sumZ (map availableQuantity items).
Proof. rewrite map_map. reflexivity. Qed.

Lemma amountReserved_find plan i :
  NoDup (map inventoryItemId plan) ->
  amountReserved plan i
  = match find (fun x => (inventoryItemId x =? i)%string) plan with
    | Some x => quantity x
    | None => 0
    end.
Proof.
  unfold amountReserved. induction plan as [|h pl IH]; intros ND; simpl; [reflexivity|].
  inversion ND as [|? ? Hnot ND']; subst.
  destruct (inventoryItemId h =? i)%string eqn:E; simpl.
  - apply String.eqb_eq in E. subst i.
    change (quantity h
            + sumZ (map quantity
                      (filter (fun x => (inventoryItemId x =? inventoryItemId h)%string) pl))
            = quantity h).
    rewrite (IH ND'), (find_reservation_none _ _ Hnot). lia.
  - apply IH; exact ND'.
Qed.

Lemma sumZ_cons (x : Z) (l : list Z) : sumZ (x :: l) = x + sumZ l.
Proof. reflexivity. Qed.

(** * Lookups by primary key *)

Lemma select_by_id (g : InventoryItem -> bool) (l : list InventoryItem) (r : InventoryItem) :
  NoDup (map id l) -> In r l -> g r = true ->
  filter (fun x => (id x =? id r)%string && g x) l = [r].
Proof.
  induction l as [|a l IH]; simpl; intros ND Hin Hg; [contradiction|].
  inversion ND as [|? ? Hnot ND']; subst.
  destruct Hin as [Hin|Hin].
  - subst a. rewrite String.eqb_refl, Hg. simpl. f_equal.
    clear IH ND. induction l as [|b l IHl]; simpl; [reflexivity|].
    assert (E : (id b =? id r)%string = false).
    { apply String.eqb_neq. intros Eq. apply Hnot. rewrite <- Eq. left; reflexivity. }
    rewrite E. simpl. apply IHl.
    + intros H. apply Hnot. right; exact H.
    + inversion ND'; assumption.
  - assert (E : (id a =? id r)%string = false).
    { other_key Hnot Hin. }
    rewrite E. simpl. apply IH; assumption.
Qed.

Lemma select_id_only (l : list InventoryItem) (r : InventoryItem) :
  NoDup (map id l) -> In r l ->
  filter (fun x => (id x =? id r)%string) l = [r].
Proof.
  intros ND Hin. rewrite <- (select_by_id (fun _ => true) l r ND Hin eq_refl).
  apply filter_ext. intros x. rewrite andb_true_r. reflexivity.
Qed.

Lemma findRow_In w r :
  primaryKey w -> In r (wms_inventory_items w) -> findRow (id r) w = Some r.
Proof.
  unfold primaryKey, findRow. induction (wms_inventory_items w) as [|a l IH]; simpl;
    intros ND Hin; [contradiction|].
  inversion ND as [|? ? Hnot ND']; subst.
  destruct Hin as [Hin|Hin].
  - subst a. rewrite String.eqb_refl. reflexivity.
  - assert (E : (id a =? id r)%string = false).
    { other_key Hnot Hin. }
    rewrite E. apply IH; assumption.
Qed.

(** * The integer columns *)

Lemma accept_spec (fit : bool) (rows : list InventoryItem) (clock : nat -> Z) (n : nat)
    (H : integerColumns rows = fit) :
  match accept fit rows clock n H with
  | Some w' =>
      fit = true /\ wms_inventory_items w' = rows /\ dates w' = clock /\ ticks w' = n
  | None => fit = false
  end.
Proof. destruct fit; simpl; auto. Qed.

Lemma store_spec (rows : list InventoryItem) (clock : nat -> Z) (n : nat) :
  match store rows clock n with
  | Some w' =>
      integerColumns rows = true
      /\ wms_inventory_items w' = rows /\ dates w' = clock /\ ticks w' = n
  | None => integerColumns rows = false
  end.
Proof. exact (accept_spec (integerColumns rows) rows clock n eq_refl). Qed.

Lemma store_fits (rows : list InventoryItem) (clock : nat -> Z) (n : nat) :
  integerColumns rows = true ->
  exists w', store rows clock n = Some w'
             /\ wms_inventory_items w' = rows /\ dates w' = clock /\ ticks w' = n.
Proof.
  intros H. pose proof (store_spec rows clock n) as S.
  destruct (store rows clock n) as [w'|]; [|congruence].
  exists w'. tauto.
Qed.

Lemma store_refuses (rows : list InventoryItem) (clock : nat -> Z) (n : nat) :
  integerColumns rows = false -> store rows clock n = None.
Proof.
  intros H. pose proof (store_spec rows clock n) as S.
  destruct (store rows clock n) as [w'|]; [|reflexivity].
  destruct S as [S _]. congruence.
Qed.

Lemma columns_In (w : World) (r : InventoryItem) :
  In r (wms_inventory_items w) -> fitsColumns r = true.
Proof.
  intros H. pose proof (columns w) as C. unfold integerColumns in C.
  rewrite forallb_forall in C. apply C. exact H.
Qed.

Lemma int4_spec (n : Z) : int4 n = true <-> -2147483648 <= n <= 2147483647.
Proof. unfold int4. rewrite andb_true_iff, !Z.leb_le. tauto. Qed.

Lemma fitsColumns_spec (r : InventoryItem) :
  fitsColumns r = true <->
  -2147483648 <= availableQuantity r <= 2147483647
  /\ -2147483648 <= reservedQuantity r <= 2147483647.
Proof. unfold fitsColumns. rewrite andb_true_iff, !int4_spec. tauto. Qed.

Lemma columns_bounds (w : World) (r : InventoryItem) :
  In r (wms_inventory_items w) ->
  -2147483648 <= availableQuantity r <= 2147483647
  /\ -2147483648 <= reservedQuantity r <= 2147483647.
Proof. intros H. apply fitsColumns_spec. apply (columns_In w). exact H. Qed.

(** An UPDATE is accepted when every row it rewrites fits afterwards. *)
Lemma integerColumns_update (set : InventoryItem -> InventoryItem)
    (cond : InventoryItem -> bool) (l : list InventoryItem) :
  integerColumns l = true ->
  integerColumns (map (fun x => if cond x then set x else x) l)
  = forallb (fun x => fitsColumns (set x)) (filter cond l).
Proof.
  unfold integerColumns. induction l as [|a l IH]; intros H; [reflexivity|].
  cbn [forallb] in H. apply andb_true_iff in H. destruct H as [Ha Hl].
  cbn [map filter forallb]. rewrite (IH Hl).
  destruct (cond a); cbn [forallb]; [reflexivity|]. rewrite Ha. reflexivity.
Qed.

Lemma integerColumns_filter (f : InventoryItem -> bool) (l : list InventoryItem) :
  integerColumns l = true -> integerColumns (filter f l) = true.
Proof.
  unfold integerColumns. rewrite !forallb_forall. intros H x Hx.
  apply filter_In in Hx. apply H. tauto.
Qed.

(** What an UPDATE does, accepted or refused. *)
Lemma update_where_cases (set : InventoryItem -> InventoryItem)
    (cond : InventoryItem -> bool) (w : World) :
  (forallb (fun x => fitsColumns (set x)) (filter cond (wms_inventory_items w)) = true
   /\ exists w',
        update_where set cond w
        = (Return (map set (filter cond (wms_inventory_items w))), w')
        /\ wms_inventory_items w'
           = map (fun x => if cond x then set x else x) (wms_inventory_items w)
        /\ dates w' = dates w /\ ticks w' = ticks w)
  \/ (forallb (fun x => fitsColumns (set x)) (filter cond (wms_inventory_items w)) = false
      /\ update_where set cond w = (Throw integerOutOfRange, w)).
Proof.
  unfold update_where.
  pose proof (integerColumns_update set cond _ (columns w)) as E.
  pose proof (store_spec (map (fun x => if cond x then set x else x) (wms_inventory_items w))
                (dates w) (ticks w)) as S.
  destruct (store _ (dates w) (ticks w)) as [w'|].
  - left. destruct S as [S1 S2]. split; [congruence|]. exists w'. auto.
  - right. split; [congruence | reflexivity].
Qed.

(** * What [reserveInventory] does to the table *)

Lemma touched_id plan r r' : touched plan r r' -> id r' = id r.
Proof.
  unfold touched. destruct (find _ plan); [intros [now E] | intros E]; rewrite E; reflexivity.
Qed.

Lemma touched_nil r : touched [] r r.
Proof. reflexivity. Qed.

(** The reservations made are the first ones of the plan, and the whole
    plan when the database refuses nothing. *)
Lemma booked_greedy rem items :
  exists rest, greedy rem items = booked rem items ++ rest.
Proof.
  revert rem. induction items as [|it l IH]; intros rem; cbn [greedy booked].
  - exists []. reflexivity.
  - destruct (rem <=? 0); [exists []; reflexivity|].
    destruct (int4 _ && int4 _).
    + destruct (IH (rem - Z.min rem (availableQuantity it))) as [rest E].
      exists rest. cbn [app]. rewrite <- E. reflexivity.
    + eexists. reflexivity.
Qed.

Lemma booked_all rem items :
  refused rem items = false -> booked rem items = greedy rem items.
Proof.
  revert rem. induction items as [|it l IH]; intros rem; cbn [greedy booked refused];
    [reflexivity|].
  destruct (rem <=? 0); [reflexivity|].
  destruct (int4 _ && int4 _); [|discriminate].
  intros H. rewrite (IH _ H). reflexivity.
Qed.

Lemma booked_In rem items x : In x (booked rem items) -> In x (greedy rem items).
Proof.
  destruct (booked_greedy rem items) as [rest E]. rewrite E.
  intros H. apply in_or_app. left; exact H.
Qed.

Lemma booked_NoDup rem items :
  NoDup (map id items) -> NoDup (map inventoryItemId (booked rem items)).
Proof.
  intros ND. pose proof (greedy_NoDup rem items ND) as H.
  destruct (booked_greedy rem items) as [rest E]. rewrite E, map_app in H.
  apply NoDup_app_remove_r in H. exact H.
Qed.

Lemma booked_find_none rem items i :
  ~ In i (map id items) ->
  find (fun x => (inventoryItemId x =? i)%string) (booked rem items) = None.
Proof.
  intros H. apply find_reservation_none. intros Hin. apply H.
  apply in_map_iff in Hin. destruct Hin as [x [E Hx]]. rewrite <- E.
  eapply greedy_id_in. apply booked_In. exact Hx.
Qed.

(** No refusal when every row can take its available units as reserved. *)
Lemma refused_none rem items :
  Forall (fun r => fitsColumns r = true /\ 0 < availableQuantity r
                   /\ reservedQuantity r + availableQuantity r <= 2147483647) items ->
  refused rem items = false.
Proof.
  revert rem. induction items as [|it l IH]; intros rem F; cbn [refused]; [reflexivity|].
  inversion F as [|? ? [Hfit [Hpos Hroom]] F']; subst.
  destruct (Z.leb_spec rem 0); [reflexivity|].
  apply fitsColumns_spec in Hfit.
  assert (E : int4 (availableQuantity it - Z.min rem (availableQuantity it))
              && int4 (reservedQuantity it + Z.min rem (availableQuantity it)) = true).
  { apply andb_true_iff. rewrite !int4_spec. lia. }
  rewrite E. apply IH. exact F'.
Qed.

Lemma reserveLoop_run items : forall rem acc w,
  NoDup (map id items) ->
  primaryKey w ->
  incl items (wms_inventory_items w) ->
  exists w',
    InventoryService.reserveLoop items rem acc w
    = (if refused rem items then Throw integerOutOfRange
       else Return (rem - sumZ (map quantity (greedy rem items)), acc ++ greedy rem items),
       w')
    /\ Forall2 (touched (booked rem items)) (wms_inventory_items w) (wms_inventory_items w')
    /\ dates w' = dates w.
Proof.
  induction items as [|it rest IH]; intros rem acc w ND PK Hincl.
  - exists w. simpl. unfold ret. rewrite app_nil_r, Z.sub_0_r.
    repeat split. apply Forall2_refl_rows. intros; apply touched_nil.
  - cbn [InventoryService.reserveLoop refused greedy booked].
    destruct (rem <=? 0) eqn:E.
    + exists w. unfold ret. cbn [map]. rewrite app_nil_r. unfold sumZ at 1. cbn [fold_right].
      rewrite Z.sub_0_r.
      repeat split. apply Forall2_refl_rows. intros; apply touched_nil.
    + inversion ND as [|? ? Hnot ND']; subst.
      set (t := Z.min rem (availableQuantity it)).
      set (now := dates w (ticks w)).
      set (g := set_quantities (availableQuantity it - t) (reservedQuantity it + t) now).
      set (f := fun r : InventoryItem => if (id r =? id it)%string then g r else r).
      assert (Hit : In it (wms_inventory_items w)) by (apply Hincl; left; reflexivity).
      unfold bind at 1. unfold new_Date at 1. unfold bind at 1.
      destruct (update_where_cases g (fun r => (id r =? id it)%string) (tick w))
        as [[Hfit [w1 [Hup [Hrows1 [Hd1 Ht1]]]]]|[Hfit Hup]];
        cbn [tick wms_inventory_items dates ticks] in *;
        rewrite (select_id_only _ _ PK Hit) in Hfit; cbn [forallb] in Hfit;
        rewrite andb_true_r in Hfit; unfold g at 1, fitsColumns in Hfit;
        cbn [set_quantities availableQuantity reservedQuantity] in Hfit;
        fold now g; rewrite Hup, Hfit.
      * assert (Hids : map id (wms_inventory_items w1) = map id (wms_inventory_items w)).
        { rewrite Hrows1, map_map. apply map_ext. intros r.
          destruct (id r =? id it)%string; reflexivity. }
        assert (Hrest : forall x, In x rest -> f x = x).
        { intros x Hx. unfold f.
          destruct (id x =? id it)%string eqn:Ex; [|reflexivity].
          apply String.eqb_eq in Ex. exfalso. apply Hnot. rewrite <- Ex.
          apply in_map. exact Hx. }
        destruct (IH (rem - t) (acc ++ [mkReservation (id it) t]) w1)
          as [w' [Hrun [Hrows Hdates]]].
        -- exact ND'.
        -- unfold primaryKey. rewrite Hids. exact PK.
        -- intros x Hx. rewrite Hrows1. rewrite <- (Hrest x Hx).
           apply (in_map f). apply Hincl. right; exact Hx.
        -- exists w'. split; [|split].
           ++ rewrite Hrun. destruct (refused (rem - t) rest); [reflexivity|].
              rewrite <- app_assoc. cbn [app map quantity]. rewrite sumZ_cons.
              do 3 f_equal. lia.
           ++ rewrite Hrows1 in Hrows. apply Forall2_through_map in Hrows.
              eapply Forall2_In_impl; [|exact Hrows]. clear Hrows.
              intros r r' Hr Hto. unfold touched in *. cbn [find inventoryItemId].
              destruct (id it =? id r)%string eqn:Eq.
              ** apply String.eqb_eq in Eq.
                 assert (r = it)
                   by (apply (primaryKey_unique (wms_inventory_items w)); auto).
                 subst r. rewrite String.eqb_refl in Hto.
                 rewrite booked_find_none in Hto by exact Hnot.
                 exists now. cbn [quantity]. exact Hto.
              ** rewrite String.eqb_sym, Eq in Hto. exact Hto.
           ++ rewrite Hdates, Hd1. reflexivity.
      * exists (tick w). split; [reflexivity|]. split; [|reflexivity].
        apply Forall2_refl_rows. intros; apply touched_nil.
Qed.

Lemma reserveInventory_run p q t w :
  primaryKey w ->
  exists w',
    InventoryService.reserveInventory p q t w
    = (if refused q (availableItems p t w) then Throw integerOutOfRange
       else if q - sumZ (map quantity (greedy q (availableItems p t w))) >? 0
            then Throw (insufficientStock
                          (q - sumZ (map quantity (greedy q (availableItems p t w)))))
            else Return (greedy q (availableItems p t w)), w')
    /\ Forall2 (touched (booked q (availableItems p t w)))
               (wms_inventory_items w) (wms_inventory_items w').
Proof.
  intros PK.
  destruct (reserveLoop_run (availableItems p t w) q [] w) as [w' [Hrun [Hrows _]]].
  - apply availableItems_NoDup; exact PK.
  - exact PK.
  - intros r Hr. apply availableItems_In in Hr. tauto.
  - exists w'. split; [|exact Hrows].
    unfold InventoryService.reserveInventory, bind, select_where, ret.
    fold (availableItems p t w). rewrite Hrun.
    destruct (refused q (availableItems p t w)); [reflexivity|]. cbn [app].
    destruct (_ >? 0); reflexivity.
Qed.

(** What a reservation that returns has done. *)
Lemma reserveInventory_returned p q t w res w' :
  primaryKey w ->
  InventoryService.reserveInventory p q t w = (Return res, w') ->
  res = greedy q (availableItems p t w)
  /\ q - sumZ (map quantity (greedy q (availableItems p t w))) <= 0
  /\ Forall2 (touched (greedy q (availableItems p t w)))
             (wms_inventory_items w) (wms_inventory_items w').
Proof.
  intros PK Hres.
  destruct (reserveInventory_run p q t w PK) as [w0 [Hrun Hrows]].
  rewrite Hrun in Hres.
  destruct (refused q (availableItems p t w)) eqn:Er; [discriminate|].
  rewrite (booked_all _ _ Er) in Hrows.
  destruct (Z.gtb_spec (q - sumZ (map quantity (greedy q (availableItems p t w)))) 0);
    [discriminate|].
  inversion Hres; subst. auto.
Qed.

(** * What [releaseReservedInventory] does *)

Lemma release_run i q w r :
  primaryKey w -> In r (wms_inventory_items w) -> id r = i ->
  InventoryService.releaseReservedInventory i q w
  = if reservedQuantity r <? q
    then (Throw (Error "Cannot release more than reserved quantity"), w)
    else afterRelease i r q w.
Proof.
  intros PK Hin E. subst i.
  unfold InventoryService.releaseReservedInventory, bind, select_where, ret, limit.
  rewrite (select_id_only _ _ PK Hin). cbn [firstn].
  destruct (reservedQuantity r <? q); [reflexivity|].
  unfold new_Date, update_where, afterRelease, released.
  cbn [tick wms_inventory_items dates ticks].
  destruct (store _ _ _); reflexivity.
Qed.

Lemma release_missing i q w :
  findRow i w = None ->
  InventoryService.releaseReservedInventory i q w
  = (Throw (Error "Inventory item not found"), w).
Proof.
  unfold findRow. intros Hfind.
  assert (E : filter (fun x => (id x =? i)%string) (wms_inventory_items w) = []).
  { destruct (filter _ _) as [|a l] eqn:Ef; [reflexivity|]. exfalso.
    assert (Ha : In a (a :: l)) by (left; reflexivity). rewrite <- Ef in Ha.
    apply filter_In in Ha. destruct Ha as [Ha Hid].
    pose proof (find_none _ _ Hfind a Ha) as Hn. cbn beta in Hn. congruence. }
  unfold InventoryService.releaseReservedInventory, bind, select_where, ret, limit.
  rewrite E. reflexivity.
Qed.

Lemma release_cases i q w :
  primaryKey w ->
  InventoryService.releaseReservedInventory i q w
    = (Throw (Error "Inventory item not found"), w)
  \/ exists r, In r (wms_inventory_items w) /\ id r = i /\
       InventoryService.releaseReservedInventory i q w
       = if reservedQuantity r <? q
         then (Throw (Error "Cannot release more than reserved quantity"), w)
         else afterRelease i r q w.
Proof.
  intros PK.
  destruct (filter (fun x => (id x =? i)%string) (wms_inventory_items w)) as [|r l] eqn:E.
  - left. unfold InventoryService.releaseReservedInventory, bind, select_where, ret, limit.
    rewrite E. reflexivity.
  - right. exists r.
    assert (H : In r (filter (fun x => (id x =? i)%string) (wms_inventory_items w)))
      by (rewrite E; left; reflexivity).
    apply filter_In in H. destruct H as [Hin Hid]. apply String.eqb_eq in Hid.
    repeat split; auto. apply release_run; assumption.
Qed.

(** The UPDATE of a release is accepted exactly when the row's new
    quantities fit their columns. *)
Lemma afterRelease_cases i q w r :
  primaryKey w -> In r (wms_inventory_items w) -> id r = i ->
  (int4 (availableQuantity r + q) && int4 (reservedQuantity r - q) = true
   /\ exists w', afterRelease i r q w = (Return tt, w') /\ wrote (released i r q w) w w')
  \/ (int4 (availableQuantity r + q) && int4 (reservedQuantity r - q) = false
      /\ afterRelease i r q w = (Throw integerOutOfRange, tick w)).
Proof.
  intros PK Hin Hid. subst i. unfold afterRelease.
  assert (E : integerColumns (released (id r) r q w)
              = int4 (availableQuantity r + q) && int4 (reservedQuantity r - q)).
  { unfold released. rewrite (integerColumns_update _ _ _ (columns w)).
    rewrite (select_id_only _ _ PK Hin). cbn [forallb]. rewrite andb_true_r. reflexivity. }
  destruct (int4 (availableQuantity r + q) && int4 (reservedQuantity r - q)).
  - left. split; [reflexivity|].
    destruct (store_fits _ (dates w) (S (ticks w)) E) as [w' [Hs Hw]].
    rewrite Hs. exists w'. split; [reflexivity | exact Hw].
  - right. split; [reflexivity|]. rewrite (store_refuses _ _ _ E). reflexivity.
Qed.

Lemma released_rows i q w r :
  primaryKey w -> In r (wms_inventory_items w) -> id r = i ->
  Forall2 (fun x x' => if (id x =? i)%string
                       then x' = set_quantities (availableQuantity x + q)
                                                (reservedQuantity x - q)
                                                (dates w (ticks w)) x
                       else x' = x)
          (wms_inventory_items w) (released i r q w).
Proof.
  intros PK Hin E. unfold released. apply Forall2_of_map. intros x Hx.
  destruct (id x =? i)%string eqn:Ex; [|reflexivity].
  apply String.eqb_eq in Ex.
  assert (x = r)
    by (apply (primaryKey_unique (wms_inventory_items w)); [exact PK | exact Hx | exact Hin | congruence]).
  subst x. reflexivity.
Qed.

(** The table after a release, whatever its outcome: as it was, or with
    the quantity moved in the row addressed. *)
Lemma release_rows i q w :
  primaryKey w ->
  wms_inventory_items (snd (InventoryService.releaseReservedInventory i q w))
  = wms_inventory_items w
  \/ exists r,
       In r (wms_inventory_items w) /\ id r = i /\ q <= reservedQuantity r
       /\ int4 (availableQuantity r + q) && int4 (reservedQuantity r - q) = true
       /\ fst (InventoryService.releaseReservedInventory i q w) = Return tt
       /\ wms_inventory_items (snd (InventoryService.releaseReservedInventory i q w))
          = released i r q w.
Proof.
  intros PK.
  destruct (release_cases i q w PK) as [E|[r [Hin [Hid E]]]]; rewrite E; [left; reflexivity|].
  destruct (Z.ltb_spec (reservedQuantity r) q); [left; reflexivity|].
  destruct (afterRelease_cases i q w r PK Hin Hid) as [[Hfit [w' [Ha [Hw _]]]]|[Hfit Ha]];
    rewrite Ha.
  - right. exists r. cbn [fst snd]. auto 10.
  - left. reflexivity.
Qed.

(** * What the adjustment handler does *)

(** The handler's UPDATE, accepted or refused. *)
Lemma afterAdjust_cases req nq w :
  (integerColumns (adjustedRows (params_id req) nq w) = true
   /\ exists w', afterAdjust req nq w = (Return (adjustedResponse req nq w), w')
                 /\ wrote (adjustedRows (params_id req) nq w) w w')
  \/ (integerColumns (adjustedRows (params_id req) nq w) = false
      /\ afterAdjust req nq w = (Return validationFailed, tick w)).
Proof.
  unfold afterAdjust.
  destruct (integerColumns (adjustedRows (params_id req) nq w)) eqn:E.
  - left. split; [reflexivity|].
    destruct (store_fits _ (dates w) (S (ticks w)) E) as [w' [Hs Hw]].
    rewrite Hs. exists w'. split; [reflexivity | exact Hw].
  - right. split; [reflexivity|]. rewrite (store_refuses _ _ _ E). reflexivity.
Qed.

(** With the primary key, the UPDATE is accepted exactly when the new
    quantity fits its column. *)
Lemma adjustedRows_fit i nq w r :
  primaryKey w -> In r (wms_inventory_items w) -> id r = i ->
  integerColumns (adjustedRows i nq w) = int4 nq.
Proof.
  intros PK Hin Hid. subst i. unfold adjustedRows.
  rewrite (integerColumns_update _ _ _ (columns w)), (select_id_only _ _ PK Hin).
  cbn [forallb]. rewrite andb_true_r. unfold fitsColumns.
  cbn [set_available availableQuantity reservedQuantity].
  pose proof (columns_In w r Hin) as Hf. unfold fitsColumns in Hf.
  apply andb_true_iff in Hf. destruct Hf as [_ Hf]. rewrite Hf. apply andb_true_r.
Qed.

Section AdjustFacts.

Variable isUuid : string -> bool.

Lemma adjust_found req w r l :
  params_id req <> "" ->
  validRequest isUuid req = true ->
  filter (fun x => (id x =? params_id req)%string
                   && (tenantId x =? user_activeTenantId req)%string)
         (wms_inventory_items w) = r :: l ->
  post_id_adjust isUuid req w
  = if (body_adjustmentType req =? "increase")%string
    then afterAdjust req (availableQuantity r + body_quantity req) w
    else if availableQuantity r - body_quantity req <? 0
         then (Return insufficientForAdjustment, w)
         else afterAdjust req (availableQuantity r - body_quantity req) w.
Proof.
  intros Hid Hvalid Hsel. unfold post_id_adjust.
  apply String.eqb_neq in Hid. rewrite Hid.
  unfold try_catch, bind, inventoryAdjustmentSchema_parseAsync, select_where, ret, limit.
  cbn [data_id adjustmentType data_quantity reason].
  unfold validRequest in Hvalid. rewrite Hvalid.
  cbn [data_id adjustmentType data_quantity reason]. rewrite Hsel. cbn [firstn].
  unfold new_Date, update_where, afterAdjust, adjustedRows, adjustedResponse.
  cbn [tick wms_inventory_items dates ticks].
  destruct (body_adjustmentType req =? "increase")%string.
  - destruct (store _ _ _); reflexivity.
  - destruct (availableQuantity r - body_quantity req <? 0); [reflexivity|].
    destruct (store _ _ _); reflexivity.
Qed.

Lemma adjust_cases req w :
  (exists resp, post_id_adjust isUuid req w = (Return resp, w) /\ success resp = false)
  \/ (exists r l,
        params_id req <> "" /\ validRequest isUuid req = true /\
        filter (fun x => (id x =? params_id req)%string
                         && (tenantId x =? user_activeTenantId req)%string)
               (wms_inventory_items w) = r :: l).
Proof.
  destruct (params_id req =? "")%string eqn:Hid.
  { left. unfold post_id_adjust. rewrite Hid. eexists; split; reflexivity. }
  destruct (validRequest isUuid req) eqn:Hvalid.
  2:{ left. unfold post_id_adjust. rewrite Hid.
      unfold try_catch, bind, inventoryAdjustmentSchema_parseAsync.
      cbn [data_id adjustmentType data_quantity reason].
      unfold validRequest in Hvalid. rewrite Hvalid. eexists; split; reflexivity. }
  destruct (filter (fun x => (id x =? params_id req)%string
                             && (tenantId x =? user_activeTenantId req)%string)
                   (wms_inventory_items w)) as [|r l] eqn:Hsel.
  { left. unfold post_id_adjust. rewrite Hid.
    unfold try_catch, bind, inventoryAdjustmentSchema_parseAsync, select_where, ret, limit.
    cbn [data_id adjustmentType data_quantity reason].
    unfold validRequest in Hvalid. rewrite Hvalid. rewrite Hsel.
    eexists; split; reflexivity. }
  right. exists r, l. apply String.eqb_neq in Hid. auto.
Qed.

Lemma adjust_run req w r :
  primaryKey w -> In r (wms_inventory_items w) ->
  id r = params_id req -> tenantId r = user_activeTenantId req ->
  params_id req <> "" -> validRequest isUuid req = true ->
  post_id_adjust isUuid req w
  = if (body_adjustmentType req =? "increase")%string
    then afterAdjust req (availableQuantity r + body_quantity req) w
    else if availableQuantity r - body_quantity req <? 0
         then (Return insufficientForAdjustment, w)
         else afterAdjust req (availableQuantity r - body_quantity req) w.
Proof.
  intros PK Hin Hid Hten Hne Hvalid.
  apply (adjust_found req w r []); auto.
  rewrite <- Hid, <- Hten.
  apply (select_by_id (fun x => (tenantId x =? tenantId r)%string)); auto.
  apply String.eqb_refl.
Qed.

(** The table after the handler has run, whatever the request and the
    answer: as it was, or with the new quantity in the rows of the id. *)
Lemma adjust_rows req w :
  wms_inventory_items (snd (post_id_adjust isUuid req w)) = wms_inventory_items w
  \/ exists r l nq,
       params_id req <> "" /\ validRequest isUuid req = true
       /\ filter (fun x => (id x =? params_id req)%string
                           && (tenantId x =? user_activeTenantId req)%string)
                 (wms_inventory_items w) = r :: l
       /\ nq = (if (body_adjustmentType req =? "increase")%string
                then availableQuantity r + body_quantity req
                else availableQuantity r - body_quantity req)
       /\ ((body_adjustmentType req =? "increase")%string = false -> 0 <= nq)
       /\ fst (post_id_adjust isUuid req w) = Return (adjustedResponse req nq w)
       /\ wms_inventory_items (snd (post_id_adjust isUuid req w))
          = adjustedRows (params_id req) nq w.
Proof.
  destruct (adjust_cases req w) as [[resp [E _]]|[r [l [Hne [Hvalid Hsel]]]]].
  - left. rewrite E. reflexivity.
  - rewrite (adjust_found req w r l Hne Hvalid Hsel).
    destruct (body_adjustmentType req =? "increase")%string.
    + destruct (afterAdjust_cases req (availableQuantity r + body_quantity req) w)
        as [[_ [w' [Ha [Hw _]]]]|[_ Ha]]; rewrite Ha; [|left; reflexivity].
      right. exists r, l, (availableQuantity r + body_quantity req).
      cbn [fst snd]. repeat split; auto. discriminate.
    + destruct (Z.ltb_spec (availableQuantity r - body_quantity req) 0);
        [left; reflexivity|].
      destruct (afterAdjust_cases req (availableQuantity r - body_quantity req) w)
        as [[_ [w' [Ha [Hw _]]]]|[_ Ha]]; rewrite Ha; [|left; reflexivity].
      right. exists r, l, (availableQuantity r - body_quantity req).
      cbn [fst snd]. repeat split; auto.
Qed.

(** Whatever the request, the handler leaves every row's identity, owner
    and reserved quantity alone. *)
Lemma adjust_keeps_reserved req w :
  Forall2 (fun x x' => id x' = id x /\ productId x' = productId x
                       /\ tenantId x' = tenantId x
                       /\ reservedQuantity x' = reservedQuantity x)
          (wms_inventory_items w)
          (wms_inventory_items (snd (post_id_adjust isUuid req w))).
Proof.
  destruct (adjust_rows req w) as [E|[r [l [nq [_ [_ [_ [_ [_ [_ E]]]]]]]]]]; rewrite E.
  - apply Forall2_refl_rows; auto.
  - unfold adjustedRows. apply Forall2_of_map. intros x _.
    destruct (id x =? params_id req)%string; simpl; auto.
Qed.

End AdjustFacts.

(** * Stock of a product *)

Lemma totalStock_conserved p w w' :
  Forall2 conserved (wms_inventory_items w) (wms_inventory_items w') ->
  totalStock p w' = totalStock p w.
Proof.
  unfold totalStock. intros F.
  induction F as [|a a' l l' [_ [Hp Hs]] F IH]; simpl; [reflexivity|].
  rewrite Hp. destruct (productId a =? p)%string; simpl; [|exact IH].
  unfold sumZ in *. simpl. rewrite IH, Hs. reflexivity.
Qed.

Lemma conserved_primaryKey w w' :
  Forall2 conserved (wms_inventory_items w) (wms_inventory_items w') ->
  primaryKey w -> primaryKey w'.
Proof.
  unfold primaryKey. intros F PK.
  rewrite (Forall2_same_ids conserved _ _ (fun a b H => proj1 H) F). exact PK.
Qed.

Lemma touched_conserved plan r r' : touched plan r r' -> conserved r r'.
Proof.
  unfold touched, conserved.
  destruct (find _ plan); [intros [now E] | intros E]; rewrite E; simpl; repeat split; lia.
Qed.

Lemma reserve_conserves p q t w :
  primaryKey w ->
  Forall2 conserved (wms_inventory_items w)
    (wms_inventory_items (snd (InventoryService.reserveInventory p q t w))).
Proof.
  intros PK. destruct (reserveInventory_run p q t w PK) as [w' [Hrun Hrows]].
  rewrite Hrun. simpl.
  eapply Forall2_In_impl; [|exact Hrows]. intros a b _. apply touched_conserved.
Qed.

Lemma release_conserves i q w :
  primaryKey w ->
  Forall2 conserved (wms_inventory_items w)
    (wms_inventory_items (snd (InventoryService.releaseReservedInventory i q w))).
Proof.
  intros PK.
  destruct (release_rows i q w PK) as [E|[r [Hin [Hid [_ [_ [_ E]]]]]]]; rewrite E.
  - apply Forall2_refl_rows; unfold conserved; auto.
  - eapply Forall2_In_impl; [|apply released_rows; eassumption].
    intros a b _. simpl. unfold conserved.
    destruct (id a =? i)%string; intros ->; simpl; repeat split; lia.
Qed.

Lemma existsb_row p (l : list InventoryItem) e :
  NoDup (map id l) -> In e l ->
  existsb (fun r => (id r =? id e)%string && (productId r =? p)%string) l
  = (productId e =? p)%string.
Proof.
  induction l as [|a l IH]; simpl; intros ND Hin; [contradiction|].
  inversion ND as [|? ? Hnot ND']; subst.
  destruct Hin as [Hin|Hin].
  - subst a. rewrite String.eqb_refl. simpl.
    destruct (productId e =? p)%string; [reflexivity|]. simpl.
    apply not_true_is_false. intros H. apply existsb_exists in H.
    destruct H as [x [Hx H]]. apply andb_true_iff in H. destruct H as [H _].
    apply String.eqb_eq in H. apply Hnot. rewrite <- H. apply in_map. exact Hx.
  - assert (E : (id a =? id e)%string = false).
    { other_key Hnot Hin. }
    rewrite E. simpl. apply IH; assumption.
Qed.

Lemma totalStock_adjusted p w w' e nq :
  primaryKey w -> In e (wms_inventory_items w) ->
  wms_inventory_items w' = adjustedRows (id e) nq w ->
  totalStock p w'
  = totalStock p w + (if (productId e =? p)%string then nq - availableQuantity e else 0).
Proof.
  unfold primaryKey, totalStock, adjustedRows. intros PK Hin ->. revert PK Hin.
  generalize (dates w (ticks w)) as now.
  induction (wms_inventory_items w) as [|a l IH]; simpl; intros now ND Hin; [contradiction|].
  inversion ND as [|? ? Hnot ND']; subst.
  destruct Hin as [Hin|Hin].
  - subst a. rewrite String.eqb_refl. simpl.
    assert (Hl : map (fun x => if (id x =? id e)%string then set_available nq now x else x) l = l).
    { rewrite <- (map_id l) at 2. apply map_ext_in. intros x Hx.
      destruct (id x =? id e)%string eqn:E; [|reflexivity].
      apply String.eqb_eq in E. exfalso. apply Hnot. rewrite <- E. apply in_map. exact Hx. }
    rewrite Hl. destruct (productId e =? p)%string; unfold sumZ; simpl; lia.
  - assert (E : (id a =? id e)%string = false).
    { other_key Hnot Hin. }
    rewrite E. specialize (IH now ND' Hin).
    destruct (productId a =? p)%string; unfold sumZ in *; simpl; lia.
Qed.

Section Sequences.

Variable isUuid : string -> bool.

Lemma perform_primaryKey c w : primaryKey w -> primaryKey (perform isUuid c w).
Proof.
  intros PK. destruct c as [p q t|i q|req]; simpl.
  - eapply conserved_primaryKey; [apply reserve_conserves|]; exact PK.
  - eapply conserved_primaryKey; [apply release_conserves|]; exact PK.
  - unfold primaryKey.
    rewrite (Forall2_same_ids _ _ _ (fun a b H => proj1 H) (adjust_keeps_reserved isUuid req w)).
    exact PK.
Qed.

Lemma perform_stock p c w :
  primaryKey w ->
  totalStock p (perform isUuid c w) = totalStock p w + adjusted isUuid p c w.
Proof.
  intros PK. destruct c as [p' q t|i q|req]; simpl.
  - rewrite Z.add_0_r. apply totalStock_conserved, reserve_conserves; exact PK.
  - rewrite Z.add_0_r. apply totalStock_conserved, release_conserves; exact PK.
  - destruct (adjust_cases isUuid req w) as [[resp [E Hs]]|[r [l [Hne [Hvalid Hsel]]]]].
    + rewrite E, Hs. simpl. lia.
    + assert (Hr : In r (filter (fun x => (id x =? params_id req)%string
                             && (tenantId x =? user_activeTenantId req)%string)
                   (wms_inventory_items w))) by (rewrite Hsel; left; reflexivity).
      apply filter_In in Hr. destruct Hr as [Hin Hr].
      apply andb_true_iff in Hr. destruct Hr as [Hid _]. apply String.eqb_eq in Hid.
      rewrite (adjust_found isUuid req w r l Hne Hvalid Hsel).
      pose proof (existsb_row p _ r PK Hin) as Hex. rewrite Hid in Hex.
      assert (Hafter : forall nq,
                 body_quantity req
                 = (if (body_adjustmentType req =? "increase")%string
                    then nq - availableQuantity r else availableQuantity r - nq) ->
                 totalStock p (snd (afterAdjust req nq w))
                 = totalStock p w
                   + match afterAdjust req nq w with
                     | (Return res, _) =>
                         if success res
                            && existsb (fun x => (id x =? params_id req)%string
                                                 && (productId x =? p)%string)
                                       (wms_inventory_items w)
                         then if (body_adjustmentType req =? "increase")%string
                              then body_quantity req
                              else - body_quantity req
                         else 0
                     | (Throw _, _) => 0
                     end).
      { intros nq Hq.
        destruct (afterAdjust_cases req nq w) as [[_ [w' [Ha [Hw _]]]]|[_ Ha]]; rewrite Ha.
        - cbn [snd success adjustedResponse andb]. rewrite Hex. rewrite <- Hid in Hw.
          rewrite (totalStock_adjusted p w w' r nq PK Hin Hw).
          destruct (productId r =? p)%string; [|reflexivity].
          destruct (body_adjustmentType req =? "increase")%string; lia.
        - cbn [snd success validationFailed andb]. unfold totalStock.
          cbn [tick wms_inventory_items]. lia. }
      destruct (body_adjustmentType req =? "increase")%string eqn:Ed.
      * apply Hafter. lia.
      * destruct (availableQuantity r - body_quantity req <? 0).
        -- cbn [snd success insufficientForAdjustment andb]. lia.
        -- apply Hafter. lia.
Qed.

End Sequences.
(** * Further lemmas for the claims *)

Lemma distinct_NoDup (l : list string) : distinct l = true -> NoDup l.
Proof.
  induction l as [|x l IH]; simpl; intros H; [constructor|].
  apply andb_true_iff in H. destruct H as [Hx Hl].
  constructor; [|apply IH; exact Hl].
  intros Hin. apply negb_true_iff in Hx.
  assert (E : existsb (String.eqb x) l = true).
  { apply existsb_exists. exists x. split; [exact Hin | apply String.eqb_refl]. }
  congruence.
Qed.

Lemma distinct_primaryKey w :
  distinct (map id (wms_inventory_items w)) = true -> primaryKey w.
Proof. apply distinct_NoDup. Qed.

Lemma findRow_Forall2 (P : InventoryItem -> InventoryItem -> Prop) w w' r :
  (forall a b, P a b -> id b = id a) ->
  primaryKey w ->
  Forall2 P (wms_inventory_items w) (wms_inventory_items w') ->
  In r (wms_inventory_items w) ->
  exists r', findRow (id r) w' = Some r' /\ P r r'.
Proof.
  unfold primaryKey, findRow. intros Hid PK F.
  induction F as [|a a' l l' Ha F IH]; intros Hin; [contradiction|].
  simpl in *. inversion PK as [|? ? Hnot PK']; subst.
  destruct Hin as [Hin|Hin].
  - subst a. exists a'. rewrite (Hid _ _ Ha), String.eqb_refl. auto.
  - assert (E : (id a' =? id r)%string = false).
    { apply String.eqb_neq. rewrite (Hid _ _ Ha). intros Eq.
      apply Hnot. rewrite Eq. apply in_map. exact Hin. }
    rewrite E. apply IH; assumption.
Qed.

Lemma findRow_Some i w r : findRow i w = Some r -> In r (wms_inventory_items w) /\ id r = i.
Proof.
  unfold findRow. intros H. apply find_some in H. rewrite String.eqb_eq in H. exact H.
Qed.

Lemma find_reservation_In plan x :
  NoDup (map inventoryItemId plan) -> In x plan ->
  find (fun y => (inventoryItemId y =? inventoryItemId x)%string) plan = Some x.
Proof.
  induction plan as [|h pl IH]; simpl; intros ND Hin; [contradiction|].
  inversion ND as [|? ? Hnot ND']; subst.
  destruct Hin as [Hin|Hin].
  - subst h. rewrite String.eqb_refl. reflexivity.
  - assert (E : (inventoryItemId h =? inventoryItemId x)%string = false).
    { other_key Hnot Hin. }
    rewrite E. apply IH; assumption.
Qed.

Lemma find_full_plan items r :
  NoDup (map id items) -> In r items ->
  find (fun x => (inventoryItemId x =? id r)%string)
       (map (fun r => mkReservation (id r) (availableQuantity r)) items)
  = Some (mkReservation (id r) (availableQuantity r)).
Proof.
  intros ND Hin.
  apply (find_reservation_In _ (mkReservation (id r) (availableQuantity r))).
  - rewrite map_map. exact ND.
  - apply (in_map (fun r => mkReservation (id r) (availableQuantity r))). exact Hin.
Qed.

Lemma StronglySorted_prefix {A} (R : A -> A -> Prop) (l1 l2 : list A) :
  StronglySorted R (l1 ++ l2) -> StronglySorted R l1.
Proof.
  induction l1 as [|a l1 IH]; simpl; intros S; [constructor|].
  inversion S as [|? ? S' F]; subst. constructor; [apply IH; exact S'|].
  apply Forall_app in F. tauto.
Qed.

Lemma StronglySorted_suffix {A} (R : A -> A -> Prop) (l1 l2 : list A) :
  StronglySorted R (l1 ++ l2) -> StronglySorted R l2.
Proof.
  induction l1 as [|a l1 IH]; simpl; intros S; [exact S|].
  inversion S; subst. apply IH; assumption.
Qed.

Lemma findRow_updated (g : InventoryItem -> InventoryItem) w w' r :
  (forall x, id (g x) = id x) ->
  primaryKey w ->
  In r (wms_inventory_items w) ->
  wms_inventory_items w'
  = map (fun x => if (id x =? id r)%string then g x else x) (wms_inventory_items w) ->
  findRow (id r) w' = Some (g r).
Proof.
  intros Hg PK Hin Hrows.
  destruct (findRow_Forall2
              (fun a b => b = if (id a =? id r)%string then g a else a) w w' r)
    as [r' [Hfind Hr']].
  - intros a b ->. destruct (id a =? id r)%string; [apply Hg | reflexivity].
  - exact PK.
  - rewrite Hrows. apply Forall2_of_map. reflexivity.
  - exact Hin.
  - rewrite String.eqb_refl in Hr'. subst r'. exact Hfind.
Qed.

Lemma released_findRow i q w w' r :
  primaryKey w -> In r (wms_inventory_items w) -> id r = i ->
  wms_inventory_items w' = released i r q w ->
  findRow i w'
  = Some (set_quantities (availableQuantity r + q) (reservedQuantity r - q)
                         (dates w (ticks w)) r).
Proof.
  intros PK Hin Hid Hw. subst i.
  apply (findRow_updated
           (set_quantities (availableQuantity r + q) (reservedQuantity r - q)
                           (dates w (ticks w))) w); auto.
Qed.

(** A row named by the plan is one of the candidate rows. *)
Lemma planned_is_candidate p q t w r :
  primaryKey w -> In r (wms_inventory_items w) ->
  In (id r) (map inventoryItemId (greedy q (availableItems p t w))) ->
  In r (availableItems p t w).
Proof.
  intros PK Hin Hplan. apply in_map_iff in Hplan. destruct Hplan as [x [E Hx]].
  apply greedy_id_in in Hx. rewrite E in Hx. apply in_map_iff in Hx.
  destruct Hx as [it [Eid Hit]].
  assert (it = r).
  { apply (primaryKey_unique (wms_inventory_items w)); auto.
    apply availableItems_In in Hit. tauto. }
  subst it. exact Hit.
Qed.

Lemma booked_is_candidate p q t w r :
  primaryKey w -> In r (wms_inventory_items w) ->
  In (id r) (map inventoryItemId (booked q (availableItems p t w))) ->
  In r (availableItems p t w).
Proof.
  intros PK Hin Hplan. apply (planned_is_candidate p q t w r PK Hin).
  apply in_map_iff in Hplan. destruct Hplan as [x [E Hx]]. rewrite <- E.
  apply in_map. apply booked_In. exact Hx.
Qed.

Lemma touched_planned plan r r' :
  touched plan r r' -> availableQuantity r' <> availableQuantity r ->
  In (id r) (map inventoryItemId plan).
Proof.
  unfold touched. destruct (find _ plan) as [x|] eqn:E.
  - intros _ _. apply find_some in E. destruct E as [Hin E].
    apply String.eqb_eq in E. rewrite <- E. apply in_map. exact Hin.
  - intros -> H. congruence.
Qed.

Lemma booked_positive rem items : booked rem items <> [] -> 0 < rem.
Proof.
  destruct items as [|it rest]; cbn [booked]; [congruence|].
  destruct (rem <=? 0) eqn:E; [congruence|]. intros _. apply Z.leb_gt. exact E.
Qed.

(** A row reserved from has every earlier row taken whole. *)
Lemma booked_before l1 : forall rem b l2 a,
  NoDup (map id (l1 ++ b :: l2)) ->
  In (id b) (map inventoryItemId (booked rem (l1 ++ b :: l2))) ->
  In a l1 ->
  find (fun x => (inventoryItemId x =? id a)%string) (booked rem (l1 ++ b :: l2))
  = Some (mkReservation (id a) (availableQuantity a)).
Proof.
  induction l1 as [|c l1 IH]; intros rem b l2 a ND Hb Ha; [contradiction|].
  cbn [app booked map] in *. inversion ND as [|? ? Hnot ND']; subst.
  destruct (rem <=? 0) eqn:E; [contradiction|].
  destruct (int4 _ && int4 _); [|contradiction].
  cbn [map inventoryItemId] in Hb.
  assert (Hcb : id c <> id b).
  { intros Eq. apply Hnot. rewrite Eq. apply in_map. apply in_or_app. right; left; reflexivity. }
  destruct Hb as [Hb|Hb]; [congruence|].
  assert (Hpos : 0 < rem - Z.min rem (availableQuantity c)).
  { apply (booked_positive _ (l1 ++ b :: l2)). intros Enil. rewrite Enil in Hb. exact Hb. }
  assert (Hmin : Z.min rem (availableQuantity c) = availableQuantity c) by lia.
  cbn [find inventoryItemId]. destruct Ha as [Ha|Ha].
  - subst a. rewrite String.eqb_refl, Hmin. reflexivity.
  - assert (Hca : (id c =? id a)%string = false).
    { apply String.eqb_neq. intros Eq. apply Hnot. rewrite Eq. apply in_map.
      apply in_or_app. left; exact Ha. }
    rewrite Hca. apply IH; assumption.
Qed.

(** The order of the query is the order of the calendar, rows without
    expiry date last. *)
Lemma expiry_leb_calendar (a b : option Date) :
  expiry_leb a b = true <-> expiresNoLater a b.
Proof.
  destruct a as [x|], b as [y|]; cbn [expiresNoLater]; try (cbn; intuition congruence).
  rewrite expiry_leb_Some, Date_compare_not_Gt. unfold notAfter. tauto.
Qed.

Lemma expiresEarlier_sorts_before (a b : InventoryItem) :
  expiresEarlier (expiryDate a) (expiryDate b) -> expiresBefore a b.
Proof.
  unfold expiresBefore, fefo, expiresEarlier. intros [Hab Hba]. split.
  - apply expiry_leb_calendar. exact Hab.
  - apply not_true_is_false. rewrite expiry_leb_calendar. exact Hba.
Qed.

(** FEFO: when units are taken from [b], a row of the product that sorts
    strictly before [b] has nothing available afterwards. *)
Lemma touched_after_earlier p q t w w' a b a' b' :
  primaryKey w ->
  Forall2 (touched (booked q (availableItems p t w)))
          (wms_inventory_items w) (wms_inventory_items w') ->
  In a (wms_inventory_items w) -> In b (wms_inventory_items w) ->
  productId a = p -> tenantId a = t ->
  expiresBefore a b ->
  findRow (id b) w' = Some b' -> availableQuantity b' <> availableQuantity b ->
  findRow (id a) w' = Some a' ->
  availableQuantity a' <= 0.
Proof.
  intros PK F Ha Hb Hp Ht [Hab Hba] Fb Hchanged Fa.
  destruct (findRow_Forall2 _ w w' b (touched_id _) PK F Hb) as [b0 [Eb Tb]].
  destruct (findRow_Forall2 _ w w' a (touched_id _) PK F Ha) as [a0 [Ea Ta]].
  rewrite Fb in Eb; inversion Eb; subst b0; clear Eb.
  rewrite Fa in Ea; inversion Ea; subst a0; clear Ea.
  pose proof (touched_planned _ _ _ Tb Hchanged) as Hplanned.
  pose proof (booked_is_candidate p q t w b PK Hb Hplanned) as Hbi.
  destruct (in_split _ _ Hbi) as [l1 [l2 Esplit]].
  pose proof (orderBy_sorted (filter (candidate p t) (wms_inventory_items w))) as Hsorted.
  fold (availableItems p t w) in Hsorted.
  pose proof (availableItems_NoDup p t w PK) as Hnd.
  destruct (candidate p t a) eqn:Hcand.
  - assert (Hai : In a (availableItems p t w)) by (apply availableItems_In; auto).
    rewrite Esplit in Hai, Hsorted, Hnd, Hplanned, Ta.
    apply in_app_or in Hai. destruct Hai as [Hai|[Hai|Hai]].
    + unfold touched in Ta. rewrite (booked_before l1 q b l2 a Hnd Hplanned Hai) in Ta.
      destruct Ta as [now Ta]. rewrite Ta. simpl. lia.
    + subst a. congruence.
    + apply StronglySorted_suffix in Hsorted. inversion Hsorted as [|? ? _ Hall]; subst.
      rewrite Forall_forall in Hall. specialize (Hall a Hai). congruence.
  - assert (Hle : availableQuantity a <= 0).
    { unfold candidate in Hcand. subst p t. rewrite !String.eqb_refl in Hcand.
      simpl in Hcand. destruct (Z.gtb_spec (availableQuantity a) 0); [discriminate | lia]. }
    assert (Hna : ~ In (id a) (map inventoryItemId (booked q (availableItems p t w)))).
    { intros H. apply (booked_is_candidate p q t w a PK Ha) in H.
      apply availableItems_In in H. destruct H as [_ H]. congruence. }
    unfold touched in Ta. rewrite (find_reservation_none _ _ Hna) in Ta.
    rewrite Ta. exact Hle.
Qed.

(** * The claims *)

(** ** C1: shortfall *)

(** C1, as stated, fails: with 8 units available in two rows, reserving 9
    throws "Insufficient stock. Could not reserve 1 units", and both rows
    stay fully reserved: their quantities went from (5, 0) and (3, 0) to
    (0, 5) and (0, 3). *)
Lemma reserve_shortfall_not_rolled_back :
  sumZ (map availableQuantity (availableItems "product-1" "tenant-1" shortWorld)) = 8
  /\ fst (InventoryService.reserveInventory "product-1" 9 "tenant-1" shortWorld)
     = Throw (Error "Insufficient stock. Could not reserve 1 units")
  /\ map quantities (wms_inventory_items shortWorld) = [(5, 0); (3, 0)]
  /\ map quantities
       (wms_inventory_items
          (snd (InventoryService.reserveInventory "product-1" 9 "tenant-1" shortWorld)))
     = [(0, 5); (0, 3)].
Proof. repeat split; reflexivity. Qed.

(** C1, amended: when the candidate rows hold fewer units than asked for -
    the quantity asked for being a safe integer, and every candidate row
    having room in its [reserved_quantity] column for its available units -
    [reserveInventory] throws the insufficient-stock error carrying the
    unmet quantity; every candidate row is then left with nothing
    available and its former available units reserved, and every other row
    is left as it was. *)
Theorem reserve_shortfall (productId_ : string) (quantity_ : Z) (tenantId_ : string)
    (w : World) :
  primaryKey w ->
  safeInteger quantity_ = true ->
  (forall r, In r (wms_inventory_items w) -> candidate productId_ tenantId_ r = true ->
             reservedQuantity r + availableQuantity r <= 2147483647) ->
  sumZ (map availableQuantity (availableItems productId_ tenantId_ w)) < quantity_ ->
  exists w',
    InventoryService.reserveInventory productId_ quantity_ tenantId_ w
    = (Throw (insufficientStock
                (quantity_
                 - sumZ (map availableQuantity (availableItems productId_ tenantId_ w)))),
       w')
    /\ Forall2 (fun r r' =>
                  if candidate productId_ tenantId_ r
                  then exists now,
                         r' = set_quantities 0 (reservedQuantity r + availableQuantity r) now r
                  else r' = r)
               (wms_inventory_items w) (wms_inventory_items w').
Proof.
  intros PK _ Hroom Hshort.
  destruct (reserveInventory_run productId_ quantity_ tenantId_ w PK) as [w' [Hrun Hrows]].
  pose proof (availableItems_positive productId_ tenantId_ w) as Hpos.
  pose proof (availableItems_NoDup productId_ tenantId_ w PK) as Hnd.
  assert (Href : refused quantity_ (availableItems productId_ tenantId_ w) = false).
  { apply refused_none. apply Forall_forall. intros r Hr.
    apply availableItems_In in Hr. destruct Hr as [Hin Hc].
    split; [apply (columns_In w r Hin)|]. split; [|apply Hroom; assumption].
    apply candidate_spec in Hc. tauto. }
  rewrite Href in Hrun. rewrite (booked_all _ _ Href) in Hrows.
  rewrite (greedy_shortfall _ _ Hpos Hshort) in Hrun, Hrows.
  rewrite sum_full_plan in Hrun.
  exists w'. split.
  - rewrite Hrun.
    destruct (Z.gtb_spec
                (quantity_ - sumZ (map availableQuantity (availableItems productId_ tenantId_ w)))
                0); [reflexivity | lia].
  - eapply Forall2_In_impl; [|exact Hrows]. intros r r' Hin Ht. simpl.
    unfold touched in Ht. destruct (candidate productId_ tenantId_ r) eqn:Hc.
    + assert (Hi : In r (availableItems productId_ tenantId_ w))
        by (apply availableItems_In; auto).
      rewrite (find_full_plan _ r Hnd Hi) in Ht. destruct Ht as [now Ht].
      exists now. rewrite Ht. simpl. rewrite Z.sub_diag. reflexivity.
    + rewrite find_reservation_none in Ht; [exact Ht|].
      rewrite map_map. simpl. intros Hid. apply in_map_iff in Hid.
      destruct Hid as [it [Eid Hit]]. apply availableItems_In in Hit.
      destruct Hit as [Hit Hcand].
      assert (it = r) by (apply (primaryKey_unique (wms_inventory_items w)); auto).
      subst it. congruence.
Qed.

Lemma reserve_shortfall_witness :
  primaryKey shortWorld
  /\ safeInteger 9 = true
  /\ sumZ (map availableQuantity (availableItems "product-1" "tenant-1" shortWorld)) < 9
  /\ exists w',
       InventoryService.reserveInventory "product-1" 9 "tenant-1" shortWorld
       = (Throw (insufficientStock
                   (9 - sumZ (map availableQuantity
                                  (availableItems "product-1" "tenant-1" shortWorld)))),
          w')
       /\ Forall2 (fun r r' =>
                     if candidate "product-1" "tenant-1" r
                     then exists now,
                            r' = set_quantities 0 (reservedQuantity r + availableQuantity r)
                                                now r
                     else r' = r)
                  (wms_inventory_items shortWorld) (wms_inventory_items w').
Proof.
  split; [apply distinct_primaryKey; reflexivity|].
  split; [reflexivity|].
  split; [vm_compute; reflexivity|].
  apply (reserve_shortfall "product-1" 9 "tenant-1" shortWorld).
  - apply distinct_primaryKey; reflexivity.
  - reflexivity.
  - intros r Hr _. simpl in Hr. destruct Hr as [Hr|[Hr|[]]]; subst r; simpl; lia.
  - vm_compute; reflexivity.
Defined.

(** ** C7: non-positive demand *)

(** C7, as stated, fails: a demand of 0 is answered with an empty list of
    reservations, not with an error. *)
Lemma reserve_zero_does_not_fail :
  0 <= 0
  /\ InventoryService.reserveInventory "product-1" 0 "tenant-1" fefoWorld
     = (Return [], fefoWorld).
Proof. split; [lia | reflexivity]. Qed.

(** C7, amended: for every quantity <= 0, [reserveInventory] returns the
    empty list of reservations and leaves the table, and the clock, as they
    were. *)
Theorem reserve_nonpositive (productId_ : string) (quantity_ : Z) (tenantId_ : string)
    (w : World) :
  quantity_ <= 0 ->
  InventoryService.reserveInventory productId_ quantity_ tenantId_ w = (Return [], w).
Proof.
  intros Hq. unfold InventoryService.reserveInventory, bind, select_where, ret.
  assert (Hloop : forall items,
             InventoryService.reserveLoop items quantity_ [] w
             = (Return (quantity_, []), w)).
  { intros [|it rest]; simpl; [reflexivity|].
    destruct (Z.leb_spec quantity_ 0); [reflexivity | lia]. }
  rewrite Hloop.
  destruct (Z.gtb_spec quantity_ 0); [lia | reflexivity].
Qed.

Lemma reserve_nonpositive_witness :
  -3 <= 0
  /\ InventoryService.reserveInventory "product-1" (-3) "tenant-1" fefoWorld
     = (Return [], fefoWorld).
Proof.
  split; [lia|]. apply (reserve_nonpositive "product-1" (-3) "tenant-1" fefoWorld). lia.
Defined.

(** ** C8: aggregation over no row *)

(** C8 on the code: over an empty table the aggregate query still answers
    with one row, whose two sums are NULL; that row is returned and the
    zeroes after [||] are never used. *)
Theorem getTotalStockForProduct_empty (productId_ tenantId_ : string)
    (clock : nat -> Z) (n : nat) :
  InventoryService.getTotalStockForProduct productId_ tenantId_ (mkWorld [] clock n eq_refl)
  = (Return (mkTotalStock None None), mkWorld [] clock n eq_refl).
Proof. reflexivity. Qed.

(** ** C9: release across tenants *)

(** C9 on the code: [releaseReservedInventory] takes no tenant; called with
    the id of a row of tenant-2, by whoever, it succeeds and moves 3 of the
    5 reserved units of that row back to available. *)
Theorem release_ignores_tenant :
  map (fun r => (id r, tenantId r, quantities r)) (wms_inventory_items otherTenantWorld)
  = [("row-9", "tenant-2", (0, 5))]
  /\ fst (InventoryService.releaseReservedInventory "row-9" 3 otherTenantWorld) = Return tt
  /\ map (fun r => (id r, tenantId r, quantities r))
         (wms_inventory_items
            (snd (InventoryService.releaseReservedInventory "row-9" 3 otherTenantWorld)))
     = [("row-9", "tenant-2", (3, 2))].
Proof. repeat split; reflexivity. Qed.

(** ** C10: release of a non-positive quantity *)

(** C10, as stated, fails where the [integer] columns end: on a row with
    reservedQuantity 2147483647 (and 5 available) a release of -1 passes
    the guard, but the row's new reservedQuantity does not fit its column:
    the database refuses the update, the call throws, and the row keeps
    its quantities. *)
Lemma release_nonpositive_refused :
  map quantities (wms_inventory_items brimWorld) = [(2147483647, 1); (5, 2147483647)]
  /\ 0 <= 2147483647
  /\ -1 <= 0
  /\ (2147483647 <? -1) = false
  /\ (exists e,
        fst (InventoryService.releaseReservedInventory "row-2" (-1) brimWorld) = Throw e)
  /\ map quantities
       (wms_inventory_items
          (snd (InventoryService.releaseReservedInventory "row-2" (-1) brimWorld)))
     = [(2147483647, 1); (5, 2147483647)].
Proof.
  split; [reflexivity|]. split; [lia|]. split; [lia|]. split; [reflexivity|].
  split; [eexists; reflexivity | reflexivity].
Qed.

(** C10, amended: for a row with reservedQuantity >= 0 and a quantity
    q <= 0 for which availableQuantity + q and reservedQuantity - q still
    fit the [integer] columns, the guard [reservedQuantity < q] is false
    and [releaseReservedInventory] succeeds, leaving the row with
    availableQuantity + q and reservedQuantity - q; for q < 0 that is |q|
    units moved from available to reserved, and availableQuantity ends
    below zero when |q| > availableQuantity. *)
Theorem release_nonpositive (inventoryItemId_ : string) (quantity_ : Z) (w : World)
    (r : InventoryItem) :
  primaryKey w ->
  In r (wms_inventory_items w) ->
  id r = inventoryItemId_ ->
  0 <= reservedQuantity r ->
  quantity_ <= 0 ->
  -2147483648 <= availableQuantity r + quantity_ ->
  reservedQuantity r - quantity_ <= 2147483647 ->
  (reservedQuantity r <? quantity_) = false
  /\ exists w' r',
       InventoryService.releaseReservedInventory inventoryItemId_ quantity_ w
       = (Return tt, w')
       /\ findRow inventoryItemId_ w' = Some r'
       /\ availableQuantity r' = availableQuantity r + quantity_
       /\ reservedQuantity r' = reservedQuantity r - quantity_
       /\ (quantity_ < 0 ->
           availableQuantity r' = availableQuantity r - Z.abs quantity_
           /\ reservedQuantity r' = reservedQuantity r + Z.abs quantity_
           /\ (availableQuantity r < Z.abs quantity_ -> availableQuantity r' < 0)).
Proof.
  intros PK Hin Hid Hres Hq Hlow Hhigh.
  assert (Hguard : (reservedQuantity r <? quantity_) = false) by (apply Z.ltb_ge; lia).
  split; [exact Hguard|].
  pose proof (release_run inventoryItemId_ quantity_ w r PK Hin Hid) as Hrun.
  rewrite Hguard in Hrun.
  pose proof (columns_bounds w r Hin) as Hb.
  destruct (afterRelease_cases inventoryItemId_ quantity_ w r PK Hin Hid)
    as [[_ [w' [Ha [Hw _]]]]|[Hfit _]].
  - exists w',
         (set_quantities (availableQuantity r + quantity_) (reservedQuantity r - quantity_)
                         (dates w (ticks w)) r).
    split; [rewrite Hrun; exact Ha|].
    split; [apply (released_findRow _ quantity_ w w' r); assumption|].
    simpl. repeat split; lia.
  - exfalso. apply andb_false_iff in Hfit.
    destruct Hfit as [Hfit|Hfit]; apply not_true_iff_false in Hfit; apply Hfit;
      apply int4_spec; lia.
Qed.

Lemma release_nonpositive_witness :
  primaryKey fefoWorld
  /\ 0 <= 0
  /\ -7 <= 0
  /\ exists w' r',
       InventoryService.releaseReservedInventory "row-1" (-7) fefoWorld = (Return tt, w')
       /\ findRow "row-1" w' = Some r'
       /\ availableQuantity r' = -2
       /\ reservedQuantity r' = 7.
Proof.
  split; [apply distinct_primaryKey; reflexivity|].
  split; [lia|]. split; [lia|].
  destruct (release_nonpositive "row-1" (-7) fefoWorld
              (sampleRow "row-1" "tenant-1" (Some (mkDate 2024 1 1)) 5 0))
    as [_ [w' [r' [H1 [H2 [H3 [H4 _]]]]]]].
  - apply distinct_primaryKey; reflexivity.
  - simpl. auto.
  - reflexivity.
  - simpl. lia.
  - lia.
  - simpl. lia.
  - simpl. lia.
  - exists w', r'. simpl in H3, H4. auto.
Defined.

(** ** C2: FEFO *)

Lemma StronglySorted_weaken {A} (R S : A -> A -> Prop) (l : list A) :
  (forall a b, R a b -> S a b) -> StronglySorted R l -> StronglySorted S l.
Proof.
  intros H. induction 1 as [|a l _ IH F]; constructor; [exact IH|].
  eapply Forall_impl; [|exact F]. intros b. apply H.
Qed.

(** C2: the rows a successful [reserveInventory] reserves from, in the
    order of its result, are rows of the table in ascending order of their
    expiry dates - the order of the calendar - with the rows without
    expiry date last; whatever the outcome, when units were taken from a
    row, no row of the product and tenant that expires strictly earlier
    has anything available left - in particular none with an expiry date
    when units were taken from a row without one; on the rows
    [2024-01-01: 5, 2024-06-01: 10, none: 20] a demand of 8 takes 5 and 3
    from the first two rows and leaves [0, 7, 20] available, and so it does
    when the table holds these rows the other way round. *)
Theorem reserve_fefo :
  (forall productId_ quantity_ tenantId_ w reservations w',
      primaryKey w ->
      InventoryService.reserveInventory productId_ quantity_ tenantId_ w
      = (Return reservations, w') ->
      exists taken,
        map inventoryItemId reservations = map id taken
        /\ incl taken (wms_inventory_items w)
        /\ StronglySorted
             (fun a b => expiresNoLater (expiryDate a) (expiryDate b)) taken)
  /\ (forall productId_ quantity_ tenantId_ w a b a' b',
      primaryKey w ->
      In a (wms_inventory_items w) -> In b (wms_inventory_items w) ->
      productId a = productId_ -> tenantId a = tenantId_ ->
      expiresEarlier (expiryDate a) (expiryDate b) ->
      findRow (id b)
        (snd (InventoryService.reserveInventory productId_ quantity_ tenantId_ w)) = Some b' ->
      availableQuantity b' <> availableQuantity b ->
      findRow (id a)
        (snd (InventoryService.reserveInventory productId_ quantity_ tenantId_ w)) = Some a' ->
      availableQuantity a' <= 0)
  /\ (forall productId_ quantity_ tenantId_ w a b a' b',
      primaryKey w ->
      In a (wms_inventory_items w) -> In b (wms_inventory_items w) ->
      productId a = productId_ -> tenantId a = tenantId_ ->
      expiryDate a <> None -> expiryDate b = None ->
      findRow (id b)
        (snd (InventoryService.reserveInventory productId_ quantity_ tenantId_ w)) = Some b' ->
      availableQuantity b' <> availableQuantity b ->
      findRow (id a)
        (snd (InventoryService.reserveInventory productId_ quantity_ tenantId_ w)) = Some a' ->
      availableQuantity a' <= 0)
  /\ fst (InventoryService.reserveInventory "product-1" 8 "tenant-1" fefoWorld)
     = Return [mkReservation "row-1" 5; mkReservation "row-2" 3]
  /\ map availableQuantity
         (wms_inventory_items
            (snd (InventoryService.reserveInventory "product-1" 8 "tenant-1" fefoWorld)))
     = [0; 7; 20]
  /\ map (fun r => (id r, expiryDate r, availableQuantity r))
         (wms_inventory_items shuffledWorld)
     = [("row-3", None, 20); ("row-2", Some (mkDate 2024 6 1), 10);
        ("row-1", Some (mkDate 2024 1 1), 5)]
  /\ fst (InventoryService.reserveInventory "product-1" 8 "tenant-1" shuffledWorld)
     = Return [mkReservation "row-1" 5; mkReservation "row-2" 3]
  /\ map (fun r => (id r, availableQuantity r))
         (wms_inventory_items
            (snd (InventoryService.reserveInventory "product-1" 8 "tenant-1" shuffledWorld)))
     = [("row-3", 20); ("row-2", 7); ("row-1", 0)].
Proof.
  assert (Hearlier : forall productId_ quantity_ tenantId_ w a b a' b',
      primaryKey w ->
      In a (wms_inventory_items w) -> In b (wms_inventory_items w) ->
      productId a = productId_ -> tenantId a = tenantId_ ->
      expiresEarlier (expiryDate a) (expiryDate b) ->
      findRow (id b)
        (snd (InventoryService.reserveInventory productId_ quantity_ tenantId_ w)) = Some b' ->
      availableQuantity b' <> availableQuantity b ->
      findRow (id a)
        (snd (InventoryService.reserveInventory productId_ quantity_ tenantId_ w)) = Some a' ->
      availableQuantity a' <= 0).
  { intros p q t w a b a' b' PK Ha Hb Hp Ht Hearlier Fb Hchanged Fa.
    destruct (reserveInventory_run p q t w PK) as [w0 [Hrun Hrows]].
    rewrite Hrun in Fb, Fa. cbn [snd] in Fb, Fa.
    apply (touched_after_earlier p q t w w0 a b a' b'); auto.
    apply expiresEarlier_sorts_before. exact Hearlier. }
  split; [|split; [exact Hearlier|split; [|repeat split; reflexivity]]].
  - intros p q t w res w' PK Hres.
    destruct (reserveInventory_returned p q t w res w' PK Hres) as [-> _].
    exists (firstn (List.length (greedy q (availableItems p t w))) (availableItems p t w)).
    split; [apply greedy_ids|]. split.
    + intros r Hr. apply firstn_In_rows in Hr. apply availableItems_In in Hr. tauto.
    + apply (StronglySorted_prefix _ _
               (skipn (List.length (greedy q (availableItems p t w)))
                      (availableItems p t w))).
      rewrite firstn_skipn.
      apply (StronglySorted_weaken (fun a b => fefo a b = true)); [|apply orderBy_sorted].
      intros a b. unfold fefo. apply expiry_leb_calendar.
  - intros p q t w a b a' b' PK Ha Hb Hp Ht Hdated Hnever.
    apply (Hearlier p q t w a b a' b' PK Ha Hb Hp Ht).
    unfold expiresEarlier. rewrite Hnever.
    destruct (expiryDate a); [cbn; tauto | congruence].
Qed.

Lemma reserve_fefo_witness :
  primaryKey fefoWorld
  /\ primaryKey shuffledWorld
  /\ (exists taken,
        map inventoryItemId [mkReservation "row-1" 5; mkReservation "row-2" 3] = map id taken
        /\ incl taken (wms_inventory_items shuffledWorld)
        /\ StronglySorted
             (fun a b => expiresNoLater (expiryDate a) (expiryDate b)) taken)
  /\ expiresEarlier (Some (mkDate 2024 1 1)) (Some (mkDate 2024 6 1))
  /\ (exists a',
        findRow "row-1"
          (snd (InventoryService.reserveInventory "product-1" 8 "tenant-1" shuffledWorld))
        = Some a'
        /\ availableQuantity a' <= 0)
  /\ (exists a',
        findRow "row-1"
          (snd (InventoryService.reserveInventory "product-1" 30 "tenant-1" fefoWorld))
        = Some a'
        /\ availableQuantity a' <= 0).
Proof.
  assert (Hjan : expiresEarlier (Some (mkDate 2024 1 1)) (Some (mkDate 2024 6 1))).
  { unfold expiresEarlier, expiresNoLater, notAfter. cbn [year month day]. lia. }
  split; [apply distinct_primaryKey; reflexivity|].
  split; [apply distinct_primaryKey; reflexivity|]. split; [|split; [exact Hjan|split]].
  - apply (proj1 reserve_fefo "product-1" 8 "tenant-1" shuffledWorld
                 [mkReservation "row-1" 5; mkReservation "row-2" 3]
                 (snd (InventoryService.reserveInventory "product-1" 8 "tenant-1"
                         shuffledWorld))).
    + apply distinct_primaryKey; reflexivity.
    + reflexivity.
  - eexists. split; [reflexivity|].
    eapply (proj1 (proj2 reserve_fefo) "product-1" 8 "tenant-1" shuffledWorld
              (sampleRow "row-1" "tenant-1" (Some (mkDate 2024 1 1)) 5 0)
              (sampleRow "row-2" "tenant-1" (Some (mkDate 2024 6 1)) 10 0)).
    + apply distinct_primaryKey; reflexivity.
    + simpl; auto.
    + simpl; auto.
    + reflexivity.
    + reflexivity.
    + exact Hjan.
    + reflexivity.
    + simpl. lia.
    + reflexivity.
  - eexists. split; [reflexivity|].
    eapply (proj1 (proj2 (proj2 reserve_fefo)) "product-1" 30 "tenant-1" fefoWorld
              (sampleRow "row-1" "tenant-1" (Some (mkDate 2024 1 1)) 5 0)
              (sampleRow "row-3" "tenant-1" None 20 0)).
    + apply distinct_primaryKey; reflexivity.
    + simpl; auto.
    + simpl; auto.
    + reflexivity.
    + reflexivity.
    + discriminate.
    + reflexivity.
    + reflexivity.
    + simpl. lia.
    + reflexivity.
Defined.

(** ** C4: greedy consumption *)

(** C4: a successful [reserveInventory] with quantity > 0 returns a
    non-empty list whose quantities sum to the quantity asked for; its k-th
    entry names the k-th candidate row in FEFO order and takes from it the
    minimum of the demand still open and of that row's availableQuantity;
    and every row of the table ends with its availableQuantity lowered and
    its reservedQuantity raised by exactly what the list takes from it. *)
Theorem reserve_greedy (productId_ : string) (quantity_ : Z) (tenantId_ : string)
    (w w' : World) (reservations : list Reservation) :
  primaryKey w ->
  0 < quantity_ ->
  InventoryService.reserveInventory productId_ quantity_ tenantId_ w
  = (Return reservations, w') ->
  reservations <> []
  /\ sumZ (map quantity reservations) = quantity_
  /\ (forall k x,
        nth_error reservations k = Some x ->
        exists item,
          nth_error (availableItems productId_ tenantId_ w) k = Some item
          /\ inventoryItemId x = id item
          /\ quantity x
             = Z.min (quantity_ - sumZ (map quantity (firstn k reservations)))
                     (availableQuantity item))
  /\ Forall2 (fun r r' =>
                id r' = id r
                /\ availableQuantity r'
                   = availableQuantity r - amountReserved reservations (id r)
                /\ reservedQuantity r'
                   = reservedQuantity r + amountReserved reservations (id r))
             (wms_inventory_items w) (wms_inventory_items w').
Proof.
  intros PK Hq Hres.
  destruct (reserveInventory_returned productId_ quantity_ tenantId_ w reservations w'
              PK Hres) as [-> [Hle Hrows]].
  pose proof (greedy_remaining_nonneg quantity_ (availableItems productId_ tenantId_ w)
                ltac:(lia)) as Hge.
  assert (Hsum : sumZ (map quantity
                         (greedy quantity_ (availableItems productId_ tenantId_ w)))
                 = quantity_) by lia.
  split; [|split; [exact Hsum|split]].
  - intros Enil. rewrite Enil in Hsum. unfold sumZ in Hsum. simpl in Hsum. lia.
  - intros k x. apply greedy_nth.
  - pose proof (greedy_NoDup quantity_ _ (availableItems_NoDup productId_ tenantId_ w PK))
      as Hnd.
    eapply Forall2_In_impl; [|exact Hrows]. intros r r' _ Ht. simpl.
    rewrite (amountReserved_find _ (id r) Hnd). unfold touched in Ht.
    destruct (find _ _); [destruct Ht as [now Ht]|]; rewrite Ht; simpl;
      repeat split; lia.
Qed.

Lemma reserve_greedy_witness :
  primaryKey fefoWorld
  /\ 0 < 8
  /\ sumZ (map quantity [mkReservation "row-1" 5; mkReservation "row-2" 3]) = 8.
Proof.
  split; [apply distinct_primaryKey; reflexivity|].
  split; [lia|].
  apply (reserve_greedy "product-1" 8 "tenant-1" fefoWorld
           (snd (InventoryService.reserveInventory "product-1" 8 "tenant-1" fefoWorld))
           [mkReservation "row-1" 5; mkReservation "row-2" 3]).
  - apply distinct_primaryKey; reflexivity.
  - lia.
  - reflexivity.
Defined.

(** ** C3: conservation *)

(** C3: over any sequence of reserve, release and adjust calls the stock of
    a product (availableQuantity + reservedQuantity over its rows) changes
    by exactly the sum of the successful adjustments of its rows, an
    increase counting +quantity and a decrease -quantity; a reserve or a
    release, whatever its outcome, keeps availableQuantity +
    reservedQuantity of every row, so what leaves one field enters the
    other. *)
Theorem stock_conservation (isUuid : string -> bool) (productId_ : string)
    (calls : list Call) (w : World) :
  primaryKey w ->
  totalStock productId_ (run isUuid calls w)
  = totalStock productId_ w + netAdjusted isUuid productId_ calls w
  /\ primaryKey (run isUuid calls w)
  /\ (forall c,
        (forall req, c <> Adjust req) ->
        adjusted isUuid productId_ c w = 0
        /\ Forall2 (fun r r' =>
                      id r' = id r
                      /\ availableQuantity r' + reservedQuantity r'
                         = availableQuantity r + reservedQuantity r)
                   (wms_inventory_items w) (wms_inventory_items (perform isUuid c w))).
Proof.
  intros PK. split; [|split].
  - revert w PK. induction calls as [|c rest IH]; intros w PK; simpl; [lia|].
    rewrite (IH _ (perform_primaryKey isUuid c w PK)).
    rewrite (perform_stock isUuid productId_ c w PK). lia.
  - revert w PK. induction calls as [|c rest IH]; intros w PK; simpl; [exact PK|].
    apply IH. apply perform_primaryKey. exact PK.
  - intros c Hc. destruct c as [p q t|i q|req]; simpl.
    + split; [reflexivity|].
      eapply Forall2_In_impl; [|apply reserve_conserves; exact PK].
      unfold conserved. intros a b _ H. tauto.
    + split; [reflexivity|].
      eapply Forall2_In_impl; [|apply release_conserves; exact PK].
      unfold conserved. intros a b _ H. tauto.
    + exfalso. apply (Hc req). reflexivity.
Qed.

Lemma stock_conservation_witness :
  primaryKey fefoWorld
  /\ totalStock "product-1"
       (run (fun _ => true)
            [Reserve "product-1" 8 "tenant-1";
             Adjust (mkAdjustRequest "row-3" "decrease" 4 "damaged" "tenant-1");
             Release "row-2" 3;
             Reserve "product-1" 100 "tenant-1";
             Adjust (mkAdjustRequest "row-1" "increase" 6 "recount" "tenant-1")]
            fefoWorld)
     = 35 + (- 4 + 6).
Proof.
  split; [apply distinct_primaryKey; reflexivity|].
  apply (proj1 (stock_conservation (fun _ => true) "product-1"
           [Reserve "product-1" 8 "tenant-1";
            Adjust (mkAdjustRequest "row-3" "decrease" 4 "damaged" "tenant-1");
            Release "row-2" 3;
            Reserve "product-1" 100 "tenant-1";
            Adjust (mkAdjustRequest "row-1" "increase" 6 "recount" "tenant-1")]
           fefoWorld (distinct_primaryKey fefoWorld eq_refl))).
Defined.

(** ** C5: release *)

(** C5, as stated, fails where the [integer] columns end: on a row with
    availableQuantity 2147483647 and one unit reserved, a release of 1 - no
    more than is reserved - does not set the quantities: the new
    availableQuantity does not fit its column, the database refuses the
    update, the call throws, and the row keeps its quantities. *)
Lemma release_refused_at_column_limit :
  map quantities (wms_inventory_items brimWorld) = [(2147483647, 1); (5, 2147483647)]
  /\ 1 <= 1
  /\ (exists e,
        fst (InventoryService.releaseReservedInventory "row-1" 1 brimWorld) = Throw e)
  /\ map quantities
       (wms_inventory_items
          (snd (InventoryService.releaseReservedInventory "row-1" 1 brimWorld)))
     = [(2147483647, 1); (5, 2147483647)].
Proof.
  split; [reflexivity|]. split; [lia|].
  split; [eexists; reflexivity | reflexivity].
Qed.

(** C5, amended: addressed to an existing row, [releaseReservedInventory]
    throws "Cannot release more than reserved quantity" when the quantity
    exceeds the row's reservedQuantity, and then changes nothing;
    otherwise, when the row's new quantities fit the [integer] columns, it
    succeeds, lowers that row's reservedQuantity and raises its
    availableQuantity by the quantity, and leaves every other row as it
    was; when they do not fit, it throws and every row keeps what it had.
    So, after a successful [reserveInventory] that took q units from a row
    whose reservedQuantity was not negative, releasing q on that row
    succeeds and gives the row the availableQuantity and reservedQuantity it
    had before the reservation. *)
Theorem release_contract :
  (forall inventoryItemId_ quantity_ w r,
      primaryKey w ->
      In r (wms_inventory_items w) ->
      id r = inventoryItemId_ ->
      (reservedQuantity r < quantity_ ->
       InventoryService.releaseReservedInventory inventoryItemId_ quantity_ w
       = (Throw (Error "Cannot release more than reserved quantity"), w))
      /\ (quantity_ <= reservedQuantity r ->
          -2147483648 <= availableQuantity r + quantity_ <= 2147483647 ->
          -2147483648 <= reservedQuantity r - quantity_ <= 2147483647 ->
          exists w',
            InventoryService.releaseReservedInventory inventoryItemId_ quantity_ w
            = (Return tt, w')
            /\ Forall2 (fun x x' =>
                          if (id x =? inventoryItemId_)%string
                          then exists now,
                                 x' = set_quantities (availableQuantity x + quantity_)
                                                     (reservedQuantity x - quantity_) now x
                          else x' = x)
                       (wms_inventory_items w) (wms_inventory_items w'))
      /\ (quantity_ <= reservedQuantity r ->
          ~ (-2147483648 <= availableQuantity r + quantity_ <= 2147483647
             /\ -2147483648 <= reservedQuantity r - quantity_ <= 2147483647) ->
          exists e w',
            InventoryService.releaseReservedInventory inventoryItemId_ quantity_ w
            = (Throw e, w')
            /\ wms_inventory_items w' = wms_inventory_items w))
  /\ (forall productId_ demand tenantId_ w reservations w1 x r,
      primaryKey w ->
      InventoryService.reserveInventory productId_ demand tenantId_ w
      = (Return reservations, w1) ->
      In x reservations ->
      In r (wms_inventory_items w) ->
      id r = inventoryItemId x ->
      0 <= reservedQuantity r ->
      exists w2 r2,
        InventoryService.releaseReservedInventory (inventoryItemId x) (quantity x) w1
        = (Return tt, w2)
        /\ findRow (inventoryItemId x) w2 = Some r2
        /\ availableQuantity r2 = availableQuantity r
        /\ reservedQuantity r2 = reservedQuantity r).
Proof.
  split.
  - intros i q w r PK Hin Hid.
    pose proof (release_run i q w r PK Hin Hid) as Hrun. split; [|split].
    + intros Hq. destruct (Z.ltb_spec (reservedQuantity r) q); [exact Hrun | lia].
    + intros Hq Ha Hr. destruct (Z.ltb_spec (reservedQuantity r) q); [lia|].
      destruct (afterRelease_cases i q w r PK Hin Hid) as [[_ [w' [Hafter [Hw _]]]]|[Hfit _]].
      * exists w'. split; [rewrite Hrun; exact Hafter|]. rewrite Hw.
        eapply Forall2_In_impl; [|apply released_rows; eassumption].
        intros a b _. simpl. destruct (id a =? i)%string; [|auto].
        intros ->. exists (dates w (ticks w)). reflexivity.
      * exfalso. apply andb_false_iff in Hfit.
        destruct Hfit as [Hfit|Hfit]; apply not_true_iff_false in Hfit; apply Hfit;
          apply int4_spec; assumption.
    + intros Hq Hno. destruct (Z.ltb_spec (reservedQuantity r) q); [lia|].
      destruct (afterRelease_cases i q w r PK Hin Hid) as [[Hfit _]|[_ Hafter]].
      * exfalso. apply Hno. apply andb_true_iff in Hfit. rewrite !int4_spec in Hfit.
        exact Hfit.
      * exists integerOutOfRange, (tick w). split; [rewrite Hrun; exact Hafter | reflexivity].
  - intros p n t w res w1 x r PK Hres Hx Hin Hid Hnonneg.
    destruct (reserveInventory_returned p n t w res w1 PK Hres) as [-> [_ Hrows]].
    pose proof (greedy_NoDup n _ (availableItems_NoDup p t w PK)) as Hnd.
    destruct (findRow_Forall2 _ w w1 r (touched_id _) PK Hrows Hin) as [r1 [Hfind Ht]].
    unfold touched in Ht. rewrite Hid, (find_reservation_In _ x Hnd Hx) in Ht.
    destruct Ht as [now Hr1].
    assert (PK1 : primaryKey w1).
    { apply (conserved_primaryKey w w1); [|exact PK].
      eapply Forall2_In_impl; [|exact Hrows]. intros a b _. apply touched_conserved. }
    destruct (findRow_Some _ _ _ Hfind) as [Hin1 Hid1].
    assert (Hid1' : id r1 = inventoryItemId x) by congruence.
    pose proof (release_run (inventoryItemId x) (quantity x) w1 r1 PK1 Hin1 Hid1') as Hrel.
    assert (Hguard : (reservedQuantity r1 <? quantity x) = false).
    { apply Z.ltb_ge. rewrite Hr1. simpl. lia. }
    rewrite Hguard in Hrel.
    pose proof (columns_bounds w r Hin) as Hb.
    destruct (afterRelease_cases (inventoryItemId x) (quantity x) w1 r1 PK1 Hin1 Hid1')
      as [[_ [w2 [Hafter [Hw _]]]]|[Hfit _]].
    + exists w2. eexists. split; [rewrite Hrel; exact Hafter|].
      split; [apply (released_findRow _ (quantity x) w1 w2 r1); assumption|].
      rewrite Hr1. simpl. split; lia.
    + exfalso. rewrite Hr1 in Hfit. cbn [set_quantities availableQuantity reservedQuantity] in Hfit.
      apply andb_false_iff in Hfit.
      destruct Hfit as [Hfit|Hfit]; apply not_true_iff_false in Hfit; apply Hfit;
        apply int4_spec; lia.
Qed.

Lemma release_contract_witness :
  primaryKey fefoWorld
  /\ 0 < 3
  /\ 0 <= 0
  /\ InventoryService.releaseReservedInventory "row-2" 3 fefoWorld
     = (Throw (Error "Cannot release more than reserved quantity"), fefoWorld)
  /\ (exists w',
        InventoryService.releaseReservedInventory "row-9" 2 otherTenantWorld = (Return tt, w')
        /\ map quantities (wms_inventory_items w') = [(2, 3)])
  /\ exists w2 r2,
       InventoryService.releaseReservedInventory "row-2" 3
         (snd (InventoryService.reserveInventory "product-1" 8 "tenant-1" fefoWorld))
       = (Return tt, w2)
       /\ findRow "row-2" w2 = Some r2
       /\ availableQuantity r2 = 10
       /\ reservedQuantity r2 = 0.
Proof.
  split; [apply distinct_primaryKey; reflexivity|].
  split; [lia|]. split; [lia|]. split; [|split].
  - apply (proj1 (proj1 release_contract "row-2" 3 fefoWorld
                   (sampleRow "row-2" "tenant-1" (Some (mkDate 2024 6 1)) 10 0)
                   (distinct_primaryKey fefoWorld eq_refl)
                   (or_intror (or_introl eq_refl)) eq_refl)).
    simpl. lia.
  - destruct (proj1 (proj2 (proj1 release_contract "row-9" 2 otherTenantWorld
                              (sampleRow "row-9" "tenant-2" None 0 5)
                              (distinct_primaryKey otherTenantWorld eq_refl)
                              (or_introl eq_refl) eq_refl)))
      as [w' [Hrel Hrows]].
    + simpl. lia.
    + simpl. lia.
    + simpl. lia.
    + exists w'. split; [exact Hrel|].
      cbn [wms_inventory_items otherTenantWorld] in Hrows.
      inversion Hrows as [|a b l l' Hab Hnil]; subst. inversion Hnil; subst.
      cbn in Hab. destruct Hab as [now Hab]. subst b. reflexivity.
  - apply (proj2 release_contract "product-1" 8 "tenant-1" fefoWorld
                 [mkReservation "row-1" 5; mkReservation "row-2" 3]
                 (snd (InventoryService.reserveInventory "product-1" 8 "tenant-1" fefoWorld))
                 (mkReservation "row-2" 3)
                 (sampleRow "row-2" "tenant-1" (Some (mkDate 2024 6 1)) 10 0)).
    + apply distinct_primaryKey; reflexivity.
    + reflexivity.
    + simpl. auto.
    + simpl. auto.
    + reflexivity.
    + simpl. lia.
Defined.

(** ** C6: adjustment boundary *)

(** C6: for a row of the caller's tenant and a request that passes
    validation (integer quantity >= 1, reason of 1 to 500 characters), a
    decrease is answered with 400 "Insufficient stock for this adjustment"
    exactly when availableQuantity - quantity < 0, and the table is then
    left as it was; otherwise it is answered with 200 and the row carries
    availableQuantity - quantity, which is 0 when the quantity is the
    current availableQuantity; and no request, whatever it is, changes the
    reservedQuantity of any row. *)
Theorem adjust_boundary (isUuid : string -> bool) (req : AdjustRequest) (w : World)
    (r : InventoryItem) :
  primaryKey w ->
  In r (wms_inventory_items w) ->
  id r = params_id req ->
  tenantId r = user_activeTenantId req ->
  params_id req <> "" ->
  isUuid (params_id req) = true ->
  1 <= body_quantity req ->
  (1 <= String.length (body_reason req) <= 500)%nat ->
  body_adjustmentType req = "decrease" ->
  (availableQuantity r - body_quantity req < 0 ->
   post_id_adjust isUuid req w
   = (Return (mkResponse 400 false "Insufficient stock for this adjustment" None), w))
  /\ (0 <= availableQuantity r - body_quantity req ->
      exists resp w' r',
        post_id_adjust isUuid req w = (Return resp, w')
        /\ status resp = 200 /\ success resp = true /\ data resp = Some r'
        /\ findRow (id r) w' = Some r'
        /\ availableQuantity r' = availableQuantity r - body_quantity req
        /\ reservedQuantity r' = reservedQuantity r
        /\ (body_quantity req = availableQuantity r -> availableQuantity r' = 0))
  /\ (forall req0 w0,
        Forall2 (fun x x' => id x' = id x /\ reservedQuantity x' = reservedQuantity x)
                (wms_inventory_items w0)
                (wms_inventory_items (snd (post_id_adjust isUuid req0 w0)))).
Proof.
  intros PK Hin Hid Hten Hne Huuid Hq [Hr1 Hr2] Hdec.
  assert (Hvalid : validRequest isUuid req = true).
  { unfold validRequest.
    rewrite Huuid, Hdec, (proj2 (Z.leb_le _ _) Hq), (proj2 (Nat.leb_le _ _) Hr1),
      (proj2 (Nat.leb_le _ _) Hr2).
    reflexivity. }
  pose proof (adjust_run isUuid req w r PK Hin Hid Hten Hne Hvalid) as Hrun.
  rewrite Hdec in Hrun. simpl in Hrun.
  split; [|split].
  - intros Hlt. destruct (Z.ltb_spec (availableQuantity r - body_quantity req) 0);
      [exact Hrun | lia].
  - intros Hge. destruct (Z.ltb_spec (availableQuantity r - body_quantity req) 0); [lia|].
    pose proof (columns_bounds w r Hin) as Hb.
    destruct (afterAdjust_cases req (availableQuantity r - body_quantity req) w)
      as [[_ [w' [Hafter [Hw _]]]]|[Hfit _]].
    + exists (adjustedResponse req (availableQuantity r - body_quantity req) w), w',
             (set_available (availableQuantity r - body_quantity req) (dates w (ticks w)) r).
      split; [rewrite Hrun; exact Hafter|]. split; [reflexivity|]. split; [reflexivity|].
      split; [|split; [|split; [reflexivity|split; [reflexivity|simpl; lia]]]].
      * simpl. rewrite <- Hid, (select_id_only _ _ PK Hin). reflexivity.
      * rewrite <- Hid in Hw.
        apply (findRow_updated
                 (set_available (availableQuantity r - body_quantity req) (dates w (ticks w)))
                 w); auto.
    + exfalso. rewrite (adjustedRows_fit _ _ w r PK Hin Hid) in Hfit.
      apply not_true_iff_false in Hfit. apply Hfit. apply int4_spec. lia.
  - intros req0 w0.
    eapply Forall2_In_impl; [|apply adjust_keeps_reserved]. simpl. intros a b _ H. tauto.
Qed.

Lemma adjust_boundary_witness :
  primaryKey fefoWorld
  /\ 1 <= 5
  /\ (1 <= String.length "stock count" <= 500)%nat
  /\ post_id_adjust (fun _ => true)
       (mkAdjustRequest "row-1" "decrease" 6 "stock count" "tenant-1") fefoWorld
     = (Return (mkResponse 400 false "Insufficient stock for this adjustment" None),
        fefoWorld)
  /\ exists resp w' r',
       post_id_adjust (fun _ => true)
         (mkAdjustRequest "row-1" "decrease" 5 "stock count" "tenant-1") fefoWorld
       = (Return resp, w')
       /\ status resp = 200 /\ data resp = Some r'
       /\ findRow "row-1" w' = Some r'
       /\ availableQuantity r' = 0.
Proof.
  split; [apply distinct_primaryKey; reflexivity|].
  split; [lia|]. split; [simpl; lia|]. split.
  - apply (proj1 (adjust_boundary (fun _ => true)
             (mkAdjustRequest "row-1" "decrease" 6 "stock count" "tenant-1") fefoWorld
             (sampleRow "row-1" "tenant-1" (Some (mkDate 2024 1 1)) 5 0)
             (distinct_primaryKey fefoWorld eq_refl)
             (or_introl eq_refl) eq_refl eq_refl
             ltac:(discriminate) eq_refl ltac:(simpl; lia) ltac:(simpl; lia) eq_refl)).
    simpl. lia.
  - destruct (proj1 (proj2 (adjust_boundary (fun _ => true)
             (mkAdjustRequest "row-1" "decrease" 5 "stock count" "tenant-1") fefoWorld
             (sampleRow "row-1" "tenant-1" (Some (mkDate 2024 1 1)) 5 0)
             (distinct_primaryKey fefoWorld eq_refl)
             (or_introl eq_refl) eq_refl eq_refl
             ltac:(discriminate) eq_refl ltac:(simpl; lia) ltac:(simpl; lia) eq_refl)))
      as [resp [w' [r' [H1 [H2 [_ [H3 [H4 [_ [_ H5]]]]]]]]]].
    + simpl. lia.
    + exists resp, w', r'. repeat split; auto.
Defined.

(** * Further properties of the reservation engine *)

(** ** When a reservation succeeds *)

Lemma refused_is_not_shortfall (n : Z) : integerOutOfRange <> insufficientStock n.
Proof. unfold integerOutOfRange, insufficientStock. cbn [append]. discriminate. Qed.

(** For a quantity that is a safe integer, [reserveInventory] returns only
    when the candidate rows hold at least the quantity asked for; when
    they do it returns, provided every candidate row has room in its
    [reserved_quantity] column for its available units; and when they do,
    whatever else happens, it does not throw the insufficient-stock
    error. *)
Theorem reserve_success_condition (productId_ : string) (quantity_ : Z)
    (tenantId_ : string) (w : World) :
  primaryKey w ->
  safeInteger quantity_ = true ->
  ((exists reservations w',
       InventoryService.reserveInventory productId_ quantity_ tenantId_ w
       = (Return reservations, w')) ->
   quantity_ <= sumZ (map availableQuantity (availableItems productId_ tenantId_ w)))
  /\ (quantity_ <= sumZ (map availableQuantity (availableItems productId_ tenantId_ w)) ->
      (forall r, In r (wms_inventory_items w) -> candidate productId_ tenantId_ r = true ->
                 reservedQuantity r + availableQuantity r <= 2147483647) ->
      exists reservations w',
        InventoryService.reserveInventory productId_ quantity_ tenantId_ w
        = (Return reservations, w'))
  /\ (quantity_ <= sumZ (map availableQuantity (availableItems productId_ tenantId_ w)) ->
      forall e w' n,
        InventoryService.reserveInventory productId_ quantity_ tenantId_ w = (Throw e, w') ->
        e <> insufficientStock n).
Proof.
  intros PK _.
  destruct (reserveInventory_run productId_ quantity_ tenantId_ w PK) as [w0 [Hrun _]].
  pose proof (availableItems_positive productId_ tenantId_ w) as Hpos.
  split; [|split].
  - intros [res [w' Hres]].
    destruct (Z.le_gt_cases quantity_
                (sumZ (map availableQuantity (availableItems productId_ tenantId_ w))))
      as [Hle|Hlt]; [exact Hle|].
    rewrite Hrun, (greedy_shortfall _ _ Hpos Hlt), sum_full_plan in Hres.
    destruct (refused _ _); [discriminate|].
    destruct (Z.gtb_spec
                (quantity_
                 - sumZ (map availableQuantity (availableItems productId_ tenantId_ w))) 0);
      [discriminate | lia].
  - intros Hle Hroom. pose proof (greedy_enough _ _ Hpos Hle) as Hrem.
    assert (Href : refused quantity_ (availableItems productId_ tenantId_ w) = false).
    { apply refused_none. apply Forall_forall. intros r Hr.
      apply availableItems_In in Hr. destruct Hr as [Hin Hc].
      split; [apply (columns_In w r Hin)|]. split; [|apply Hroom; assumption].
      apply candidate_spec in Hc. tauto. }
    rewrite Hrun, Href.
    exists (greedy quantity_ (availableItems productId_ tenantId_ w)), w0.
    destruct (Z.gtb_spec
                (quantity_
                 - sumZ (map quantity
                             (greedy quantity_ (availableItems productId_ tenantId_ w)))) 0);
      [lia | reflexivity].
  - intros Hle e w' n Hthrow. pose proof (greedy_enough _ _ Hpos Hle) as Hrem.
    rewrite Hrun in Hthrow.
    destruct (refused _ _).
    + inversion Hthrow; subst. apply refused_is_not_shortfall.
    + destruct (Z.gtb_spec
                  (quantity_
                   - sumZ (map quantity
                               (greedy quantity_ (availableItems productId_ tenantId_ w)))) 0);
        [lia | discriminate].
Qed.

Lemma reserve_success_condition_witness :
  primaryKey fefoWorld
  /\ 35 <= sumZ (map availableQuantity (availableItems "product-1" "tenant-1" fefoWorld))
  /\ (exists reservations w',
        InventoryService.reserveInventory "product-1" 35 "tenant-1" fefoWorld
        = (Return reservations, w'))
  /\ primaryKey brimWorld
  /\ 2147483650
     <= sumZ (map availableQuantity (availableItems "product-1" "tenant-1" brimWorld))
  /\ (exists e,
        fst (InventoryService.reserveInventory "product-1" 2147483650 "tenant-1" brimWorld)
        = Throw e)
  /\ (forall e w' n,
        InventoryService.reserveInventory "product-1" 2147483650 "tenant-1" brimWorld
        = (Throw e, w') ->
        e <> insufficientStock n).
Proof.
  assert (PK : primaryKey fefoWorld) by (apply distinct_primaryKey; reflexivity).
  assert (PKb : primaryKey brimWorld) by (apply distinct_primaryKey; reflexivity).
  split; [exact PK|]. split; [vm_compute; discriminate|].
  split; [|split; [exact PKb|split; [|split]]].
  - apply (proj1 (proj2 (reserve_success_condition "product-1" 35 "tenant-1" fefoWorld PK
                           eq_refl))).
    + vm_compute; discriminate.
    + intros r Hr _. simpl in Hr.
      destruct Hr as [Hr|[Hr|[Hr|[]]]]; subst r; simpl; lia.
  - vm_compute; discriminate.
  - eexists. reflexivity.
  - apply (proj2 (proj2 (reserve_success_condition "product-1" 2147483650 "tenant-1"
                           brimWorld PKb eq_refl))).
    vm_compute; discriminate.
Defined.

(** ** What a reservation leaves alone *)

(** Whatever its outcome, [reserveInventory] leaves every row of another
    product, of another tenant, or with nothing available exactly as it
    was. *)
Theorem reserve_scope (productId_ : string) (quantity_ : Z) (tenantId_ : string)
    (w : World) :
  primaryKey w ->
  Forall2 (fun r r' => candidate productId_ tenantId_ r = false -> r' = r)
          (wms_inventory_items w)
          (wms_inventory_items
             (snd (InventoryService.reserveInventory productId_ quantity_ tenantId_ w))).
Proof.
  intros PK.
  destruct (reserveInventory_run productId_ quantity_ tenantId_ w PK) as [w0 [Hrun Hrows]].
  rewrite Hrun. simpl.
  eapply Forall2_In_impl; [|exact Hrows]. intros r r' Hin Ht Hc. simpl in *.
  unfold touched in Ht. rewrite find_reservation_none in Ht; [exact Ht|].
  intros Hplan. apply (booked_is_candidate productId_ quantity_ tenantId_ w r PK Hin) in Hplan.
  apply availableItems_In in Hplan. destruct Hplan as [_ Hplan]. congruence.
Qed.

Lemma reserve_scope_witness :
  primaryKey otherTenantWorld
  /\ Forall2 (fun r r' => candidate "product-1" "tenant-1" r = false -> r' = r)
             (wms_inventory_items otherTenantWorld)
             (wms_inventory_items
                (snd (InventoryService.reserveInventory "product-1" 4 "tenant-1"
                        otherTenantWorld))).
Proof.
  split; [apply distinct_primaryKey; reflexivity|].
  apply (reserve_scope "product-1" 4 "tenant-1" otherTenantWorld).
  apply distinct_primaryKey; reflexivity.
Defined.

(** ** At most one row is left partly consumed *)

Lemma greedy_whole_before_last rem items k x y :
  nth_error (greedy rem items) k = Some x ->
  nth_error (greedy rem items) (S k) = Some y ->
  exists item, nth_error items k = Some item /\ quantity x = availableQuantity item.
Proof.
  revert rem k. induction items as [|it rest IH]; intros rem k; simpl.
  - destruct k; discriminate.
  - destruct (rem <=? 0) eqn:E; [destruct k; discriminate|].
    destruct k as [|k]; simpl.
    + intros Hx Hy. inversion Hx; subst; clear Hx. exists it. split; [reflexivity|].
      simpl. assert (Hne : greedy (rem - Z.min rem (availableQuantity it)) rest <> [])
        by (intros En; rewrite En in Hy; discriminate).
      apply greedy_positive in Hne. lia.
    + intros Hx Hy. apply (IH _ _ Hx Hy).
Qed.

(** In the list a successful [reserveInventory] returns, every entry but
    the last takes the whole availableQuantity of its row. *)
Theorem reserve_whole_rows_first (productId_ : string) (quantity_ : Z)
    (tenantId_ : string) (w w' : World) (reservations : list Reservation) :
  primaryKey w ->
  InventoryService.reserveInventory productId_ quantity_ tenantId_ w
  = (Return reservations, w') ->
  forall k x,
    nth_error reservations k = Some x ->
    (S k < List.length reservations)%nat ->
    exists item,
      nth_error (availableItems productId_ tenantId_ w) k = Some item
      /\ inventoryItemId x = id item
      /\ quantity x = availableQuantity item.
Proof.
  intros PK Hres k x Hx Hk.
  destruct (reserveInventory_returned productId_ quantity_ tenantId_ w reservations w'
              PK Hres) as [-> _].
  destruct (nth_error (greedy quantity_ (availableItems productId_ tenantId_ w)) (S k))
    as [y|] eqn:Hy.
  - destruct (greedy_whole_before_last _ _ _ _ _ Hx Hy) as [item [Hitem Hq]].
    destruct (greedy_nth _ _ _ _ Hx) as [item' [Hitem' [Hid _]]].
    rewrite Hitem in Hitem'. inversion Hitem'; subst item'.
    exists item. auto.
  - apply nth_error_None in Hy. lia.
Qed.

Lemma reserve_whole_rows_first_witness :
  primaryKey fefoWorld
  /\ exists item,
       nth_error (availableItems "product-1" "tenant-1" fefoWorld) 0 = Some item
       /\ "row-1" = id item
       /\ 5 = availableQuantity item.
Proof.
  split; [apply distinct_primaryKey; reflexivity|].
  apply (reserve_whole_rows_first "product-1" 8 "tenant-1" fefoWorld
           (snd (InventoryService.reserveInventory "product-1" 8 "tenant-1" fefoWorld))
           [mkReservation "row-1" 5; mkReservation "row-2" 3]
           (distinct_primaryKey fefoWorld eq_refl) eq_refl
           0%nat (mkReservation "row-1" 5) eq_refl).
  simpl. lia.
Defined.

(** ** No quantity becomes negative *)

Lemma greedy_bounds rem items x :
  Forall (fun r => 0 < availableQuantity r) items ->
  In x (greedy rem items) ->
  exists item,
    In item items /\ inventoryItemId x = id item
    /\ 0 < quantity x <= availableQuantity item.
Proof.
  revert rem. induction items as [|it rest IH]; intros rem F Hin; simpl in Hin;
    [contradiction|].
  inversion F as [|? ? Hit F']; subst.
  destruct (rem <=? 0) eqn:E; [contradiction|]. apply Z.leb_gt in E.
  destruct Hin as [Hx|Hin].
  - subst x. exists it. simpl. split; [left; reflexivity|]. split; [reflexivity|lia].
  - destruct (IH _ F' Hin) as [item [Hi H]]. exists item. split; [right; exact Hi|exact H].
Qed.

Lemma Forall2_Forall_transport {A} (P : A -> Prop) (R : A -> A -> Prop) (l l' : list A) :
  (forall a b, In a l -> P a -> R a b -> P b) ->
  Forall2 R l l' -> Forall P l -> Forall P l'.
Proof.
  intros H F. induction F as [|a b l l' Hab F IH]; intros HP; constructor;
    inversion HP; subst.
  - apply (H a b); [left; reflexivity | assumption | assumption].
  - apply IH; [|assumption]. intros a0 b0 Hin. apply H. right; exact Hin.
Qed.

Lemma reserve_nonNegative p q t w :
  primaryKey w -> nonNegative w ->
  nonNegative (snd (InventoryService.reserveInventory p q t w)).
Proof.
  intros PK NN. destruct (reserveInventory_run p q t w PK) as [w0 [Hrun Hrows]].
  rewrite Hrun. simpl. unfold nonNegative in *.
  eapply Forall2_Forall_transport; [|exact Hrows|exact NN].
  intros r r' Hin [Ha Hr] Ht. unfold touched in Ht.
  destruct (find _ _) as [x|] eqn:Ef; [|subst r'; auto].
  apply find_some in Ef. destruct Ef as [Hx Eid]. apply String.eqb_eq in Eid.
  destruct (greedy_bounds _ _ _ (availableItems_positive p t w) (booked_In _ _ _ Hx))
    as [item [Hitem [Hid Hq]]].
  assert (item = r).
  { apply (primaryKey_unique (wms_inventory_items w)); auto; [|congruence].
    apply availableItems_In in Hitem. tauto. }
  subst item. destruct Ht as [now Ht]. rewrite Ht. simpl. lia.
Qed.

Lemma release_nonNegative i q w :
  primaryKey w -> nonNegative w -> 0 <= q ->
  nonNegative (snd (InventoryService.releaseReservedInventory i q w)).
Proof.
  intros PK NN Hq. unfold nonNegative in *.
  destruct (release_rows i q w PK) as [E|[r [Hin [Hid [Hle [_ [_ E]]]]]]]; rewrite E;
    [exact NN|].
  eapply Forall2_Forall_transport; [|apply released_rows; eassumption|exact NN].
  intros a b Ha [Hav Hre]. simpl.
  destruct (id a =? i)%string eqn:Ea; intros ->; [|auto].
  apply String.eqb_eq in Ea.
  assert (a = r)
    by (apply (primaryKey_unique (wms_inventory_items w)); auto; congruence).
  subst a. simpl. lia.
Qed.

Lemma validRequest_quantity isUuid req :
  validRequest isUuid req = true -> 1 <= body_quantity req.
Proof.
  unfold validRequest. rewrite !andb_true_iff. intros [[[_ H] _] _].
  apply Z.leb_le. exact H.
Qed.

Lemma adjust_nonNegative isUuid req w :
  nonNegative w -> nonNegative (snd (post_id_adjust isUuid req w)).
Proof.
  intros NN. unfold nonNegative in *.
  destruct (adjust_rows isUuid req w)
    as [E|[r [l [nq [_ [Hvalid [Hsel [Hnq [Hdec [_ E]]]]]]]]]]; rewrite E; [exact NN|].
  pose proof (validRequest_quantity _ _ Hvalid) as Hq.
  assert (Hr : In r (wms_inventory_items w)).
  { assert (H : In r (r :: l)) by (left; reflexivity).
    rewrite <- Hsel in H. apply filter_In in H. tauto. }
  assert (Hav : 0 <= availableQuantity r).
  { rewrite Forall_forall in NN. apply (NN r Hr). }
  assert (Hpos : 0 <= nq).
  { destruct (body_adjustmentType req =? "increase")%string; [lia | auto]. }
  unfold adjustedRows. apply Forall_map.
  eapply Forall_impl; [|exact NN]. intros a [Ha Hra]. cbn beta.
  destruct (id a =? params_id req)%string; simpl; auto.
Qed.

(** Over any sequence of reserve, release and adjust calls in which no
    release asks for a negative quantity, quantities that were all
    non-negative stay non-negative. *)
Theorem quantities_stay_nonNegative (isUuid : string -> bool) (calls : list Call)
    (w : World) :
  primaryKey w -> nonNegative w -> releasesNonNegative calls ->
  nonNegative (run isUuid calls w).
Proof.
  revert w. induction calls as [|c rest IH]; intros w PK NN HR; simpl; [exact NN|].
  inversion HR as [|? ? Hc HR']; subst.
  apply IH; [apply perform_primaryKey; exact PK| |exact HR'].
  destruct c as [p q t|i q|req]; simpl.
  - apply reserve_nonNegative; assumption.
  - apply release_nonNegative; assumption.
  - apply adjust_nonNegative; assumption.
Qed.

Lemma quantities_stay_nonNegative_witness :
  primaryKey fefoWorld
  /\ nonNegative fefoWorld
  /\ releasesNonNegative
       [Reserve "product-1" 40 "tenant-1"; Release "row-2" 4;
        Adjust (mkAdjustRequest "row-1" "decrease" 1 "broken" "tenant-1")]
  /\ nonNegative
       (run (fun _ => true)
            [Reserve "product-1" 40 "tenant-1"; Release "row-2" 4;
             Adjust (mkAdjustRequest "row-1" "decrease" 1 "broken" "tenant-1")]
            fefoWorld).
Proof.
  assert (PK : primaryKey fefoWorld) by (apply distinct_primaryKey; reflexivity).
  assert (NN : nonNegative fefoWorld)
    by (unfold nonNegative; simpl; repeat constructor; simpl; lia).
  assert (HR : releasesNonNegative
       [Reserve "product-1" 40 "tenant-1"; Release "row-2" 4;
        Adjust (mkAdjustRequest "row-1" "decrease" 1 "broken" "tenant-1")])
    by (unfold releasesNonNegative; repeat constructor; lia).
  split; [exact PK|]. split; [exact NN|]. split; [exact HR|].
  exact (quantities_stay_nonNegative (fun _ => true) _ fefoWorld PK NN HR).
Defined.

(** ** Failures of release and of adjust *)

(** When [releaseReservedInventory] throws, the table is as it was.  The
    error "Inventory item not found" means that no row has the id.  For an
    existing row the error is "Cannot release more than reserved quantity",
    the row having less reserved than asked for, or it arises because the
    row's new quantities do not fit the [integer] columns. *)
Theorem release_failures (inventoryItemId_ : string) (quantity_ : Z) (w w' : World)
    (e : JsError) :
  primaryKey w ->
  InventoryService.releaseReservedInventory inventoryItemId_ quantity_ w = (Throw e, w') ->
  wms_inventory_items w' = wms_inventory_items w
  /\ (e = Error "Inventory item not found" -> findRow inventoryItemId_ w = None)
  /\ (forall r, findRow inventoryItemId_ w = Some r ->
        (e = Error "Cannot release more than reserved quantity"
         /\ reservedQuantity r < quantity_)
        \/ (quantity_ <= reservedQuantity r
            /\ ~ (-2147483648 <= availableQuantity r + quantity_ <= 2147483647
                  /\ -2147483648 <= reservedQuantity r - quantity_ <= 2147483647))).
Proof.
  intros PK Hrel. destruct (findRow inventoryItemId_ w) as [r|] eqn:Hfind.
  - destruct (findRow_Some _ _ _ Hfind) as [Hin Hid].
    rewrite (release_run _ quantity_ w r PK Hin Hid) in Hrel.
    destruct (Z.ltb_spec (reservedQuantity r) quantity_).
    + inversion Hrel; subst. split; [reflexivity|]. split; [discriminate|].
      intros r0 E. inversion E; subst r0. left. auto.
    + destruct (afterRelease_cases _ quantity_ w r PK Hin Hid)
        as [[_ [w0 [Ha _]]]|[Hfit Ha]]; rewrite Ha in Hrel; [discriminate|].
      inversion Hrel; subst. split; [reflexivity|]. split; [discriminate|].
      intros r0 E. inversion E; subst r0. right. split; [assumption|].
      intros [H1 H2]. apply not_true_iff_false in Hfit. apply Hfit.
      apply andb_true_iff. rewrite !int4_spec. auto.
  - rewrite (release_missing _ quantity_ w Hfind) in Hrel. inversion Hrel; subst.
    split; [reflexivity|]. split; [reflexivity|]. intros r0 E. discriminate.
Qed.

Lemma release_failures_witness :
  primaryKey brimWorld
  /\ (exists r, findRow "row-1" brimWorld = Some r
                /\ 1 <= reservedQuantity r
                /\ ~ (-2147483648 <= availableQuantity r + 1 <= 2147483647
                      /\ -2147483648 <= reservedQuantity r - 1 <= 2147483647))
  /\ wms_inventory_items
       (snd (InventoryService.releaseReservedInventory "row-1" 1 brimWorld))
     = wms_inventory_items brimWorld.
Proof.
  assert (PK : primaryKey brimWorld) by (apply distinct_primaryKey; reflexivity).
  split; [exact PK|].
  destruct (release_failures "row-1" 1 brimWorld
              (snd (InventoryService.releaseReservedInventory "row-1" 1 brimWorld))
              integerOutOfRange PK eq_refl) as [Hrows [_ Hrow]].
  split; [|exact Hrows].
  eexists. split; [reflexivity|].
  destruct (Hrow _ eq_refl) as [[Habs _]|H]; [discriminate | exact H].
Defined.

Section AdjustEdges.

Variable isUuid : string -> bool.

Lemma adjust_invalid req w :
  params_id req <> "" ->
  validRequest isUuid req = false ->
  post_id_adjust isUuid req w
  = (Return (mkResponse 400 false "Validation failed" None), w).
Proof.
  intros Hid Hvalid. unfold post_id_adjust. apply String.eqb_neq in Hid. rewrite Hid.
  unfold try_catch, bind, inventoryAdjustmentSchema_parseAsync.
  cbn [data_id adjustmentType data_quantity reason].
  unfold validRequest in Hvalid. rewrite Hvalid. reflexivity.
Qed.


(** A request with a quantity below 1, an empty reason, a reason of more
    than 500 characters or a direction other than increase and decrease is
    answered with 400 "Validation failed", and nothing is written. *)
Theorem adjust_rejects_invalid (req : AdjustRequest) (w : World) :
  params_id req <> "" ->
  body_quantity req < 1
  \/ body_reason req = ""
  \/ (500 < String.length (body_reason req))%nat
  \/ (body_adjustmentType req <> "increase" /\ body_adjustmentType req <> "decrease") ->
  post_id_adjust isUuid req w
  = (Return (mkResponse 400 false "Validation failed" None), w).
Proof.
  intros Hid Hbad. apply adjust_invalid; [exact Hid|].
  unfold validRequest. destruct Hbad as [H|[H|[H|[H1 H2]]]].
  - assert (E : (1 <=? body_quantity req) = false) by (apply Z.leb_gt; lia).
    rewrite E. rewrite !andb_false_r. reflexivity.
  - rewrite H. simpl. rewrite !andb_false_r. reflexivity.
  - assert (E : (String.length (body_reason req) <=? 500)%nat = false)
      by (apply Nat.leb_gt; lia).
    rewrite E. rewrite !andb_false_r. reflexivity.
  - apply String.eqb_neq in H1, H2. rewrite H1, H2. simpl.
    rewrite !andb_false_r. reflexivity.
Qed.


(** An increase by q followed by a decrease by q, both valid and for the
    same row of the caller's tenant, the increase not leading past the
    largest value of the [integer] column, are both answered with 200 and
    leave every row of the table with the availableQuantity and
    reservedQuantity it had. *)
Theorem adjust_round_trip (w : World) (r : InventoryItem) (q : Z) (why undo : string) :
  primaryKey w ->
  In r (wms_inventory_items w) ->
  id r <> "" -> isUuid (id r) = true ->
  1 <= q ->
  (1 <= String.length why <= 500)%nat ->
  (1 <= String.length undo <= 500)%nat ->
  0 <= availableQuantity r ->
  availableQuantity r + q <= 2147483647 ->
  exists resp1 w1 resp2 w2,
    post_id_adjust isUuid (mkAdjustRequest (id r) "increase" q why (tenantId r)) w
    = (Return resp1, w1)
    /\ post_id_adjust isUuid (mkAdjustRequest (id r) "decrease" q undo (tenantId r)) w1
       = (Return resp2, w2)
    /\ status resp1 = 200 /\ status resp2 = 200
    /\ Forall2 (fun x x2 => id x2 = id x
                            /\ availableQuantity x2 = availableQuantity x
                            /\ reservedQuantity x2 = reservedQuantity x)
               (wms_inventory_items w) (wms_inventory_items w2).
Proof.
  intros PK Hin Hne Huuid Hq [Hw1 Hw2] [Hu1 Hu2] Hav Hroom.
  assert (Hv : forall dir reason_,
             (dir = "increase" \/ dir = "decrease") ->
             (1 <= String.length reason_ <= 500)%nat ->
             validRequest isUuid (mkAdjustRequest (id r) dir q reason_ (tenantId r)) = true).
  { intros dir reason_ Hdir [H1 H2]. unfold validRequest. simpl params_id.
    simpl body_adjustmentType. simpl body_quantity. simpl body_reason.
    rewrite Huuid, (proj2 (Z.leb_le _ _) Hq), (proj2 (Nat.leb_le _ _) H1),
      (proj2 (Nat.leb_le _ _) H2).
    destruct Hdir as [-> | ->]; reflexivity. }
  pose proof (adjust_run isUuid (mkAdjustRequest (id r) "increase" q why (tenantId r)) w r
                PK Hin eq_refl eq_refl Hne (Hv _ _ (or_introl eq_refl) (conj Hw1 Hw2)))
    as Hrun1.
  cbn [body_adjustmentType body_quantity String.eqb Ascii.eqb Bool.eqb] in Hrun1.
  destruct (afterAdjust_cases (mkAdjustRequest (id r) "increase" q why (tenantId r))
              (availableQuantity r + q) w) as [[_ [w1 [Ha1 [Hrows1 _]]]]|[Hfit _]].
  2:{ exfalso.
      rewrite (adjustedRows_fit _ _ w r PK Hin eq_refl) in Hfit.
      apply not_true_iff_false in Hfit. apply Hfit. apply int4_spec. lia. }
  cbn [params_id] in Hrows1.
  set (r1 := set_available (availableQuantity r + q) (dates w (ticks w)) r).
  assert (Hfind1 : findRow (id r) w1 = Some r1).
  { apply (findRow_updated (set_available (availableQuantity r + q) (dates w (ticks w))) w);
      auto. }
  destruct (findRow_Some _ _ _ Hfind1) as [Hin1 _].
  assert (PK1 : primaryKey w1).
  { unfold primaryKey. rewrite Hrows1. unfold adjustedRows. rewrite map_map.
    erewrite map_ext; [exact PK|]. intros a. simpl.
    destruct (id a =? id r)%string; reflexivity. }
  pose proof (adjust_run isUuid (mkAdjustRequest (id r) "decrease" q undo (tenantId r)) w1 r1
                PK1 Hin1 eq_refl eq_refl Hne (Hv _ _ (or_intror eq_refl) (conj Hu1 Hu2)))
    as Hrun2.
  cbn [body_adjustmentType body_quantity String.eqb Ascii.eqb Bool.eqb] in Hrun2.
  change (availableQuantity r1) with (availableQuantity r + q) in Hrun2.
  destruct (Z.ltb_spec (availableQuantity r + q - q) 0); [lia|].
  destruct (afterAdjust_cases (mkAdjustRequest (id r) "decrease" q undo (tenantId r))
              (availableQuantity r + q - q) w1) as [[_ [w2 [Ha2 [Hrows2 _]]]]|[Hfit _]].
  2:{ exfalso.
      rewrite (adjustedRows_fit _ _ w1 r1 PK1 Hin1 eq_refl) in Hfit.
      apply not_true_iff_false in Hfit. apply Hfit. apply int4_spec. lia. }
  cbn [params_id] in Hrows2.
  eexists _, w1, _, w2.
  split; [rewrite Hrun1; exact Ha1|]. split; [rewrite Hrun2; exact Ha2|].
  split; [reflexivity|]. split; [reflexivity|].
  rewrite Hrows2. unfold adjustedRows at 1. rewrite Hrows1. unfold adjustedRows.
  rewrite map_map.
  apply Forall2_of_map. intros x Hx.
  destruct (id x =? id r)%string eqn:Ex.
  - cbn [set_available id]. rewrite Ex. cbn [set_available id availableQuantity reservedQuantity].
    apply String.eqb_eq in Ex.
    assert (x = r) by (apply (primaryKey_unique (wms_inventory_items w)); auto).
    subst x. repeat split; lia.
  - rewrite Ex. auto.
Qed.

End AdjustEdges.

Lemma adjust_rejects_invalid_witness :
  "row-1" <> ""
  /\ post_id_adjust (fun _ => true)
       (mkAdjustRequest "row-1" "decrease" 0 "nothing" "tenant-1") fefoWorld
     = (Return (mkResponse 400 false "Validation failed" None), fefoWorld).
Proof.
  split; [discriminate|].
  apply (adjust_rejects_invalid (fun _ => true)
           (mkAdjustRequest "row-1" "decrease" 0 "nothing" "tenant-1") fefoWorld).
  - discriminate.
  - left. simpl. lia.
Defined.


Lemma adjust_round_trip_witness :
  primaryKey fefoWorld
  /\ 1 <= 4
  /\ 0 <= 10
  /\ 10 + 4 <= 2147483647
  /\ exists resp1 w1 resp2 w2,
       post_id_adjust (fun _ => true)
         (mkAdjustRequest "row-2" "increase" 4 "recount" "tenant-1") fefoWorld
       = (Return resp1, w1)
       /\ post_id_adjust (fun _ => true)
            (mkAdjustRequest "row-2" "decrease" 4 "recount undone" "tenant-1") w1
          = (Return resp2, w2)
       /\ status resp1 = 200 /\ status resp2 = 200
       /\ Forall2 (fun x x2 => id x2 = id x
                               /\ availableQuantity x2 = availableQuantity x
                               /\ reservedQuantity x2 = reservedQuantity x)
                  (wms_inventory_items fefoWorld) (wms_inventory_items w2).
Proof.
  split; [apply distinct_primaryKey; reflexivity|].
  split; [lia|]. split; [lia|]. split; [lia|].
  apply (adjust_round_trip (fun _ => true) fefoWorld
           (sampleRow "row-2" "tenant-1" (Some (mkDate 2024 6 1)) 10 0)
           4 "recount" "recount undone").
  - apply distinct_primaryKey; reflexivity.
  - simpl. auto.
  - discriminate.
  - reflexivity.
  - lia.
  - simpl. lia.
  - simpl. lia.
  - simpl. lia.
  - simpl. lia.
Defined.

(** ** Reservations seen through [getTotalStockForProduct] *)

Lemma sumZ_perm (l l' : list Z) : Permutation l l' -> sumZ l = sumZ l'.
Proof.
  induction 1; simpl; rewrite ?sumZ_cons; try lia.
Qed.

Lemma touched_amount plan r r' :
  NoDup (map inventoryItemId plan) ->
  touched plan r r' ->
  id r' = id r /\ productId r' = productId r /\ tenantId r' = tenantId r
  /\ availableQuantity r' = availableQuantity r - amountReserved plan (id r)
  /\ reservedQuantity r' = reservedQuantity r + amountReserved plan (id r).
Proof.
  intros ND Ht. rewrite (amountReserved_find _ (id r) ND). unfold touched in Ht.
  destruct (find _ plan); [destruct Ht as [now Ht]|]; rewrite Ht; simpl;
    repeat split; lia.
Qed.

(** Over the candidate rows the plan's amounts add up to the plan. *)
Lemma amount_over_items rem items :
  NoDup (map id items) ->
  sumZ (map (fun r => amountReserved (greedy rem items) (id r)) items)
  = sumZ (map quantity (greedy rem items)).
Proof.
  revert rem. induction items as [|it rest IH]; intros rem ND; [reflexivity|].
  inversion ND as [|? ? Hnot ND']; subst.
  cbn [greedy]. destruct (rem <=? 0) eqn:E.
  - clear. induction (it :: rest) as [|a l IHl]; [reflexivity|].
    cbn [map]. rewrite sumZ_cons, IHl. reflexivity.
  - set (t := Z.min rem (availableQuantity it)).
    cbn [map quantity]. rewrite !sumZ_cons. rewrite <- (IH _ ND').
    assert (Hhead : amountReserved (mkReservation (id it) t :: greedy (rem - t) rest) (id it)
                    = t).
    { rewrite amountReserved_find.
      - cbn [find inventoryItemId]. rewrite String.eqb_refl. reflexivity.
      - cbn [map inventoryItemId]. constructor; [|apply greedy_NoDup; exact ND'].
        intros Hin. apply in_map_iff in Hin. destruct Hin as [x [Ex Hx]].
        apply greedy_id_in in Hx. rewrite Ex in Hx. exact (Hnot Hx). }
    rewrite Hhead. f_equal. f_equal. apply map_ext_in. intros a Ha.
    unfold amountReserved. cbn [filter inventoryItemId].
    assert (Ea : (id it =? id a)%string = false).
    { apply String.eqb_neq. intros Eq. apply Hnot. rewrite Eq. apply in_map. exact Ha. }
    rewrite Ea. reflexivity.
Qed.

Lemma sum_filter_wider {A} (f : A -> Z) (sel cand : A -> bool) (l : list A) :
  (forall a, In a l -> cand a = true -> sel a = true) ->
  (forall a, In a l -> sel a = true -> cand a = false -> f a = 0) ->
  sumZ (map f (filter sel l)) = sumZ (map f (filter cand l)).
Proof.
  induction l as [|a l IH]; intros H1 H2; [reflexivity|].
  assert (IH' : sumZ (map f (filter sel l)) = sumZ (map f (filter cand l))).
  { apply IH; intros; [apply H1 | apply H2]; auto; right; assumption. }
  cbn [filter]. destruct (cand a) eqn:Ec.
  - rewrite (H1 a (or_introl eq_refl) Ec). cbn [map]. rewrite !sumZ_cons, IH'. reflexivity.
  - destruct (sel a) eqn:Es; [|exact IH'].
    cbn [map]. rewrite sumZ_cons, IH', (H2 a (or_introl eq_refl) Es Ec). lia.
Qed.

(** Sums over the rows of a product and tenant, before and after. *)
Lemma stockRows_after (amount : InventoryItem -> Z) p t (l l' : list InventoryItem) :
  Forall2 (fun r r' => productId r' = productId r /\ tenantId r' = tenantId r
                       /\ availableQuantity r' = availableQuantity r - amount r
                       /\ reservedQuantity r' = reservedQuantity r + amount r) l l' ->
  let sel := fun r => (productId r =? p)%string && (tenantId r =? t)%string in
  sumZ (map availableQuantity (filter sel l'))
  = sumZ (map availableQuantity (filter sel l)) - sumZ (map amount (filter sel l))
  /\ sumZ (map reservedQuantity (filter sel l'))
     = sumZ (map reservedQuantity (filter sel l)) + sumZ (map amount (filter sel l))
  /\ List.length (filter sel l') = List.length (filter sel l).
Proof.
  intros F sel. induction F as [|a b l l' [Hp [Ht [Ha Hr]]] F IH];
    [repeat split; reflexivity|].
  destruct IH as [IH1 [IH2 IH3]].
  assert (Es : sel b = sel a) by (unfold sel; rewrite Hp, Ht; reflexivity).
  cbn [filter]. rewrite Es. destruct (sel a); [|auto].
  cbn [map List.length]. rewrite !sumZ_cons, IH1, IH2, IH3, Ha, Hr. repeat split; lia.
Qed.

Lemma sql_sum_Some (l : list Z) : l <> [] -> sql_sum l = Some (sumZ l).
Proof. destruct l; [congruence | reflexivity]. Qed.

Lemma getTotalStockForProduct_run p t w :
  InventoryService.getTotalStockForProduct p t w
  = (Return (mkTotalStock (sql_sum (map availableQuantity (stockRows p t w)))
                          (sql_sum (map reservedQuantity (stockRows p t w)))), w).
Proof. reflexivity. Qed.

(** A successful reservation of a quantity > 0 shows in
    [getTotalStockForProduct]: the total it reports as available drops by
    the quantity and the total it reports as reserved rises by it. *)
Theorem reserve_moves_totals (productId_ : string) (quantity_ : Z) (tenantId_ : string)
    (w w' : World) (reservations : list Reservation) (available reserved : Z) :
  primaryKey w ->
  0 < quantity_ ->
  InventoryService.reserveInventory productId_ quantity_ tenantId_ w
  = (Return reservations, w') ->
  fst (InventoryService.getTotalStockForProduct productId_ tenantId_ w)
  = Return (mkTotalStock (Some available) (Some reserved)) ->
  fst (InventoryService.getTotalStockForProduct productId_ tenantId_ w')
  = Return (mkTotalStock (Some (available - quantity_)) (Some (reserved + quantity_))).
Proof.
  intros PK Hq Hres Hbefore.
  destruct (reserveInventory_returned productId_ quantity_ tenantId_ w reservations w'
              PK Hres) as [Hrun [Hle Hrows]].
  clear Hres. subst reservations.
  pose proof (availableItems_NoDup productId_ tenantId_ w PK) as Hnd.
  pose proof (fun a => planned_is_candidate productId_ quantity_ tenantId_ w a PK) as Hcand.
  assert (Hperm : Permutation
                    (filter (candidate productId_ tenantId_) (wms_inventory_items w))
                    (availableItems productId_ tenantId_ w)) by apply orderBy_perm.
  assert (Hitems : forall a, In a (availableItems productId_ tenantId_ w) ->
                             candidate productId_ tenantId_ a = true).
  { intros a Ha. apply availableItems_In in Ha. tauto. }
  revert Hle Hrows Hnd Hcand Hperm Hitems.
  generalize (availableItems productId_ tenantId_ w) as items.
  intros items Hle Hrows Hnd Hcand Hperm Hitems.
  pose proof (greedy_remaining_nonneg quantity_ items ltac:(lia)) as Hge.
  pose proof (greedy_NoDup quantity_ _ Hnd) as Hndp.
  assert (Hsum : sumZ (map quantity (greedy quantity_ items)) = quantity_) by lia.
  assert (F : Forall2 (fun r r' => productId r' = productId r /\ tenantId r' = tenantId r
                /\ availableQuantity r'
                   = availableQuantity r - amountReserved (greedy quantity_ items) (id r)
                /\ reservedQuantity r'
                   = reservedQuantity r + amountReserved (greedy quantity_ items) (id r))
              (wms_inventory_items w) (wms_inventory_items w')).
  { eapply Forall2_In_impl; [|exact Hrows]. intros a b _ Ht.
    destruct (touched_amount _ a b Hndp Ht) as [_ H]. exact H. }
  destruct (stockRows_after (fun r => amountReserved (greedy quantity_ items) (id r))
              productId_ tenantId_ _ _ F) as [Ha [Hr Hlen]].
  assert (Hamount :
            sumZ (map (fun r => amountReserved (greedy quantity_ items) (id r))
                      (filter (fun r => (productId r =? productId_)%string
                                        && (tenantId r =? tenantId_)%string)
                              (wms_inventory_items w)))
            = quantity_).
  { rewrite (sum_filter_wider _ _ (candidate productId_ tenantId_)).
    - transitivity (sumZ (map quantity (greedy quantity_ items))); [|exact Hsum].
      rewrite <- (amount_over_items _ _ Hnd).
      apply sumZ_perm. apply Permutation_map. exact Hperm.
    - intros a _ Hc. unfold candidate in Hc. apply andb_true_iff in Hc. tauto.
    - intros a Hin _ Hc. rewrite (amountReserved_find _ _ Hndp).
      rewrite find_reservation_none; [reflexivity|]. intros Hp.
      apply (Hcand a Hin) in Hp. apply Hitems in Hp. congruence. }
  rewrite Hamount in Ha, Hr.
  rewrite getTotalStockForProduct_run in Hbefore |- *.
  cbn [fst] in Hbefore |- *. unfold stockRows in *.
  destruct (filter (fun r => (productId r =? productId_)%string
                             && (tenantId r =? tenantId_)%string)
                   (wms_inventory_items w)) as [|r0 l0] eqn:Esel;
    [cbn in Hbefore; discriminate|].
  assert (Hne' : filter (fun r => (productId r =? productId_)%string
                                  && (tenantId r =? tenantId_)%string)
                        (wms_inventory_items w') <> []).
  { intros En. rewrite En in Hlen. cbn in Hlen. discriminate. }
  rewrite !sql_sum_Some in Hbefore by (cbn [map]; discriminate).
  rewrite !sql_sum_Some
    by (intros En; apply Hne'; apply map_eq_nil in En; exact En).
  inversion Hbefore; subst. rewrite Ha, Hr. reflexivity.
Qed.

Lemma reserve_moves_totals_witness :
  primaryKey fefoWorld
  /\ 0 < 8
  /\ fst (InventoryService.getTotalStockForProduct "product-1" "tenant-1"
            (snd (InventoryService.reserveInventory "product-1" 8 "tenant-1" fefoWorld)))
     = Return (mkTotalStock (Some (35 - 8)) (Some (0 + 8))).
Proof.
  split; [apply distinct_primaryKey; reflexivity|]. split; [lia|].
  apply (reserve_moves_totals "product-1" 8 "tenant-1" fefoWorld
           (snd (InventoryService.reserveInventory "product-1" 8 "tenant-1" fefoWorld))
           [mkReservation "row-1" 5; mkReservation "row-2" 3] 35 0).
  - apply distinct_primaryKey; reflexivity.
  - lia.
  - reflexivity.
  - reflexivity.
Defined.

(** ** Giving back a whole reservation *)

Lemma amountReserved_cons x plan i :
  amountReserved (x :: plan) i
  = (if (inventoryItemId x =? i)%string then quantity x else 0) + amountReserved plan i.
Proof.
  unfold amountReserved. cbn [filter].
  destruct (inventoryItemId x =? i)%string; [reflexivity|]. lia.
Qed.







(** * The stock queries *)

Lemma or_zero_sql_sum (l : list Z) : or_zero (sql_sum l) = sumZ l.
Proof. destruct l; reflexivity. Qed.


Section ServiceFacts.

Variable cat : Catalog.

Lemma isProductLowStock_run (productId_ tenantId_ : string) (w : World) :
  ((forall p, In p (wms_products cat) ->
              ~ (products.id p = productId_ /\ products.tenantId p = tenantId_)) ->
   isProductLowStock cat productId_ tenantId_ w = (Return false, w))
  /\ (forall p,
        NoDup (map products.id (wms_products cat)) ->
        In p (wms_products cat) ->
        products.id p = productId_ -> products.tenantId p = tenantId_ ->
        isProductLowStock cat productId_ tenantId_ w
        = (Return (sumZ (map availableQuantity (stockRows productId_ tenantId_ w))
                   <=? or_zero (products.minimumStockLevel p)), w)).
Proof.
  split.
  - intros Hnone. unfold isProductLowStock, bind, ret. rewrite getTotalStockForProduct_run.
    destruct (filter _ (wms_products cat)) as [|p l] eqn:E; [reflexivity|].
    exfalso. assert (Hp : In p (p :: l)) by (left; reflexivity). rewrite <- E in Hp.
    apply filter_In in Hp. destruct Hp as [Hp Hc]. apply andb_true_iff in Hc.
    rewrite !String.eqb_eq in Hc. exact (Hnone p Hp Hc).
  - intros p ND Hp Hid Hten. unfold isProductLowStock, bind, ret.
    rewrite getTotalStockForProduct_run.
    assert (E : filter (fun x => (products.id x =? productId_)%string
                                 && (products.tenantId x =? tenantId_)%string)
                       (wms_products cat) = [p]).
    { clear w. revert ND Hp. induction (wms_products cat) as [|a l IH]; simpl;
        intros ND Hp; [contradiction|].
      inversion ND as [|? ? Hnot ND']; subst.
      destruct Hp as [Hp|Hp].
      - subst a. rewrite !String.eqb_refl. simpl. f_equal.
        destruct (filter _ l) as [|b l'] eqn:Ef; [reflexivity|]. exfalso.
        assert (Hb : In b (b :: l')) by (left; reflexivity). rewrite <- Ef in Hb.
        apply filter_In in Hb. destruct Hb as [Hb Eb]. apply andb_true_iff in Eb.
        destruct Eb as [Eb _]. apply String.eqb_eq in Eb. apply Hnot. rewrite <- Eb.
        apply in_map. exact Hb.
      - assert (Ea : (products.id a =? products.id p)%string = false).
        { apply String.eqb_neq. intros Eq. apply Hnot. rewrite Eq. apply in_map. exact Hp. }
        rewrite Ea. simpl. apply IH; assumption. }
    rewrite E. cbn [limit firstn totalAvailable]. rewrite or_zero_sql_sum. reflexivity.
Qed.

(** [isProductLowStock] answers false for a product the tenant does not
    have; for a product it has, it answers whether the availableQuantity
    summed over the product's rows of that tenant - zero when there is no
    row - is at most the product's minimumStockLevel - zero when that is
    null; and it writes nothing. *)
Theorem isProductLowStock_meaning (productId_ tenantId_ : string) (w : World) :
  ((forall p, In p (wms_products cat) ->
              ~ (products.id p = productId_ /\ products.tenantId p = tenantId_)) ->
   isProductLowStock cat productId_ tenantId_ w = (Return false, w))
  /\ (forall p,
        NoDup (map products.id (wms_products cat)) ->
        In p (wms_products cat) ->
        products.id p = productId_ -> products.tenantId p = tenantId_ ->
        isProductLowStock cat productId_ tenantId_ w
        = (Return (sumZ (map availableQuantity (stockRows productId_ tenantId_ w))
                   <=? or_zero (products.minimumStockLevel p)), w)).
Proof. exact (isProductLowStock_run productId_ tenantId_ w). Qed.

End ServiceFacts.

Lemma isProductLowStock_meaning_witness :
  isProductLowStock sampleCatalog "product-9" "tenant-1" fefoWorld = (Return false, fefoWorld)
  /\ isProductLowStock sampleCatalog "product-1" "tenant-1" fefoWorld
     = (Return (sumZ (map availableQuantity (stockRows "product-1" "tenant-1" fefoWorld))
                <=? or_zero (Some 40)), fefoWorld).
Proof.
  split.
  - apply (proj1 (isProductLowStock_meaning sampleCatalog "product-9" "tenant-1" fefoWorld)).
    intros p Hp [Hid _]. simpl in Hp.
    destruct Hp as [Hp|[Hp|[]]]; subst p; discriminate.
  - apply (proj2 (isProductLowStock_meaning sampleCatalog "product-1" "tenant-1" fefoWorld)
                 (products.mk "product-1" "tenant-1" "SKU-1" "Flour" None (Some 40) None)).
    + apply distinct_NoDup. reflexivity.
    + simpl. auto.
    + reflexivity.
    + reflexivity.
Defined.

Lemma amountReserved_nonneg plan i :
  Forall (fun x => 0 < quantity x) plan -> 0 <= amountReserved plan i.
Proof.
  induction 1 as [|x plan Hx F IH]; [unfold amountReserved; cbn; lia|].
  rewrite amountReserved_cons. destruct (inventoryItemId x =? i)%string; lia.
Qed.

Lemma sum_nonneg {A} (f : A -> Z) (l : list A) :
  (forall a, 0 <= f a) -> 0 <= sumZ (map f l).
Proof.
  intros H. induction l as [|a l IH]; [cbn; lia|].
  cbn [map]. rewrite sumZ_cons. specialize (H a). lia.
Qed.

(** Whatever its outcome, [reserveInventory] does not raise the
    availableQuantity total of the product's rows. *)
Lemma reserve_available_drops p q t w :
  primaryKey w ->
  sumZ (map availableQuantity
            (stockRows p t (snd (InventoryService.reserveInventory p q t w))))
  <= sumZ (map availableQuantity (stockRows p t w)).
Proof.
  intros PK. destruct (reserveInventory_run p q t w PK) as [w0 [Hrun Hrows]].
  rewrite Hrun. cbn [snd].
  pose proof (booked_NoDup q _ (availableItems_NoDup p t w PK)) as Hndp.
  assert (Hpos : Forall (fun x => 0 < quantity x) (booked q (availableItems p t w))).
  { apply Forall_forall. intros x Hx.
    pose proof (greedy_quantities_positive q _ (availableItems_positive p t w)) as G.
    rewrite Forall_forall in G. apply G. apply booked_In. exact Hx. }
  assert (F : Forall2 (fun r r' => productId r' = productId r /\ tenantId r' = tenantId r
                /\ availableQuantity r'
                   = availableQuantity r
                     - amountReserved (booked q (availableItems p t w)) (id r)
                /\ reservedQuantity r'
                   = reservedQuantity r
                     + amountReserved (booked q (availableItems p t w)) (id r))
              (wms_inventory_items w) (wms_inventory_items w0)).
  { eapply Forall2_In_impl; [|exact Hrows]. intros a b _ Ht.
    destruct (touched_amount _ a b Hndp Ht) as [_ H]. exact H. }
  destruct (stockRows_after _ p t _ _ F) as [Ha _]. unfold stockRows. rewrite Ha.
  pose proof (sum_nonneg (fun r => amountReserved (booked q (availableItems p t w)) (id r))
                (filter (fun r => (productId r =? p)%string && (tenantId r =? t)%string)
                        (wms_inventory_items w))
                (fun a => amountReserved_nonneg _ _ Hpos)).
  lia.
Qed.

(** A product that [isProductLowStock] reports as low on stock is still
    reported so after any [reserveInventory] for it, successful or not. *)
Theorem reserve_keeps_low_stock (cat : Catalog) (productId_ : string) (quantity_ : Z)
    (tenantId_ : string) (w : World) :
  primaryKey w ->
  NoDup (map products.id (wms_products cat)) ->
  fst (isProductLowStock cat productId_ tenantId_ w) = Return true ->
  fst (isProductLowStock cat productId_ tenantId_
         (snd (InventoryService.reserveInventory productId_ quantity_ tenantId_ w)))
  = Return true.
Proof.
  intros PK ND Hlow.
  destruct (filter (fun x => (products.id x =? productId_)%string
                             && (products.tenantId x =? tenantId_)%string)
                   (wms_products cat)) as [|p l] eqn:E.
  - exfalso. unfold isProductLowStock, bind, ret in Hlow.
    rewrite getTotalStockForProduct_run, E in Hlow. cbn in Hlow. discriminate.
  - assert (Hp : In p (p :: l)) by (left; reflexivity). rewrite <- E in Hp.
    apply filter_In in Hp. destruct Hp as [Hp Hc]. apply andb_true_iff in Hc.
    rewrite !String.eqb_eq in Hc. destruct Hc as [Hid Hten].
    rewrite (proj2 (isProductLowStock_run cat productId_ tenantId_ _) p ND Hp Hid Hten).
    rewrite (proj2 (isProductLowStock_run cat productId_ tenantId_ w) p ND Hp Hid Hten)
      in Hlow.
    cbn [fst] in *. inversion Hlow as [Hle]. f_equal. rewrite Hle.
    apply Z.leb_le in Hle. apply Z.leb_le.
    pose proof (reserve_available_drops productId_ quantity_ tenantId_ w PK). lia.
Qed.

Lemma reserve_keeps_low_stock_witness :
  primaryKey fefoWorld
  /\ NoDup (map products.id (wms_products sampleCatalog))
  /\ fst (isProductLowStock sampleCatalog "product-1" "tenant-1" fefoWorld) = Return true
  /\ fst (isProductLowStock sampleCatalog "product-1" "tenant-1"
            (snd (InventoryService.reserveInventory "product-1" 50 "tenant-1" fefoWorld)))
     = Return true.
Proof.
  assert (PK : primaryKey fefoWorld) by (apply distinct_primaryKey; reflexivity).
  assert (ND : NoDup (map products.id (wms_products sampleCatalog)))
    by (apply distinct_NoDup; reflexivity).
  split; [exact PK|]. split; [exact ND|]. split; [reflexivity|].
  exact (reserve_keeps_low_stock sampleCatalog "product-1" 50 "tenant-1" fefoWorld
           PK ND eq_refl).
Defined.

(** ** Items expiring soon *)


Section ExpiringFacts.

Variable cat : Catalog.
Variable isoDateAfter : Z -> Z -> Date.
Variable unordered : forall A : Type, list A -> list A.


End ExpiringFacts.


(** * Deleting a row *)

Section DeleteFacts.

Variable cat : Catalog.

Lemma delete_found req w r :
  primaryKey w -> In r (wms_inventory_items w) ->
  id r = item_params_id req -> tenantId r = item_activeTenantId req ->
  exists w',
    wms_inventory_items w'
    = filter (fun x => negb (id x =? id r)%string) (wms_inventory_items w)
    /\ delete_id cat req w
       = if (availableQuantity r >? 0) || (reservedQuantity r >? 0) then
           (Return (mkResponse 400 false
                      "Cannot delete inventory item with remaining stock. Adjust quantities to zero first."
                      None), w)
         else if referenced cat (id r) then
           (Return (mkResponse 500 false "Internal server error" None), w)
         else
           (Return (mkResponse 200 true "Inventory item deleted successfully" None), w').
Proof.
  intros PK Hin Hid Hten.
  assert (Hsel : filter (fun x => (id x =? item_params_id req)%string
                                  && (tenantId x =? item_activeTenantId req)%string)
                        (wms_inventory_items w) = [r]).
  { rewrite <- Hid, <- Hten.
    apply (select_by_id (fun x => (tenantId x =? tenantId r)%string)); auto.
    apply String.eqb_refl. }
  destruct (store_fits _ (dates w) (ticks w)
              (integerColumns_filter (fun x => negb (id x =? id r)%string) _ (columns w)))
    as [w' [Hstore [Hrows _]]].
  exists w'. split; [exact Hrows|].
  unfold delete_id, try_catch, bind, select_where, ret, limit. rewrite Hsel. cbn [firstn].
  destruct ((availableQuantity r >? 0) || (reservedQuantity r >? 0)); [reflexivity|].
  unfold delete_where. rewrite <- Hid.
  assert (Hex : existsb (fun x => (id x =? id r)%string
                                  && existsb (fun m => (movementHistory.itemId m =? id x)%string)
                                             (wms_movement_history cat))
                        (wms_inventory_items w)
                = referenced cat (id r)).
  { unfold referenced. clear Hsel Hstore Hrows. revert PK Hin. unfold primaryKey.
    induction (wms_inventory_items w) as [|a l IH]; simpl; intros ND Hin; [contradiction|].
    inversion ND as [|? ? Hnot ND']; subst.
    destruct Hin as [Hin|Hin].
    - subst a. rewrite String.eqb_refl. simpl.
      destruct (existsb _ (wms_movement_history cat)); [reflexivity|]. simpl.
      apply not_true_is_false. intros H. apply existsb_exists in H.
      destruct H as [x [Hx H]]. apply andb_true_iff in H. destruct H as [H _].
      apply String.eqb_eq in H. apply Hnot. rewrite <- H. apply in_map. exact Hx.
    - assert (E : (id a =? id r)%string = false).
      { other_key Hnot Hin. }
      rewrite E. simpl. apply IH; assumption. }
  rewrite Hex. destruct (referenced cat (id r)); [reflexivity|].
  rewrite Hstore. reflexivity.
Qed.

Lemma delete_missing req w :
  filter (fun x => (id x =? item_params_id req)%string
                   && (tenantId x =? item_activeTenantId req)%string)
         (wms_inventory_items w) = [] ->
  delete_id cat req w = (Return (mkResponse 404 false "Inventory item not found" None), w).
Proof.
  intros Hsel. unfold delete_id, try_catch, bind, select_where, ret, limit.
  rewrite Hsel. reflexivity.
Qed.

(** For a row of the caller's tenant, [DELETE /:id] answers 400 and writes
    nothing when the row has anything available or reserved, 500 and
    writes nothing when the movement history references the row, and
    otherwise 200: the row is then gone and every other row is still in
    the table, as it was and in the same order. *)
Theorem delete_outcomes (req : ItemRequest) (w : World) (r : InventoryItem) :
  primaryKey w ->
  In r (wms_inventory_items w) ->
  id r = item_params_id req -> tenantId r = item_activeTenantId req ->
  (0 < availableQuantity r \/ 0 < reservedQuantity r ->
   exists resp, delete_id cat req w = (Return resp, w) /\ status resp = 400)
  /\ (availableQuantity r <= 0 -> reservedQuantity r <= 0 -> referenced cat (id r) = true ->
      exists resp, delete_id cat req w = (Return resp, w) /\ status resp = 500)
  /\ (availableQuantity r <= 0 -> reservedQuantity r <= 0 -> referenced cat (id r) = false ->
      exists resp w',
        delete_id cat req w = (Return resp, w')
        /\ status resp = 200
        /\ findRow (id r) w' = None
        /\ wms_inventory_items w'
           = filter (fun x => negb (id x =? id r)%string) (wms_inventory_items w)
        /\ primaryKey w').
Proof.
  intros PK Hin Hid Hten.
  destruct (delete_found req w r PK Hin Hid Hten) as [w1 [Hrows1 Hrun]].
  split; [|split].
  - intros Hstock.
    assert (E : (availableQuantity r >? 0) || (reservedQuantity r >? 0) = true).
    { apply orb_true_iff. rewrite !Z.gtb_lt. exact Hstock. }
    rewrite E in Hrun. eexists. split; [exact Hrun | reflexivity].
  - intros Ha Hr Href.
    assert (E : (availableQuantity r >? 0) || (reservedQuantity r >? 0) = false).
    { apply orb_false_iff. split; apply not_true_is_false; rewrite Z.gtb_lt; lia. }
    rewrite E, Href in Hrun. eexists. split; [exact Hrun | reflexivity].
  - intros Ha Hr Href.
    assert (E : (availableQuantity r >? 0) || (reservedQuantity r >? 0) = false).
    { apply orb_false_iff. split; apply not_true_is_false; rewrite Z.gtb_lt; lia. }
    rewrite E, Href in Hrun. eexists _, w1. split; [exact Hrun|].
    split; [reflexivity|]. split; [|split; [exact Hrows1|]].
    + unfold findRow. rewrite Hrows1.
      destruct (find _ _) as [x|] eqn:Ef; [|reflexivity]. exfalso.
      apply find_some in Ef. destruct Ef as [Hx Ex]. apply filter_In in Hx.
      destruct Hx as [_ Hx]. rewrite Ex in Hx. discriminate.
    + unfold primaryKey. rewrite Hrows1. apply NoDup_ids_filter. exact PK.
Qed.

(** A request for the id of a row of another tenant is answered with 404
    "Inventory item not found" and deletes nothing. *)
Theorem delete_other_tenant (req : ItemRequest) (w : World) (r : InventoryItem) :
  primaryKey w ->
  In r (wms_inventory_items w) ->
  id r = item_params_id req ->
  tenantId r <> item_activeTenantId req ->
  delete_id cat req w = (Return (mkResponse 404 false "Inventory item not found" None), w).
Proof.
  intros PK Hin Hid Hten. apply delete_missing.
  destruct (filter _ _) as [|r0 l] eqn:E; [reflexivity|]. exfalso.
  assert (H : In r0 (r0 :: l)) by (left; reflexivity). rewrite <- E in H.
  apply filter_In in H. destruct H as [Hin0 H]. apply andb_true_iff in H.
  destruct H as [H1 H2]. apply String.eqb_eq in H1, H2.
  assert (r0 = r)
    by (apply (primaryKey_unique (wms_inventory_items w)); auto; congruence).
  subst r0. exact (Hten H2).
Qed.

Lemma totalStock_without p (l : list InventoryItem) (r : InventoryItem) :
  NoDup (map id l) -> In r l ->
  sumZ (map (fun x => availableQuantity x + reservedQuantity x)
            (filter (fun x => (productId x =? p)%string)
                    (filter (fun x => negb (id x =? id r)%string) l)))
  = sumZ (map (fun x => availableQuantity x + reservedQuantity x)
              (filter (fun x => (productId x =? p)%string) l))
    - (if (productId r =? p)%string then availableQuantity r + reservedQuantity r else 0).
Proof.
  induction l as [|a l IH]; intros ND Hin; [contradiction|].
  inversion ND as [|? ? Hnot ND']; subst. cbn [filter].
  destruct Hin as [Hin|Hin].
  - subst a. rewrite String.eqb_refl. cbn [negb].
    assert (Hl : filter (fun x => negb (id x =? id r)%string) l = l).
    { clear IH ND ND'. induction l as [|b l IHl]; [reflexivity|]. cbn [filter].
      assert (E : (id b =? id r)%string = false).
      { apply String.eqb_neq. intros Eq. apply Hnot. rewrite <- Eq. left; reflexivity. }
      rewrite E. cbn [negb]. f_equal. apply IHl. intros H. apply Hnot. right; exact H. }
    rewrite Hl. destruct (productId r =? p)%string; cbn [map]; rewrite ?sumZ_cons; lia.
  - assert (E : (id a =? id r)%string = false).
    { other_key Hnot Hin. }
    rewrite E. cbn [negb filter]. specialize (IH ND' Hin).
    destruct (productId a =? p)%string; cbn [map]; rewrite ?sumZ_cons; lia.
Qed.

(** When no quantity in the table is negative, [DELETE /:id] never changes
    the stock of any product, whatever it is asked and whatever it
    answers: the rows it deletes hold nothing. *)
Theorem delete_conserves_stock (req : ItemRequest) (w : World) (productId_ : string) :
  primaryKey w -> nonNegative w ->
  totalStock productId_ (snd (delete_id cat req w)) = totalStock productId_ w.
Proof.
  intros PK NN.
  destruct (filter (fun x => (id x =? item_params_id req)%string
                             && (tenantId x =? item_activeTenantId req)%string)
                   (wms_inventory_items w)) as [|r l] eqn:Hsel.
  - rewrite (delete_missing req w Hsel). reflexivity.
  - assert (H : In r (r :: l)) by (left; reflexivity). rewrite <- Hsel in H.
    apply filter_In in H. destruct H as [Hin H]. apply andb_true_iff in H.
    destruct H as [H1 H2]. apply String.eqb_eq in H1, H2.
    destruct (delete_found req w r PK Hin H1 H2) as [w1 [Hrows1 Hrun]]. rewrite Hrun.
    destruct (Z.gtb_spec (availableQuantity r) 0) as [|Ha]; [reflexivity|].
    destruct (Z.gtb_spec (reservedQuantity r) 0) as [|Hr]; [reflexivity|].
    cbn [orb]. destruct (referenced cat (id r)); [reflexivity|]. cbn [snd].
    unfold totalStock. rewrite Hrows1.
    rewrite (totalStock_without productId_ _ r PK Hin).
    unfold nonNegative in NN. rewrite Forall_forall in NN. specialize (NN r Hin).
    destruct (productId r =? productId_)%string; lia.
Qed.

End DeleteFacts.

Lemma delete_outcomes_witness :
  primaryKey drainedWorld
  /\ (exists resp,
        delete_id sampleCatalog (mkItemRequest "row-3" "tenant-1") drainedWorld
        = (Return resp, drainedWorld) /\ status resp = 400)
  /\ (exists resp,
        delete_id sampleCatalog (mkItemRequest "row-2" "tenant-1") drainedWorld
        = (Return resp, drainedWorld) /\ status resp = 500)
  /\ (exists resp w',
        delete_id sampleCatalog (mkItemRequest "row-1" "tenant-1") drainedWorld
        = (Return resp, w')
        /\ status resp = 200
        /\ findRow "row-1" w' = None).
Proof.
  assert (PK : primaryKey drainedWorld) by (apply distinct_primaryKey; reflexivity).
  split; [exact PK|]. split; [|split].
  - apply (proj1 (delete_outcomes sampleCatalog (mkItemRequest "row-3" "tenant-1")
                    drainedWorld (sampleRow "row-3" "tenant-1" None 20 0)
                    PK (or_intror (or_intror (or_introl eq_refl))) eq_refl eq_refl)).
    left. simpl. lia.
  - apply (proj1 (proj2 (delete_outcomes sampleCatalog (mkItemRequest "row-2" "tenant-1")
                    drainedWorld (sampleRow "row-2" "tenant-1" (Some (mkDate 2024 6 1)) 0 0)
                    PK (or_intror (or_introl eq_refl)) eq_refl eq_refl))).
    + simpl. lia.
    + simpl. lia.
    + reflexivity.
  - destruct (proj2 (proj2 (delete_outcomes sampleCatalog (mkItemRequest "row-1" "tenant-1")
                    drainedWorld (sampleRow "row-1" "tenant-1" (Some (mkDate 2024 1 1)) 0 0)
                    PK (or_introl eq_refl) eq_refl eq_refl)))
      as [resp [w' [H1 [H2 [H3 _]]]]].
    + simpl. lia.
    + simpl. lia.
    + reflexivity.
    + exists resp, w'. auto.
Defined.

Lemma delete_other_tenant_witness :
  primaryKey otherTenantWorld
  /\ "tenant-2" <> "tenant-1"
  /\ delete_id sampleCatalog (mkItemRequest "row-9" "tenant-1") otherTenantWorld
     = (Return (mkResponse 404 false "Inventory item not found" None), otherTenantWorld).
Proof.
  assert (PK : primaryKey otherTenantWorld) by (apply distinct_primaryKey; reflexivity).
  split; [exact PK|]. split; [discriminate|].
  apply (delete_other_tenant sampleCatalog (mkItemRequest "row-9" "tenant-1")
           otherTenantWorld (sampleRow "row-9" "tenant-2" None 0 5) PK
           (or_introl eq_refl) eq_refl).
  discriminate.
Defined.

Lemma delete_conserves_stock_witness :
  primaryKey drainedWorld
  /\ nonNegative drainedWorld
  /\ totalStock "product-1"
       (snd (delete_id sampleCatalog (mkItemRequest "row-1" "tenant-1") drainedWorld))
     = totalStock "product-1" drainedWorld.
Proof.
  assert (PK : primaryKey drainedWorld) by (apply distinct_primaryKey; reflexivity).
  assert (NN : nonNegative drainedWorld)
    by (unfold nonNegative; simpl; repeat constructor; simpl; lia).
  split; [exact PK|]. split; [exact NN|].
  exact (delete_conserves_stock sampleCatalog (mkItemRequest "row-1" "tenant-1")
           drainedWorld "product-1" PK NN).
Defined.

(** * Reading a row *)

Lemma leftJoin_filter {A B} (on : A -> B -> bool) (P : A -> bool) (a : list A) (b : list B) :
  filter (fun x => P (fst x)) (leftJoin on a b) = leftJoin on (filter P a) b.
Proof.
  unfold leftJoin. induction a as [|x a IH]; [reflexivity|].
  cbn [flat_map filter]. rewrite filter_app, IH.
  assert (Hx : forall l : list (A * option B),
             Forall (fun y => fst y = x) l ->
             filter (fun y => P (fst y)) l = if P x then l else []).
  { induction l as [|y l IHl]; intros F; [destruct (P x); reflexivity|].
    inversion F as [|? ? Hy F']; subst. cbn [filter]. rewrite (IHl F').
    destruct (P (fst y)); reflexivity. }
  rewrite Hx.
  - destruct (P x); reflexivity.
  - destruct (filter (on x) b) as [|y l]; [repeat constructor|].
    apply Forall_forall. intros z Hz. apply in_map_iff in Hz.
    destruct Hz as [y0 [E _]]. subst z. reflexivity.
Qed.

Lemma leftJoin_single {A B} (on : A -> B -> bool) (x : A) (b : list B) :
  leftJoin on [x] b <> []
  /\ Forall (fun y => fst y = x) (leftJoin on [x] b).
Proof.
  unfold leftJoin. cbn [flat_map]. rewrite app_nil_r.
  destruct (filter (on x) b) as [|y l]; split; try discriminate.
  - repeat constructor.
  - apply Forall_forall. intros z Hz. apply in_map_iff in Hz.
    destruct Hz as [y0 [E _]]. subst z. reflexivity.
Qed.

Lemma leftJoin_keeps {A B} (on : A -> B -> bool) (Q : A -> Prop) (a : list A) (b : list B) :
  a <> [] -> Forall Q a ->
  leftJoin on a b <> [] /\ Forall (fun y => Q (fst y)) (leftJoin on a b).
Proof.
  intros Hne F. split.
  - destruct a as [|x a]; [congruence|]. unfold leftJoin. cbn [flat_map].
    destruct (filter (on x) b); discriminate.
  - unfold leftJoin. clear Hne. induction F as [|x a Hx F IH]; [constructor|].
    cbn [flat_map]. apply Forall_app. split; [|exact IH].
    destruct (filter (on x) b) as [|y l]; [repeat constructor; exact Hx|].
    apply Forall_forall. intros z Hz. apply in_map_iff in Hz.
    destruct Hz as [y0 [E _]]. subst z. exact Hx.
Qed.

Section ReadFacts.

Variable cat : Catalog.

Lemma joinedItems_filter (P : InventoryItem -> bool) (items : list InventoryItem) :
  filter (fun x => P (itemOf x)) (joinedItems cat items) = joinedItems cat (filter P items).
Proof.
  unfold joinedItems, itemOf.
  rewrite (leftJoin_filter _ (fun x => P (fst (fst (fst (fst (fst x))))))).
  rewrite (leftJoin_filter _ (fun x => P (fst (fst (fst (fst x)))))).
  rewrite (leftJoin_filter _ (fun x => P (fst (fst (fst x))))).
  rewrite (leftJoin_filter _ (fun x => P (fst (fst x)))).
  rewrite (leftJoin_filter _ (fun x => P (fst x))).
  rewrite (leftJoin_filter _ P).
  reflexivity.
Qed.

Lemma joinedItems_keeps (Q : InventoryItem -> Prop) (items : list InventoryItem) :
  items <> [] -> Forall Q items ->
  joinedItems cat items <> [] /\ Forall (fun x => Q (itemOf x)) (joinedItems cat items).
Proof.
  intros Hne F. unfold joinedItems, itemOf.
  destruct (leftJoin_keeps (fun i p => (productId i =? products.id p)%string) Q items
              (wms_products cat) Hne F) as [N1 F1].
  destruct (leftJoin_keeps (fun x b => (binId (fst x) =? bins.id b)%string)
              (fun x => Q (fst x)) _ (wms_bins cat) N1 F1) as [N2 F2].
  destruct (leftJoin_keeps (fun x s => onColumn bins.shelfId shelves.id (snd x) s)
              (fun x => Q (fst (fst x))) _ (wms_shelves cat) N2 F2) as [N3 F3].
  destruct (leftJoin_keeps (fun x a => onColumn shelves.aisleId aisles.id (snd x) a)
              (fun x => Q (fst (fst (fst x)))) _ (wms_aisles cat) N3 F3) as [N4 F4].
  destruct (leftJoin_keeps (fun x z => onColumn aisles.zoneId zones.id (snd x) z)
              (fun x => Q (fst (fst (fst (fst x))))) _ (wms_zones cat) N4 F4) as [N5 F5].
  exact (leftJoin_keeps (fun x wh => onColumn zones.warehouseId warehouses.id (snd x) wh)
           (fun x => Q (fst (fst (fst (fst (fst x)))))) _ (wms_warehouses cat) N5 F5).
Qed.

(** [GET /:id] answers 200 with the columns of the row when a row of the
    caller's tenant carries the id, whatever the joined tables contain, and
    404 when a row of another tenant carries it; it writes nothing. *)
Theorem get_id_outcomes (req : ItemRequest) (w : World) :
  primaryKey w ->
  (forall r, In r (wms_inventory_items w) ->
             id r = item_params_id req -> tenantId r = item_activeTenantId req ->
             exists view,
               get_id cat req w = (Return (mkViewResponse 200 true None (Some view)), w)
               /\ view_item view = r)
  /\ (forall r, In r (wms_inventory_items w) ->
                id r = item_params_id req -> tenantId r <> item_activeTenantId req ->
                get_id cat req w
                = (Return (mkViewResponse 404 false (Some "Inventory item not found") None),
                   w)).
Proof.
  intros PK. split.
  - intros r Hin Hid Hten.
    assert (Hsel : filter (fun x => (id x =? item_params_id req)%string
                                    && (tenantId x =? item_activeTenantId req)%string)
                          (wms_inventory_items w) = [r]).
    { rewrite <- Hid, <- Hten.
      apply (select_by_id (fun x => (tenantId x =? tenantId r)%string)); auto.
      apply String.eqb_refl. }
    unfold get_id, try_catch, bind, ret.
    rewrite (joinedItems_filter
               (fun x => (id x =? item_params_id req)%string
                         && (tenantId x =? item_activeTenantId req)%string)), Hsel.
    destruct (joinedItems_keeps (fun x => x = r) [r]) as [Hne Hall];
      [discriminate | repeat constructor |].
    destruct (joinedItems cat [r]) as [|x l]; [congruence|].
    inversion Hall as [|? ? Hx _]; subst. cbn [map].
    exists (viewOf x). split; reflexivity.
  - intros r Hin Hid Hten.
    assert (Hsel : filter (fun x => (id x =? item_params_id req)%string
                                    && (tenantId x =? item_activeTenantId req)%string)
                          (wms_inventory_items w) = []).
    { destruct (filter _ _) as [|r0 l] eqn:E; [reflexivity|]. exfalso.
      assert (H : In r0 (r0 :: l)) by (left; reflexivity). rewrite <- E in H.
      apply filter_In in H. destruct H as [Hin0 H]. apply andb_true_iff in H.
      destruct H as [H1 H2]. apply String.eqb_eq in H1, H2.
      assert (r0 = r)
        by (apply (primaryKey_unique (wms_inventory_items w)); auto; congruence).
      subst r0. exact (Hten H2). }
    unfold get_id, try_catch, bind, ret.
    rewrite (joinedItems_filter
               (fun x => (id x =? item_params_id req)%string
                         && (tenantId x =? item_activeTenantId req)%string)), Hsel.
    reflexivity.
Qed.

End ReadFacts.

Lemma get_id_outcomes_witness :
  primaryKey fefoWorld
  /\ (exists view,
        get_id sampleCatalog (mkItemRequest "row-2" "tenant-1") fefoWorld
        = (Return (mkViewResponse 200 true None (Some view)), fefoWorld)
        /\ view_item view = sampleRow "row-2" "tenant-1" (Some (mkDate 2024 6 1)) 10 0)
  /\ get_id sampleCatalog (mkItemRequest "row-2" "tenant-2") fefoWorld
     = (Return (mkViewResponse 404 false (Some "Inventory item not found") None), fefoWorld).
Proof.
  assert (PK : primaryKey fefoWorld) by (apply distinct_primaryKey; reflexivity).
  split; [exact PK|]. split.
  - apply (proj1 (get_id_outcomes sampleCatalog (mkItemRequest "row-2" "tenant-1")
                    fefoWorld PK)).
    + simpl. auto.
    + reflexivity.
    + reflexivity.
  - apply (proj2 (get_id_outcomes sampleCatalog (mkItemRequest "row-2" "tenant-2")
                    fefoWorld PK)
                 (sampleRow "row-2" "tenant-1" (Some (mkDate 2024 6 1)) 10 0)).
    + simpl. auto.
    + reflexivity.
    + discriminate.
Defined.

(** * Creating a row *)

Section CreateFacts.

Variable cat : Catalog.
Variable isUuid : string -> bool.
Variable pgDate : string -> option Date.
Variable pgNumeric : string -> option string.
Variable JsNumber : Type.
Variable atLeastZero : JsNumber -> bool.
Variable truthy : JsNumber -> bool.
Variable numberToString : JsNumber -> string.

Local Notation "'post'" :=
  (post_root cat isUuid pgDate pgNumeric JsNumber atLeastZero truthy numberToString).
Local Notation "'accepted'" := (addAccepted cat isUuid JsNumber atLeastZero).
Local Notation "'inserted'" :=
  (addInsert cat pgDate pgNumeric JsNumber truthy numberToString).

Lemma or_zero_idem (x : option Z) : or_zero (Some (or_zero x)) = or_zero x.
Proof. reflexivity. Qed.

Lemma post_root_run uuid req w :
  post uuid req w
  = if (add_activeTenantId JsNumber req =? "")%string then
      (Return (mkItemResponse 400 false (Some "Tenant ID is required") None), w)
    else if accepted req w then
      match inserted uuid req w with
      | (Return rows, w') => (Return (mkItemResponse 201 true None (nth_error rows 0)), w')
      | (Throw _, w') =>
          (Return (mkItemResponse 400 false (Some "Validation failed") None), w')
      end
    else (Return (mkItemResponse 400 false (Some "Validation failed") None), w).
Proof.
  unfold post_root, try_catch at 1. unfold addAccepted, addInsert.
  destruct (add_activeTenantId JsNumber req =? "")%string; [reflexivity|].
  cbv [try_catch bind inventoryItemAddSchema_parseAsync select_where ret throw].
  destruct (addFieldsValid isUuid JsNumber atLeastZero req && _ && _ && _);
    [|reflexivity].
  destruct req; cbn [add_activeTenantId add_productId add_binId add_availableQuantity
                       add_reservedQuantity add_expiryDate add_batchNumber add_lotNumber
                       add_receivedDate add_costPerUnit].
  destruct (insert_values _ _ _ _ _ _ _ _ _ _ _ _ _ _ w) as [[rows|e] w']; reflexivity.
Qed.

(** The row an accepted request is stored as. *)
Lemma inserted_run uuid req w rows w' :
  inserted uuid req w = (Return rows, w') ->
  exists r,
    rows = [r]
    /\ wms_inventory_items w' = wms_inventory_items w ++ [r]
    /\ id r = uuid
    /\ combination r
       = (add_activeTenantId JsNumber req, add_productId JsNumber req,
          add_binId JsNumber req, or_null (add_batchNumber JsNumber req),
          or_null (add_lotNumber JsNumber req))
    /\ availableQuantity r = add_availableQuantity JsNumber req
    /\ reservedQuantity r = or_zero (add_reservedQuantity JsNumber req)
    /\ ~ In uuid (map id (wms_inventory_items w)).
Proof.
  unfold addInsert, insert_values. intros H.
  destruct (pgInput pgDate (or_null (add_expiryDate JsNumber req))) as [e|];
    [|discriminate].
  destruct (pgInput pgDate (or_null (add_receivedDate JsNumber req))) as [rc|];
    [|discriminate].
  destruct (pgInput pgNumeric _) as [c|]; [|discriminate].
  destruct (negb (existsb (fun r => (id r =? uuid)%string) (wms_inventory_items w)))
    eqn:Hfresh; [|discriminate].
  cbn [andb] in H.
  destruct (existsb _ (sys_tenant cat) && _ && _ && _ && _); [|discriminate].
  match type of H with
  | context [store ?rows ?clock ?n] =>
      pose proof (store_spec rows clock n) as Hs; destruct (store rows clock n) as [w0|]
  end; [|discriminate].
  destruct Hs as [_ [Hrows _]].
  inversion H; subst; clear H. eexists. split; [reflexivity|].
  split; [exact Hrows|]. split; [reflexivity|].
  split; [reflexivity|]. split; [reflexivity|]. split; [reflexivity|].
  intros Hin. apply negb_true_iff in Hfresh.
  assert (Hex : existsb (fun r => (id r =? uuid)%string) (wms_inventory_items w) = true).
  { apply in_map_iff in Hin. destruct Hin as [r [E Hr]]. apply existsb_exists.
    exists r. split; [exact Hr | apply String.eqb_eq; exact E]. }
  congruence.
Qed.

Lemma inserted_throws uuid req w e w' :
  inserted uuid req w = (Throw e, w') -> w' = w.
Proof.
  unfold addInsert, insert_values. intros H.
  destruct (pgInput pgDate (or_null (add_expiryDate JsNumber req))) as [ex|];
    [|inversion H; reflexivity].
  destruct (pgInput pgDate (or_null (add_receivedDate JsNumber req))) as [rc|];
    [|inversion H; reflexivity].
  destruct (pgInput pgNumeric _) as [c|]; [|inversion H; reflexivity].
  destruct (negb _ && _ && _ && _ && _ && _); [|inversion H; reflexivity].
  destruct (store _ _ _); [discriminate | inversion H; reflexivity].
Qed.

(** A 201 is the answer to an accepted request whose row was stored. *)
Lemma post_created uuid req w resp w' :
  post uuid req w = (Return resp, w') -> item_status resp = 201 ->
  add_activeTenantId JsNumber req <> ""
  /\ accepted req w = true
  /\ exists rows, inserted uuid req w = (Return rows, w')
                  /\ resp = mkItemResponse 201 true None (nth_error rows 0).
Proof.
  rewrite post_root_run. intros H Hs.
  destruct (add_activeTenantId JsNumber req =? "")%string eqn:Et;
    [inversion H; subst; discriminate|].
  destruct (accepted req w); [|inversion H; subst; discriminate].
  destruct (inserted uuid req w) as [[rows|e] w0]; [|inversion H; subst; discriminate].
  inversion H; subst. apply String.eqb_neq in Et. split; [exact Et|].
  split; [reflexivity|]. exists rows. auto.
Qed.

Lemma post_not_created uuid req w resp w' :
  post uuid req w = (Return resp, w') -> item_status resp <> 201 -> w' = w.
Proof.
  rewrite post_root_run. intros H Hs.
  destruct (add_activeTenantId JsNumber req =? "")%string;
    [inversion H; reflexivity|].
  destruct (accepted req w); [|inversion H; reflexivity].
  destruct (inserted uuid req w) as [[rows|e] w0] eqn:Hi.
  - inversion H; subst. exfalso. apply Hs. reflexivity.
  - inversion H; subst. apply (inserted_throws uuid req w e w' Hi).
Qed.

Lemma post_returns uuid req w :
  exists resp w', post uuid req w = (Return resp, w').
Proof.
  rewrite post_root_run.
  destruct (add_activeTenantId JsNumber req =? "")%string; [eexists _, _; reflexivity|].
  destruct (accepted req w); [|eexists _, _; reflexivity].
  destruct (inserted uuid req w) as [[rows|e] w0]; eexists _, _; reflexivity.
Qed.

Lemma matchesLabel_same (wanted wanted' : option string) :
  or_null wanted' = or_null wanted -> matchesLabel wanted' (or_null wanted) = true.
Proof.
  unfold matchesLabel. intros E. rewrite E.
  destruct (or_null wanted) as [s|]; [apply String.eqb_refl | reflexivity].
Qed.

Lemma accepted_no_combination req w r :
  accepted req w = true -> In r (wms_inventory_items w) ->
  combination r
  <> (add_activeTenantId JsNumber req, add_productId JsNumber req,
      add_binId JsNumber req, or_null (add_batchNumber JsNumber req),
      or_null (add_lotNumber JsNumber req)).
Proof.
  unfold addAccepted. rewrite !andb_true_iff. intros [_ Hnone] Hin Hc.
  apply Z.eqb_eq in Hnone.
  destruct (filter (sameCombination JsNumber req) (wms_inventory_items w)) as [|x l] eqn:Ef;
    [|simpl in Hnone; lia].
  assert (Hr : In r (filter (sameCombination JsNumber req) (wms_inventory_items w))).
  { apply filter_In. split; [exact Hin|]. unfold combination in Hc.
    inversion Hc as [[Ht Hp Hb Hba Hlo]]. unfold sameCombination.
    rewrite Ht, Hp, Hb, Hba, Hlo, !String.eqb_refl.
    rewrite !matchesLabel_same; reflexivity. }
  rewrite Ef in Hr. contradiction.
Qed.

(** Once [POST /] has answered 201 for a tenant, product, bin, batch
    number and lot number, any further request of that tenant for the same
    product, bin, batch number and lot number - an empty label counting as
    none - is answered with 400 "Validation failed" and stores nothing,
    whatever its other fields. *)
Theorem create_rejects_duplicate (uuid uuid2 : string) (req req2 : AddRequest JsNumber)
    (w w' : World) (resp : ItemResponse) :
  post uuid req w = (Return resp, w') ->
  item_status resp = 201 ->
  add_activeTenantId JsNumber req2 = add_activeTenantId JsNumber req ->
  add_productId JsNumber req2 = add_productId JsNumber req ->
  add_binId JsNumber req2 = add_binId JsNumber req ->
  or_null (add_batchNumber JsNumber req2) = or_null (add_batchNumber JsNumber req) ->
  or_null (add_lotNumber JsNumber req2) = or_null (add_lotNumber JsNumber req) ->
  post uuid2 req2 w'
  = (Return (mkItemResponse 400 false (Some "Validation failed") None), w').
Proof.
  intros Hpost Hs Ht Hp Hb Hba Hlo.
  destruct (post_created uuid req w resp w' Hpost Hs) as [Hne [_ [rows [Hins _]]]].
  destruct (inserted_run uuid req w rows w' Hins) as [r [_ [Hrows [_ [Hc _]]]]].
  rewrite post_root_run, Ht. apply String.eqb_neq in Hne. rewrite Hne.
  assert (Hrej : accepted req2 w' = false).
  { unfold addAccepted. rewrite Hrows, filter_app. cbn [filter].
    assert (Hsame : sameCombination JsNumber req2 r = true).
    { unfold combination in Hc. inversion Hc as [[Ht' Hp' Hb' Hba' Hlo']].
      unfold sameCombination.
      rewrite Ht', Hp', Hb', Hba', Hlo', Ht, Hp, Hb, !String.eqb_refl.
      rewrite !matchesLabel_same; auto. }
    rewrite Hsame, length_app. cbn [List.length].
    assert (E : (Z.of_nat (List.length (filter (sameCombination JsNumber req2)
                                                (wms_inventory_items w)) + 1) =? 0) = false)
      by (apply Z.eqb_neq; lia).
    rewrite E. apply andb_false_r. }
  rewrite Hrej. reflexivity.
Qed.

(** [POST /] keeps the primary key and keeps the combinations of tenant,
    product, bin, batch number and lot number distinct, whatever it is
    asked and whatever id the database draws. *)
Theorem create_keeps_keys (uuid : string) (req : AddRequest JsNumber) (w : World) :
  (primaryKey w -> primaryKey (snd (post uuid req w)))
  /\ (uniqueCombinations w -> uniqueCombinations (snd (post uuid req w))).
Proof.
  destruct (post_returns uuid req w) as [resp [w' Hpost]]. rewrite Hpost. cbn [snd].
  destruct (Z.eq_dec (item_status resp) 201) as [Hs|Hs].
  - destruct (post_created uuid req w resp w' Hpost Hs) as [_ [Hacc [rows [Hins _]]]].
    destruct (inserted_run uuid req w rows w' Hins) as [r [_ [Hrows [Hid [Hc [_ [_ Hfresh]]]]]]].
    unfold primaryKey, uniqueCombinations. rewrite Hrows, !map_app. cbn [map].
    split; intros ND.
    + eapply Permutation_NoDup; [apply Permutation_cons_append|].
      constructor; [rewrite Hid; exact Hfresh | exact ND].
    + eapply Permutation_NoDup; [apply Permutation_cons_append|].
      constructor; [|exact ND]. intros Hin. apply in_map_iff in Hin.
      destruct Hin as [r0 [E Hr0]].
      apply (accepted_no_combination req w r0 Hacc Hr0). congruence.
  - rewrite (post_not_created uuid req w resp w' Hpost Hs). auto.
Qed.

End CreateFacts.

Section CreateEffects.

Variable cat : Catalog.
Variable isUuid : string -> bool.
Variable pgDate : string -> option Date.
Variable pgNumeric : string -> option string.
Variable JsNumber : Type.
Variable atLeastZero : JsNumber -> bool.
Variable truthy : JsNumber -> bool.
Variable numberToString : JsNumber -> string.

Local Notation "'post'" :=
  (post_root cat isUuid pgDate pgNumeric JsNumber atLeastZero truthy numberToString).

Lemma filter_nonempty_exists {A} (f : A -> bool) (l : list A) :
  (0 <? Z.of_nat (List.length (filter f l))) = true -> exists a, In a l /\ f a = true.
Proof.
  destruct (filter f l) as [|a l'] eqn:E; [cbn; discriminate|]. intros _.
  assert (H : In a (a :: l')) by (left; reflexivity). rewrite <- E in H.
  apply filter_In in H. exists a. exact H.
Qed.

Lemma totalStock_appended p (l : list InventoryItem) (r : InventoryItem) :
  sumZ (map (fun x => availableQuantity x + reservedQuantity x)
            (filter (fun x => (productId x =? p)%string) (l ++ [r])))
  = sumZ (map (fun x => availableQuantity x + reservedQuantity x)
              (filter (fun x => (productId x =? p)%string) l))
    + (if (productId r =? p)%string then availableQuantity r + reservedQuantity r else 0).
Proof.
  induction l as [|a l IH]; cbn [app filter].
  - destruct (productId r =? p)%string; cbn; lia.
  - destruct (productId a =? p)%string; cbn [map]; rewrite ?sumZ_cons; lia.
Qed.

(** When [POST /] answers 201 it has appended exactly one row, the one it
    returns: the row carries the id the database drew and the caller's
    tenant, its product and its bin are a product and a bin of that
    tenant, its quantities are the requested ones (reserved 0 when none
    was given) and not negative, and the stock of its product has grown by
    their sum.  When it answers anything else it has written nothing. *)
Theorem create_effect (uuid : string) (req : AddRequest JsNumber) (w w' : World)
    (resp : ItemResponse) :
  post uuid req w = (Return resp, w') ->
  (item_status resp = 201 ->
   exists r,
     item_data resp = Some r
     /\ wms_inventory_items w' = wms_inventory_items w ++ [r]
     /\ id r = uuid
     /\ tenantId r = add_activeTenantId JsNumber req
     /\ (exists p, In p (wms_products cat) /\ products.id p = productId r
                   /\ products.tenantId p = tenantId r)
     /\ (exists b, In b (wms_bins cat) /\ bins.id b = binId r
                   /\ bins.tenantId b = tenantId r)
     /\ availableQuantity r = add_availableQuantity JsNumber req
     /\ reservedQuantity r = or_zero (add_reservedQuantity JsNumber req)
     /\ 0 <= availableQuantity r /\ 0 <= reservedQuantity r
     /\ forall p, totalStock p w'
                  = totalStock p w
                    + (if (productId r =? p)%string
                       then availableQuantity r + reservedQuantity r else 0))
  /\ (item_status resp <> 201 -> w' = w).
Proof.
  intros Hpost. split; [|apply (post_not_created _ _ _ _ _ _ _ _ _ _ _ _ _ Hpost)].
  intros Hs.
  destruct (post_created _ _ _ _ _ _ _ _ uuid req w resp w' Hpost Hs)
    as [_ [Hacc [rows [Hins Hresp]]]].
  destruct (inserted_run _ _ _ _ _ _ uuid req w rows w' Hins)
    as [r [Hr [Hrows [Hid [Hc [Ha [Hre _]]]]]]].
  pose proof (f_equal (fun c => fst (fst (fst (fst c)))) Hc) as Ht.
  pose proof (f_equal (fun c => snd (fst (fst (fst c)))) Hc) as Hp.
  pose proof (f_equal (fun c => snd (fst (fst c))) Hc) as Hb.
  cbn in Ht, Hp, Hb.
  unfold addAccepted in Hacc. rewrite !andb_true_iff in Hacc.
  destruct Hacc as [[[Hfields Hprod] Hbin] _].
  unfold addFieldsValid in Hfields. rewrite !andb_true_iff in Hfields.
  destruct Hfields as [[[[[[[[[_ _] _] Hav] Hrv] _] _] _] _] _].
  apply Z.leb_le in Hav.
  exists r. subst resp rows. cbn [item_data nth_error].
  split; [reflexivity|]. split; [exact Hrows|]. split; [exact Hid|]. split; [exact Ht|].
  split.
  { destruct (filter_nonempty_exists _ _ Hprod) as [p [Hin Hpc]].
    apply andb_true_iff in Hpc. rewrite !String.eqb_eq in Hpc.
    exists p. rewrite Hp, Ht. tauto. }
  split.
  { destruct (filter_nonempty_exists _ _ Hbin) as [b [Hin Hbc]].
    apply andb_true_iff in Hbc. rewrite !String.eqb_eq in Hbc.
    exists b. rewrite Hb, Ht. tauto. }
  split; [exact Ha|]. split; [exact Hre|]. split; [lia|]. split.
  { rewrite Hre. destruct (add_reservedQuantity JsNumber req) as [q|]; cbn in *; [|lia].
    apply Z.leb_le in Hrv. exact Hrv. }
  intros p. unfold totalStock. rewrite Hrows. apply totalStock_appended.
Qed.


End CreateEffects.

Lemma create_rejects_duplicate_witness :
  item_status
    (mkItemResponse 201 true None
       (nth_error
          [mkInventoryItem "row-new" "tenant-1" "product-2" "bin-1" 7 0 None (Some "B1")
             None None (Some "3") (sampleClock 0) (sampleClock 0)] 0)) = 201
  /\ post_root sampleCatalog sampleIsUuid samplePgDate samplePgNumeric Z
       (fun n => 0 <=? n) (fun n => negb (n =? 0)) show
       "row-newer" (sampleAdd (Some "B1") 99)
       (snd (post_root sampleCatalog sampleIsUuid samplePgDate samplePgNumeric Z
               (fun n => 0 <=? n) (fun n => negb (n =? 0)) show
               "row-new" (sampleAdd (Some "B1") 7) fefoWorld))
     = (Return (mkItemResponse 400 false (Some "Validation failed") None),
        snd (post_root sampleCatalog sampleIsUuid samplePgDate samplePgNumeric Z
               (fun n => 0 <=? n) (fun n => negb (n =? 0)) show
               "row-new" (sampleAdd (Some "B1") 7) fefoWorld)).
Proof.
  split; [reflexivity|].
  apply (create_rejects_duplicate sampleCatalog sampleIsUuid samplePgDate samplePgNumeric Z
           (fun n => 0 <=? n) (fun n => negb (n =? 0)) show
           "row-new" "row-newer" (sampleAdd (Some "B1") 7) (sampleAdd (Some "B1") 99)
           fefoWorld _
           (mkItemResponse 201 true None
              (nth_error
                 [mkInventoryItem "row-new" "tenant-1" "product-2" "bin-1" 7 0 None
                    (Some "B1") None None (Some "3") (sampleClock 0) (sampleClock 0)] 0)));
    reflexivity.
Defined.

Lemma create_keeps_keys_witness :
  primaryKey otherTenantWorld
  /\ uniqueCombinations otherTenantWorld
  /\ primaryKey
       (snd (post_root sampleCatalog sampleIsUuid samplePgDate samplePgNumeric Z
               (fun n => 0 <=? n) (fun n => negb (n =? 0)) show
               "row-new" (sampleAdd None 7) otherTenantWorld))
  /\ uniqueCombinations
       (snd (post_root sampleCatalog sampleIsUuid samplePgDate samplePgNumeric Z
               (fun n => 0 <=? n) (fun n => negb (n =? 0)) show
               "row-new" (sampleAdd None 7) otherTenantWorld)).
Proof.
  assert (PK : primaryKey otherTenantWorld) by (apply distinct_primaryKey; reflexivity).
  assert (UC : uniqueCombinations otherTenantWorld).
  { unfold uniqueCombinations. simpl. constructor; [intros [] | constructor]. }
  split; [exact PK|]. split; [exact UC|]. split.
  - exact (proj1 (create_keeps_keys sampleCatalog sampleIsUuid samplePgDate samplePgNumeric
                    Z (fun n => 0 <=? n) (fun n => negb (n =? 0)) show
                    "row-new" (sampleAdd None 7) otherTenantWorld) PK).
  - exact (proj2 (create_keeps_keys sampleCatalog sampleIsUuid samplePgDate samplePgNumeric
                    Z (fun n => 0 <=? n) (fun n => negb (n =? 0)) show
                    "row-new" (sampleAdd None 7) otherTenantWorld) UC).
Defined.

Lemma create_effect_witness :
  exists r,
    wms_inventory_items
      (snd (post_root sampleCatalog sampleIsUuid samplePgDate samplePgNumeric Z
              (fun n => 0 <=? n) (fun n => negb (n =? 0)) show
              "row-new" (sampleAdd None 7) fefoWorld))
    = wms_inventory_items fefoWorld ++ [r]
    /\ id r = "row-new" /\ tenantId r = "tenant-1"
    /\ availableQuantity r = 7 /\ reservedQuantity r = 0.
Proof.
  destruct (proj1 (create_effect sampleCatalog sampleIsUuid samplePgDate samplePgNumeric Z
                     (fun n => 0 <=? n) (fun n => negb (n =? 0)) show
                     "row-new" (sampleAdd None 7) fefoWorld _ _ eq_refl) eq_refl)
    as [r [_ [H1 [H2 [H3 [_ [_ [H4 [H5 _]]]]]]]]].
  exists r. auto.
Defined.


(** * The adjustment form and the handler *)

(** For a row of the caller's tenant showing its current availableQuantity,
    the quantity the form announces is the one the handler stores: a valid
    adjustment announced as a quantity from 0 to the largest value of the
    [integer] column is answered with 200 and leaves the row with the
    announced availableQuantity; a valid decrease announced as negative is
    answered with 400 "Insufficient stock for this adjustment" and a valid
    increase announced as more than the column can hold with 400
    "Validation failed", and neither changes any row. *)
Theorem form_announces_result (isUuid : string -> bool) (w : World) (r : InventoryItem)
    (direction : string) (q : Z) (why : string) :
  primaryKey w ->
  In r (wms_inventory_items w) ->
  id r <> "" -> isUuid (id r) = true ->
  direction = "increase" \/ direction = "decrease" ->
  1 <= q ->
  (1 <= String.length why <= 500)%nat ->
  (direction = "increase" \/ 0 <= newQuantity direction (availableQuantity r) (Some q) ->
   newQuantity direction (availableQuantity r) (Some q) <= 2147483647 ->
   exists resp w' r',
     post_id_adjust isUuid (mkAdjustRequest (id r) direction q why (tenantId r)) w
     = (Return resp, w')
     /\ status resp = 200
     /\ findRow (id r) w' = Some r'
     /\ availableQuantity r' = newQuantity direction (availableQuantity r) (Some q))
  /\ (direction = "decrease" ->
      newQuantity direction (availableQuantity r) (Some q) < 0 ->
      post_id_adjust isUuid (mkAdjustRequest (id r) direction q why (tenantId r)) w
      = (Return (mkResponse 400 false "Insufficient stock for this adjustment" None), w))
  /\ (direction = "increase" ->
      2147483647 < newQuantity direction (availableQuantity r) (Some q) ->
      exists w',
        post_id_adjust isUuid (mkAdjustRequest (id r) direction q why (tenantId r)) w
        = (Return (mkResponse 400 false "Validation failed" None), w')
        /\ wms_inventory_items w' = wms_inventory_items w).
Proof.
  intros PK Hin Hne Huuid Hdir Hq [Hw1 Hw2].
  assert (Hvalid : validRequest isUuid (mkAdjustRequest (id r) direction q why (tenantId r))
                   = true).
  { unfold validRequest. cbn [params_id body_adjustmentType body_quantity body_reason].
    rewrite Huuid, (proj2 (Z.leb_le _ _) Hq), (proj2 (Nat.leb_le _ _) Hw1),
      (proj2 (Nat.leb_le _ _) Hw2).
    destruct Hdir as [-> | ->]; reflexivity. }
  pose proof (adjust_run isUuid (mkAdjustRequest (id r) direction q why (tenantId r)) w r
                PK Hin eq_refl eq_refl Hne Hvalid) as Hrun.
  cbn [params_id body_adjustmentType body_quantity] in Hrun.
  pose proof (columns_bounds w r Hin) as Hb.
  assert (Hstored : forall nq,
             -2147483648 <= nq <= 2147483647 ->
             exists resp w' r',
               afterAdjust (mkAdjustRequest (id r) direction q why (tenantId r)) nq w
               = (Return resp, w')
               /\ status resp = 200
               /\ findRow (id r) w' = Some r'
               /\ availableQuantity r' = nq).
  { intros nq Hnq.
    destruct (afterAdjust_cases (mkAdjustRequest (id r) direction q why (tenantId r)) nq w)
      as [[_ [w' [Ha [Hrows _]]]]|[Hfit _]].
    - exists (adjustedResponse (mkAdjustRequest (id r) direction q why (tenantId r)) nq w),
             w', (set_available nq (dates w (ticks w)) r).
      split; [exact Ha|]. split; [reflexivity|]. split; [|reflexivity].
      apply (findRow_updated (set_available nq (dates w (ticks w))) w); auto.
    - exfalso. rewrite (adjustedRows_fit _ _ w r PK Hin eq_refl) in Hfit.
      apply not_true_iff_false in Hfit. apply Hfit. apply int4_spec. exact Hnq. }
  unfold newQuantity. cbn [or_zero].
  split; [|split].
  - intros Hok Hmax. destruct (direction =? "increase")%string eqn:Ed.
    + rewrite Hrun. apply Hstored. lia.
    + destruct Hok as [Hi|Hok]; [rewrite Hi in Ed; discriminate|].
      destruct (Z.ltb_spec (availableQuantity r - q) 0); [lia|].
      rewrite Hrun. apply Hstored. lia.
  - intros Hd Hneg. subst direction. cbn in Hneg, Hrun.
    destruct (Z.ltb_spec (availableQuantity r - q) 0); [exact Hrun | lia].
  - intros Hd Hbig. subst direction. cbn in Hbig, Hrun. rewrite Hrun.
    destruct (afterAdjust_cases (mkAdjustRequest (id r) "increase" q why (tenantId r))
                (availableQuantity r + q) w) as [[Hfit _]|[_ Ha]].
    + exfalso. rewrite (adjustedRows_fit _ _ w r PK Hin eq_refl) in Hfit.
      apply int4_spec in Hfit. lia.
    + exists (tick w). split; [exact Ha | reflexivity].
Qed.

Lemma form_announces_result_witness :
  primaryKey fefoWorld
  /\ 1 <= 6
  /\ (exists resp w' r',
        post_id_adjust (fun _ => true)
          (mkAdjustRequest "row-1" "increase" 6 "delivery" "tenant-1") fefoWorld
        = (Return resp, w')
        /\ status resp = 200
        /\ findRow "row-1" w' = Some r'
        /\ availableQuantity r' = 11)
  /\ post_id_adjust (fun _ => true)
       (mkAdjustRequest "row-1" "decrease" 6 "spoiled" "tenant-1") fefoWorld
     = (Return (mkResponse 400 false "Insufficient stock for this adjustment" None),
        fefoWorld)
  /\ primaryKey brimWorld
  /\ exists w',
       post_id_adjust (fun _ => true)
         (mkAdjustRequest "row-1" "increase" 6 "delivery" "tenant-1") brimWorld
       = (Return (mkResponse 400 false "Validation failed" None), w')
       /\ wms_inventory_items w' = wms_inventory_items brimWorld.
Proof.
  assert (PK : primaryKey fefoWorld) by (apply distinct_primaryKey; reflexivity).
  assert (PKb : primaryKey brimWorld) by (apply distinct_primaryKey; reflexivity).
  split; [exact PK|]. split; [lia|]. split; [|split; [|split; [exact PKb|]]].
  - apply (proj1 (form_announces_result (fun _ => true) fefoWorld
                    (sampleRow "row-1" "tenant-1" (Some (mkDate 2024 1 1)) 5 0)
                    "increase" 6 "delivery" PK (or_introl eq_refl)
                    ltac:(discriminate) eq_refl (or_introl eq_refl)
                    ltac:(lia) ltac:(simpl; lia))).
    + left. reflexivity.
    + vm_compute. discriminate.
  - apply (proj1 (proj2 (form_announces_result (fun _ => true) fefoWorld
                    (sampleRow "row-1" "tenant-1" (Some (mkDate 2024 1 1)) 5 0)
                    "decrease" 6 "spoiled" PK (or_introl eq_refl)
                    ltac:(discriminate) eq_refl (or_intror eq_refl)
                    ltac:(lia) ltac:(simpl; lia)))).
    + reflexivity.
    + vm_compute. reflexivity.
  - apply (proj2 (proj2 (form_announces_result (fun _ => true) brimWorld
                    (sampleRow "row-1" "tenant-1" None 2147483647 1)
                    "increase" 6 "delivery" PKb (or_introl eq_refl)
                    ltac:(discriminate) eq_refl (or_introl eq_refl)
                    ltac:(lia) ltac:(simpl; lia)))).
    + reflexivity.
    + vm_compute. reflexivity.
Defined.

(** * Editing a row *)

Section EditFacts.

Variable cat : Catalog.
Variable pgDate : string -> option Date.
Variable pgNumeric : string -> option string.
Variable JsNumber : Type.
Variable truthy : JsNumber -> bool.
Variable numberToString : JsNumber -> string.

Local Notation "'put'" := (put_id cat pgDate pgNumeric JsNumber truthy numberToString).
Local Notation "'setOf'" := (editSet cat pgDate pgNumeric JsNumber truthy numberToString).

Lemma editSet_keeps req now set r :
  setOf req now = Some set ->
  id (set r) = id r /\ tenantId (set r) = tenantId r /\ createdAt (set r) = createdAt r
  /\ updatedAt (set r) = now
  /\ (forall q, edit_availableQuantity JsNumber req = Value q -> availableQuantity (set r) = q)
  /\ (forall q, edit_reservedQuantity JsNumber req = Value q -> reservedQuantity (set r) = q)
  /\ (edit_availableQuantity JsNumber req = Absent ->
      availableQuantity (set r) = availableQuantity r)
  /\ (edit_reservedQuantity JsNumber req = Absent ->
      reservedQuantity (set r) = reservedQuantity r).
Proof.
  unfold editSet. intros H.
  destruct (setColumn _ (edit_productId JsNumber req)) as [fp|]; [|discriminate].
  destruct (setColumn _ (edit_binId JsNumber req)) as [fb|]; [|discriminate].
  destruct (setColumn _ (edit_availableQuantity JsNumber req)) as [fa|] eqn:Ea;
    [|discriminate].
  destruct (setColumn _ (edit_reservedQuantity JsNumber req)) as [fr|] eqn:Er;
    [|discriminate].
  destruct (pgInput pgDate (or_null (edit_expiryDate JsNumber req))); [|discriminate].
  destruct (pgInput pgDate (or_null (edit_receivedDate JsNumber req))); [|discriminate].
  destruct (pgInput pgNumeric _); [|discriminate].
  destruct (fitsVarchar100 _ && fitsVarchar100 _); [|discriminate].
  inversion H; subst; clear H. cbn.
  repeat split; intros; try reflexivity.
  - rewrite H in Ea. cbn in Ea. destruct (int4 q); inversion Ea. reflexivity.
  - rewrite H in Er. cbn in Er. destruct (int4 q); inversion Er. reflexivity.
  - rewrite H in Ea. cbn in Ea. inversion Ea. reflexivity.
  - rewrite H in Er. cbn in Er. inversion Er. reflexivity.
Qed.

Lemma put_found req w r :
  primaryKey w -> In r (wms_inventory_items w) ->
  id r = edit_params_id JsNumber req -> tenantId r = edit_activeTenantId JsNumber req ->
  (exists w',
      put req w
      = (Return (mkItemResponse 500 false (Some "Internal server error") None), w')
      /\ wms_inventory_items w' = wms_inventory_items w)
  \/ (exists set w',
        setOf req (dates w (ticks w)) = Some set
        /\ put req w = (Return (mkItemResponse 200 true None (Some (set r))), w')
        /\ wms_inventory_items w'
           = map (fun x => if (id x =? id r)%string then set x else x)
                 (wms_inventory_items w)).
Proof.
  intros PK Hin Hid Hten.
  assert (Hsel : filter (fun x => (id x =? edit_params_id JsNumber req)%string
                                  && (tenantId x =? edit_activeTenantId JsNumber req)%string)
                        (wms_inventory_items w) = [r]).
  { rewrite <- Hid, <- Hten.
    apply (select_by_id (fun x => (tenantId x =? tenantId r)%string)); auto.
    apply String.eqb_refl. }
  cbv [put_id try_catch bind select_where ret limit new_Date throw].
  rewrite Hsel. cbn [firstn tick wms_inventory_items dates ticks].
  destruct (setOf req (dates w (ticks w))) as [set|] eqn:Es.
  - destruct (update_where_cases set (fun x => (id x =? edit_params_id JsNumber req)%string)
                (tick w)) as [[_ [w' [Hup [Hrows _]]]]|[_ Hup]]; rewrite Hup.
    + right. exists set, w'. cbn [tick wms_inventory_items] in Hrows |- *.
      rewrite <- Hid in Hrows |- *. rewrite (select_id_only _ _ PK Hin).
      split; [reflexivity|]. split; [reflexivity | exact Hrows].
    + left. exists (tick w). split; reflexivity.
  - left. exists (tick w). split; reflexivity.
Qed.

(** For a row of the caller's tenant, [PUT /:id] either answers 500 and
    leaves the table as it was, or answers 200 with the row as stored: the
    row keeps its id, its tenant and its creation time, carries the
    quantities of the request where the request gives them and its own
    where it does not, and every other row is as it was. *)
Theorem edit_outcomes (req : EditRequest JsNumber) (w : World) (r : InventoryItem) :
  primaryKey w ->
  In r (wms_inventory_items w) ->
  id r = edit_params_id JsNumber req ->
  tenantId r = edit_activeTenantId JsNumber req ->
  (exists w',
      put req w = (Return (mkItemResponse 500 false (Some "Internal server error") None), w')
      /\ wms_inventory_items w' = wms_inventory_items w)
  \/ (exists r' w',
        put req w = (Return (mkItemResponse 200 true None (Some r')), w')
        /\ findRow (id r) w' = Some r'
        /\ id r' = id r /\ tenantId r' = tenantId r /\ createdAt r' = createdAt r
        /\ (forall q, edit_availableQuantity JsNumber req = Value q ->
                      availableQuantity r' = q)
        /\ (forall q, edit_reservedQuantity JsNumber req = Value q ->
                      reservedQuantity r' = q)
        /\ (edit_availableQuantity JsNumber req = Absent ->
            availableQuantity r' = availableQuantity r)
        /\ (edit_reservedQuantity JsNumber req = Absent ->
            reservedQuantity r' = reservedQuantity r)
        /\ Forall2 (fun x x' => id x' = id x /\ (id x <> id r -> x' = x))
                   (wms_inventory_items w) (wms_inventory_items w')).
Proof.
  intros PK Hin Hid Hten.
  destruct (put_found req w r PK Hin Hid Hten) as [Hrefused|[set [w' [Es [Hput Hrows]]]]].
  - left. exact Hrefused.
  - right. destruct (editSet_keeps req _ set r Es) as [K1 [K2 [K3 [_ [K4 [K5 [K6 K7]]]]]]].
    exists (set r), w'. split; [exact Hput|].
    split.
    { apply (findRow_updated set w); auto.
      intros x. apply (editSet_keeps req _ set x Es). }
    repeat (split; [assumption|]).
    rewrite Hrows. apply Forall2_of_map. intros x _.
    destruct (id x =? id r)%string eqn:Ex.
    + split; [apply (editSet_keeps req _ set x Es)|].
      apply String.eqb_eq in Ex. congruence.
    + split; reflexivity.
Qed.

(** A request for the id of a row of another tenant is answered with 404
    "Inventory item not found" and writes nothing. *)
Theorem edit_other_tenant (req : EditRequest JsNumber) (w : World) (r : InventoryItem) :
  primaryKey w ->
  In r (wms_inventory_items w) ->
  id r = edit_params_id JsNumber req ->
  tenantId r <> edit_activeTenantId JsNumber req ->
  put req w
  = (Return (mkItemResponse 404 false (Some "Inventory item not found") None), w).
Proof.
  intros PK Hin Hid Hten.
  assert (Hsel : filter (fun x => (id x =? edit_params_id JsNumber req)%string
                                  && (tenantId x =? edit_activeTenantId JsNumber req)%string)
                        (wms_inventory_items w) = []).
  { destruct (filter _ _) as [|r0 l] eqn:E; [reflexivity|]. exfalso.
    assert (H : In r0 (r0 :: l)) by (left; reflexivity). rewrite <- E in H.
    apply filter_In in H. destruct H as [Hin0 H]. apply andb_true_iff in H.
    destruct H as [H1 H2]. apply String.eqb_eq in H1, H2.
    assert (r0 = r)
      by (apply (primaryKey_unique (wms_inventory_items w)); auto; congruence).
    subst r0. exact (Hten H2). }
  cbv [put_id try_catch bind select_where ret limit]. rewrite Hsel. reflexivity.
Qed.

End EditFacts.

Lemma edit_outcomes_witness :
  primaryKey fefoWorld
  /\ exists r' w',
       put_id sampleCatalog samplePgDate samplePgNumeric Z (fun n => negb (n =? 0)) show
         (mkEditRequest Z "row-2" "tenant-1" Absent (Value "bin-1") (Value 12) Absent
            (Some "2024-07-01") (Some "") None None (Some 0)) fefoWorld
       = (Return (mkItemResponse 200 true None (Some r')), w')
       /\ findRow "row-2" w' = Some r'
       /\ availableQuantity r' = 12 /\ reservedQuantity r' = 0
       /\ batchNumber r' = None /\ costPerUnit r' = None.
Proof.
  assert (PK : primaryKey fefoWorld) by (apply distinct_primaryKey; reflexivity).
  split; [exact PK|].
  destruct (edit_outcomes sampleCatalog samplePgDate samplePgNumeric Z
              (fun n => negb (n =? 0)) show
              (mkEditRequest Z "row-2" "tenant-1" Absent (Value "bin-1") (Value 12) Absent
                 (Some "2024-07-01") (Some "") None None (Some 0)) fefoWorld
              (sampleRow "row-2" "tenant-1" (Some (mkDate 2024 6 1)) 10 0)
              PK (or_intror (or_introl eq_refl)) eq_refl eq_refl)
    as [[w' [H _]]|[r' [w' [H1 [H2 [_ [_ [_ [H3 [_ [_ [H4 _]]]]]]]]]]]].
  - exfalso.
    apply (f_equal (fun p => match fst p with
                             | Return resp => item_status resp
                             | Throw _ => 0
                             end)) in H.
    vm_compute in H. discriminate.
  - exists r', w'. split; [exact H1|]. split; [exact H2|].
    split; [apply H3; reflexivity|]. split; [rewrite H4; reflexivity|].
    apply (f_equal (fun p => match fst p with
                             | Return resp =>
                                 option_map (fun x => (batchNumber x, costPerUnit x))
                                            (item_data resp)
                             | Throw _ => None
                             end)) in H1.
    vm_compute in H1. injection H1 as Eb Ec. split; symmetry; assumption.
Defined.

Lemma edit_other_tenant_witness :
  primaryKey otherTenantWorld
  /\ "tenant-2" <> "tenant-1"
  /\ put_id sampleCatalog samplePgDate samplePgNumeric Z (fun n => negb (n =? 0)) show
       (mkEditRequest Z "row-9" "tenant-1" Absent Absent (Value 1000) (Value 0)
          None None None None None) otherTenantWorld
     = (Return (mkItemResponse 404 false (Some "Inventory item not found") None),
        otherTenantWorld).
Proof.
  assert (PK : primaryKey otherTenantWorld) by (apply distinct_primaryKey; reflexivity).
  split; [exact PK|]. split; [discriminate|].
  apply (edit_other_tenant sampleCatalog samplePgDate samplePgNumeric Z
           (fun n => negb (n =? 0)) show
           (mkEditRequest Z "row-9" "tenant-1" Absent Absent (Value 1000) (Value 0)
              None None None None None) otherTenantWorld
           (sampleRow "row-9" "tenant-2" None 0 5) PK (or_introl eq_refl) eq_refl).
  discriminate.
Defined.

(** * The engine and the unique combinations *)

Lemma same_combinations (l l' : list InventoryItem) :
  Forall2 (fun r r' => combination r' = combination r) l l' ->
  map combination l' = map combination l.
Proof.
  induction 1 as [|a b l l' Hab F IH]; [reflexivity|].
  cbn [map]. rewrite Hab, IH. reflexivity.
Qed.

Lemma perform_combinations (isUuid : string -> bool) (c : Call) (w : World) :
  primaryKey w ->
  Forall2 (fun r r' => combination r' = combination r)
          (wms_inventory_items w) (wms_inventory_items (perform isUuid c w)).
Proof.
  intros PK.
  assert (Hsame : Forall2 (fun r r' => combination r' = combination r)
                          (wms_inventory_items w) (wms_inventory_items w))
    by (apply Forall2_refl_rows; reflexivity).
  destruct c as [p q t|i q|req]; cbn [perform].
  - destruct (reserveInventory_run p q t w PK) as [w0 [Hrun Hrows]].
    rewrite Hrun. cbn [snd]. eapply Forall2_In_impl; [|exact Hrows].
    intros a b _ Ht. unfold touched in Ht.
    destruct (find _ _); [destruct Ht as [now Ht]|]; rewrite Ht; reflexivity.
  - destruct (release_rows i q w PK) as [E|[r [Hin [Hid [_ [_ [_ E]]]]]]]; rewrite E;
      [exact Hsame|].
    eapply Forall2_In_impl; [|apply released_rows; eassumption].
    intros a b _. cbn beta. destruct (id a =? i)%string; intros ->; reflexivity.
  - destruct (adjust_rows isUuid req w) as [E|[r [l [nq [_ [_ [_ [_ [_ [_ E]]]]]]]]]];
      rewrite E; [exact Hsame|].
    unfold adjustedRows. apply Forall2_of_map.
    intros x _. destruct (id x =? params_id req)%string; reflexivity.
Qed.

(** No sequence of reserve, release and adjust calls makes two rows share
    their tenant, product, bin, batch number and lot number: the calls
    leave these columns of every row alone. *)
Theorem engine_keeps_combinations (isUuid : string -> bool) (calls : list Call)
    (w : World) :
  primaryKey w ->
  uniqueCombinations w ->
  map combination (wms_inventory_items (run isUuid calls w))
  = map combination (wms_inventory_items w)
  /\ uniqueCombinations (run isUuid calls w).
Proof.
  intros PK UC.
  assert (H : map combination (wms_inventory_items (run isUuid calls w))
              = map combination (wms_inventory_items w)).
  { revert w PK UC. induction calls as [|c rest IH]; intros w PK UC; [reflexivity|].
    cbn [run].
    pose proof (same_combinations _ _ (perform_combinations isUuid c w PK)) as Hc.
    rewrite IH; [exact Hc | apply perform_primaryKey; exact PK |].
    unfold uniqueCombinations. rewrite Hc. exact UC. }
  split; [exact H|]. unfold uniqueCombinations. rewrite H. exact UC.
Qed.

Lemma engine_keeps_combinations_witness :
  primaryKey otherTenantWorld
  /\ uniqueCombinations otherTenantWorld
  /\ uniqueCombinations
       (run (fun _ => true)
            [Release "row-9" 2; Reserve "product-1" 1 "tenant-2";
             Adjust (mkAdjustRequest "row-9" "increase" 3 "found" "tenant-2")]
            otherTenantWorld).
Proof.
  assert (PK : primaryKey otherTenantWorld) by (apply distinct_primaryKey; reflexivity).
  assert (UC : uniqueCombinations otherTenantWorld).
  { unfold uniqueCombinations. simpl. constructor; [intros [] | constructor]. }
  split; [exact PK|]. split; [exact UC|].
  exact (proj2 (engine_keeps_combinations (fun _ => true)
                  [Release "row-9" 2; Reserve "product-1" 1 "tenant-2";
                   Adjust (mkAdjustRequest "row-9" "increase" 3 "found" "tenant-2")]
                  otherTenantWorld PK UC)).
Defined.
